(** * Tool servers: invocation contract, HTTP fetch client, fixture loader

    A shallow embedding of the two tool servers of the repository:

    - [first_try_mcp]: four tools backed by public HTTP APIs (weather, IP
      information, dictionary, exchange rate), their shared [BaseTool]
      invocation wrapper, the retrying [HTTPClient] and the endpoints of the
      HTTP server;
    - [prometheus_grafana_fake_data]: the YAML [DataLoader] with its cache,
      the tools that reshape fixture records into Prometheus, Elasticsearch
      and SQL style documents, the helpers and the settings.

    Python values are an inductive type, exceptions are data, and code that
    touches the network, the file system or the clock is written in a
    state-and-exception monad over an explicit world. *)

From Stdlib Require Import ZArith List String Ascii Floats Lia Bool.
From stdpp Require Import base option list strings pretty gmap sorting.

Set Warnings "-register-all,-inexact-float".

Open Scope Z_scope.
Open Scope string_scope.

(** ** Python values

    The values that [json] and [yaml.safe_load] produce.  A [dict] is an
    association list in insertion order; its keys are strings, as in every
    JSON object and in the fixture files. *)

Inductive pyval : Type :=
| PNone
| PBool (b : bool)
| PInt (n : Z)
| PFloat (f : float)
| PStr (s : string)
| PList (l : list pyval)
| PDict (d : list (string * pyval)).

(** ** Text

    A [str] is the sequence of the bytes of its UTF-8 encoding.  On ASCII
    text ([isascii]) the methods below are Python's.  On other text Python
    consults the Unicode database for [isalpha], [upper], [lower], [strip],
    [\d] and [int], and [len] counts code points, not bytes: that is not
    modelled.  The properties of the code whose content depends on these
    methods carry the hypothesis that the texts concerned are ASCII; the
    lemmas that lead to them are about the definitions below. *)
Module Str.

Definition code (c : ascii) : nat := nat_of_ascii c.

Definition is_upper (c : ascii) : bool := (65 <=? code c)%nat && (code c <=? 90)%nat.
Definition is_lower (c : ascii) : bool := (97 <=? code c)%nat && (code c <=? 122)%nat.
Definition is_alpha (c : ascii) : bool := is_upper c || is_lower c.
Definition is_digit (c : ascii) : bool := (48 <=? code c)%nat && (code c <=? 57)%nat.
Definition is_hex (c : ascii) : bool :=
  is_digit c || ((97 <=? code c)%nat && (code c <=? 102)%nat)
             || ((65 <=? code c)%nat && (code c <=? 70)%nat).

(** The characters [str.strip()] removes: tab, line feed, vertical tab, form
    feed, carriage return, the four separators 0x1c-0x1f and the space. *)
Definition is_space (c : ascii) : bool :=
  ((9 <=? code c)%nat && (code c <=? 13)%nat)
  || ((28 <=? code c)%nat && (code c <=? 32)%nat).

Definition to_upper (c : ascii) : ascii :=
  if is_lower c then ascii_of_nat (code c - 32) else c.
Definition to_lower (c : ascii) : ascii :=
  if is_upper c then ascii_of_nat (code c + 32) else c.

Definition chars (s : string) : list ascii := list_ascii_of_string s.
Definition of_chars (l : list ascii) : string := string_of_list_ascii l.

Fixpoint map_chars (f : ascii -> ascii) (s : string) : string :=
  match s with
  | EmptyString => EmptyString
  | String c s' => String (f c) (map_chars f s')
  end.

Definition upper : string -> string := map_chars to_upper.
Definition lower : string -> string := map_chars to_lower.

Fixpoint all_chars (p : ascii -> bool) (s : string) : bool :=
  match s with
  | EmptyString => true
  | String c s' => p c && all_chars p s'
  end.

(** [s.isascii()] *)
Definition isascii (s : string) : bool := all_chars (fun c => (code c <? 128)%nat) s.

(** [s.isalpha()]: at least one character and every character a letter. *)
Definition isalpha (s : string) : bool :=
  match s with
  | EmptyString => false
  | _ => all_chars is_alpha s
  end.

Fixpoint drop_while (p : ascii -> bool) (l : list ascii) : list ascii :=
  match l with
  | [] => []
  | c :: l' => if p c then drop_while p l' else l
  end.

Definition lstrip_by (p : ascii -> bool) (s : string) : string :=
  of_chars (drop_while p (chars s)).
Definition rstrip_by (p : ascii -> bool) (s : string) : string :=
  of_chars (rev (drop_while p (rev (chars s)))).

(** [s.strip()] *)
Definition strip (s : string) : string := lstrip_by is_space (rstrip_by is_space s).

Definition is_char (c d : ascii) : bool := Ascii.eqb c d.

(** [s.replace(c, "")] for a one-character [c]. *)
Fixpoint remove_char (c : ascii) (s : string) : string :=
  match s with
  | EmptyString => EmptyString
  | String d s' => if is_char c d then remove_char c s' else String d (remove_char c s')
  end.

(** [s.replace(c, d)] for one-character [c] and [d]. *)
Definition replace_char (c d : ascii) : string -> string :=
  map_chars (fun x => if is_char c x then d else x).

(** [s.replace(c, t)] for a one-character [c]. *)
Fixpoint replace_char_by (c : ascii) (t : string) (s : string) : string :=
  match s with
  | EmptyString => EmptyString
  | String d s' =>
      if is_char c d then append t (replace_char_by c t s')
      else String d (replace_char_by c t s')
  end.

(** [s.split(sep)] for a one-character separator: never the empty list. *)
Fixpoint split (sep : ascii) (s : string) : list string :=
  match s with
  | EmptyString => [EmptyString]
  | String c s' =>
      if is_char sep c then EmptyString :: split sep s'
      else match split sep s' with
           | h :: t => String c h :: t
           | [] => [String c EmptyString]
           end
  end.

Fixpoint startswith (p s : string) : bool :=
  match p, s with
  | EmptyString, _ => true
  | String a p', String b s' => is_char a b && startswith p' s'
  | String _ _, EmptyString => false
  end.

(** [p in s] for two strings. *)
Fixpoint contains (p s : string) : bool :=
  startswith p s ||
  match s with
  | EmptyString => false
  | String _ s' => contains p s'
  end.

(** [s[:n]] *)
Fixpoint take (n : nat) (s : string) : string :=
  match n, s with
  | O, _ => EmptyString
  | S n', String c s' => String c (take n' s')
  | S _, EmptyString => EmptyString
  end.

Definition digit_value (c : ascii) : Z := Z.of_nat (code c - 48).

(** The number a run of decimal digits denotes, most significant first. *)
Definition digits_value (l : list ascii) : Z :=
  fold_left (fun acc c => 10 * acc + digit_value c) l 0.

(** The digits of an [int] literal: digits with single underscores between
    them. *)
Fixpoint digit_groups (prev_digit : bool) (l : list ascii) : bool :=
  match l with
  | [] => prev_digit
  | c :: l' =>
      if is_digit c then digit_groups true l'
      else if is_char "_" c then prev_digit && digit_groups false l'
      else false
  end.

(** [int(s)] in base ten: surrounding whitespace, an optional sign, then
    digits; [None] stands for [ValueError]. *)
Definition parse_int (s : string) : option Z :=
  let body := chars (strip s) in
  let '(neg, ds) :=
    match body with
    | c :: r => if is_char "-" c then (true, r)
                else if is_char "+" c then (false, r) else (false, body)
    | [] => (false, body)
    end in
  if digit_groups false ds
  then let v := digits_value (filter (fun c => is_digit c = true) ds) in
       Some (if neg then - v else v)
  else None.

End Str.

(** ** Exceptions

    The classes the code raises, catches or lets through, with Python's
    subclass relation.  [McpExn] is [first_try_mcp/src/utils/exceptions.py],
    [MonExn] is [prometheus_grafana_fake_data/src/utils/exceptions.py]. *)

Inductive builtin_exn : Type :=
| Exception | AttributeError | IndexError | KeyError | TypeError | ValueError
| OverflowError | ZeroDivisionError | RuntimeError | OSError | JSONDecodeError
| YAMLError.

(** The part of httpx's hierarchy the client names. *)
Inductive httpx_exn : Type :=
| HTTPError | RequestError | TransportError | TimeoutException | NetworkError
| ConnectError | ReadTimeout | HTTPStatusError.

Module McpExn.
Inductive cls : Type :=
| MCPServerError | ToolExecutionError | APIError | ValidationError
| ConfigurationError | TimeoutError.
End McpExn.

Module MonExn.
Inductive cls : Type :=
| MonitoringError | DataLoadError | ConfigurationError | ToolExecutionError
| ValidationError | TimeRangeError | FilterError.
End MonExn.

Inductive exn_class : Type :=
| Builtin (c : builtin_exn)
| Httpx (c : httpx_exn)
| Mcp (c : McpExn.cls)
| Mon (c : MonExn.cls).

(** The direct base class; [Exception] is the root. *)
Definition parent (c : exn_class) : option exn_class :=
  match c with
  | Builtin Exception => None
  | Builtin JSONDecodeError => Some (Builtin ValueError)
  | Builtin _ => Some (Builtin Exception)
  | Httpx HTTPError => Some (Builtin Exception)
  | Httpx RequestError => Some (Httpx HTTPError)
  | Httpx TransportError => Some (Httpx RequestError)
  | Httpx TimeoutException => Some (Httpx TransportError)
  | Httpx NetworkError => Some (Httpx TransportError)
  | Httpx ConnectError => Some (Httpx NetworkError)
  | Httpx ReadTimeout => Some (Httpx TimeoutException)
  | Httpx HTTPStatusError => Some (Httpx HTTPError)
  | Mcp McpExn.MCPServerError => Some (Builtin Exception)
  | Mcp _ => Some (Mcp McpExn.MCPServerError)
  | Mon MonExn.MonitoringError => Some (Builtin Exception)
  | Mon MonExn.TimeRangeError => Some (Mon MonExn.ValidationError)
  | Mon MonExn.FilterError => Some (Mon MonExn.ValidationError)
  | Mon _ => Some (Mon MonExn.MonitoringError)
  end.

#[global] Instance builtin_exn_eq_dec : EqDecision builtin_exn.
Proof. solve_decision. Defined.
#[global] Instance httpx_exn_eq_dec : EqDecision httpx_exn.
Proof. solve_decision. Defined.
#[global] Instance mcp_cls_eq_dec : EqDecision McpExn.cls.
Proof. solve_decision. Defined.
#[global] Instance mon_cls_eq_dec : EqDecision MonExn.cls.
Proof. solve_decision. Defined.
#[global] Instance exn_class_eq_dec : EqDecision exn_class.
Proof. solve_decision. Defined.

(** [issubclass(c, d)]; no chain of bases is longer than six. *)
Fixpoint subclass_upto (fuel : nat) (c d : exn_class) : bool :=
  if decide (c = d) then true
  else match fuel with
       | O => false
       | S fuel' =>
           match parent c with
           | Some p => subclass_upto fuel' p d
           | None => false
           end
       end.

Definition issubclass : exn_class -> exn_class -> bool := subclass_upto 6.

(** One HTTP response as the client sees it: the status code, the body
    text, what [response.json()] gives (a value, or the message of the decode
    error) and the message [raise_for_status()] puts on its error. *)
Record response : Type := Response {
  status_code : Z;
  text : string;
  json : pyval + string;
  status_error : string
}.

(** An exception object: class, [str(e)], the [details] mapping of
    [MCPServerError], the [response] of an [HTTPStatusError], and
    [__cause__] as set by [raise ... from e]. *)
Inductive exn : Type :=
| Exn (cls : exn_class) (msg : string) (details : list (string * pyval))
      (resp : option response) (cause : option exn).

Definition exn_cls (e : exn) : exn_class := let 'Exn c _ _ _ _ := e in c.
Definition exn_str (e : exn) : string := let 'Exn _ m _ _ _ := e in m.
Definition exn_details (e : exn) : list (string * pyval) := let 'Exn _ _ d _ _ := e in d.
Definition exn_response (e : exn) : option response := let 'Exn _ _ _ r _ := e in r.
Definition exn_cause (e : exn) : option exn := let 'Exn _ _ _ _ c := e in c.

(** [isinstance(e, c)] *)
Definition isinstance (e : exn) (c : exn_class) : bool := issubclass (exn_cls e) c.

(** An exception raised by the interpreter or a library, with its text. *)
Definition builtin_error (c : builtin_exn) (m : string) : exn :=
  Exn (Builtin c) m [] None None.

(** ** Results and effects *)

Inductive result (A : Type) : Type :=
| Ok (a : A)
| Raise (e : exn).
Arguments Ok {A} a.
Arguments Raise {A} e.

#[global] Instance result_ret : MRet result := @Ok.
#[global] Instance result_bind : MBind result := fun A B f r =>
  match r with
  | Ok a => f a
  | Raise e => Raise e
  end.

(** [try: r except Exception as e: h e] for pure code. *)
Definition try_except {A} (r : result A) (h : exn -> result A) : result A :=
  match r with
  | Ok a => Ok a
  | Raise e => h e
  end.

(** Code running against a world [W]: the world survives an exception. *)
Definition M (W A : Type) : Type := W -> result A * W.

#[global] Instance M_ret {W} : MRet (M W) := fun A a w => (Ok a, w).
#[global] Instance M_bind {W} : MBind (M W) := fun A B f m w =>
  match m w with
  | (Ok a, w') => f a w'
  | (Raise e, w') => (Raise e, w')
  end.

Definition lift {W A} (r : result A) : M W A := fun w => (r, w).
Definition raise {W A} (e : exn) : M W A := fun w => (Raise e, w).

Definition catch {W A} (m : M W A) (h : exn -> M W A) : M W A := fun w =>
  match m w with
  | (Ok a, w') => (Ok a, w')
  | (Raise e, w') => h e w'
  end.

(** ** Operations of the interpreter on values *)
Module Py.

(** [type(v).__name__] *)
Definition type_name (v : pyval) : string :=
  match v with
  | PNone => "NoneType"
  | PBool _ => "bool"
  | PInt _ => "int"
  | PFloat _ => "float"
  | PStr _ => "str"
  | PList _ => "list"
  | PDict _ => "dict"
  end.

(** [bool(v)]: [None], [False], zero and the empty containers are false. *)
Definition truthy (v : pyval) : bool :=
  match v with
  | PNone => false
  | PBool b => b
  | PInt n => negb (n =? 0)%Z
  | PFloat f => negb (PrimFloat.eqb f 0%float)
  | PStr s => negb (String.eqb s "")
  | PList l => match l with [] => false | _ => true end
  | PDict d => match d with [] => false | _ => true end
  end.

(** [a or b] *)
Definition or_else (a b : pyval) : pyval := if truthy a then a else b.

(** Lookup in a [dict]; keys are unique, so the first binding is the one. *)
Fixpoint lookup (k : string) (d : list (string * pyval)) : option pyval :=
  match d with
  | [] => None
  | (k', v) :: d' => if String.eqb k k' then Some v else lookup k d'
  end.

(** [d[k] = v]: replaces the binding in place or appends a new one. *)
Fixpoint store (k : string) (v : pyval) (d : list (string * pyval)) : list (string * pyval) :=
  match d with
  | [] => [(k, v)]
  | (k', v') :: d' => if String.eqb k k' then (k, v) :: d' else (k', v') :: store k v d'
  end.

Definition keys (d : list (string * pyval)) : list string := map fst d.

Definition no_attribute (v : pyval) (a : string) : exn :=
  builtin_error AttributeError
    ("'" +:+ type_name v +:+ "' object has no attribute '" +:+ a +:+ "'").

(** [v.get(k, default)]: only a [dict] has [get]. *)
Definition get (v : pyval) (k : string) (otherwise : pyval) : result pyval :=
  match v with
  | PDict d => Ok (default otherwise (lookup k d))
  | _ => Raise (no_attribute v "get")
  end.

(** [v.get(k)] *)
Definition get_opt (v : pyval) (k : string) : result pyval := get v k PNone.

(** [v[0]] *)
Definition first (v : pyval) : result pyval :=
  match v with
  | PList (x :: _) => Ok x
  | PList [] => Raise (builtin_error IndexError "list index out of range")
  | PStr (String c _) => Ok (PStr (String c EmptyString))
  | PStr EmptyString => Raise (builtin_error IndexError "string index out of range")
  | PDict _ => Raise (builtin_error KeyError "0")
  | _ => Raise (builtin_error TypeError
                  ("'" +:+ type_name v +:+ "' object is not subscriptable"))
  end.

(** The elements [for x in v] visits. *)
Definition iter (v : pyval) : result (list pyval) :=
  match v with
  | PList l => Ok l
  | PDict d => Ok (map PStr (keys d))
  | PStr s => Ok (map (fun c => PStr (String c EmptyString)) (Str.chars s))
  | _ => Raise (builtin_error TypeError
                  ("'" +:+ type_name v +:+ "' object is not iterable"))
  end.

(** [v == s] for a string [s]. *)
Definition eq_str (v : pyval) (s : string) : bool :=
  match v with
  | PStr t => String.eqb t s
  | _ => false
  end.

(** [s in v] for a string [s]: a key of a dict, an element of a list, a
    substring of a string. *)
Definition contains_str (s : string) (v : pyval) : result bool :=
  match v with
  | PDict d => Ok (match lookup s d with Some _ => true | None => false end)
  | PList l => Ok (existsb (fun x => eq_str x s) l)
  | PStr t => Ok (Str.contains s t)
  | _ => Raise (builtin_error TypeError
                  ("argument of type '" +:+ type_name v +:+ "' is not iterable"))
  end.

(** [v[s]] for a string [s] *)
Definition getitem_str (v : pyval) (s : string) : result pyval :=
  match v with
  | PDict d => match lookup s d with
               | Some x => Ok x
               | None => Raise (builtin_error KeyError ("'" +:+ s +:+ "'"))
               end
  | PList _ => Raise (builtin_error TypeError
                        "list indices must be integers or slices, not str")
  | PStr _ => Raise (builtin_error TypeError "string indices must be integers, not 'str'")
  | _ => Raise (builtin_error TypeError
                  ("'" +:+ type_name v +:+ "' object is not subscriptable"))
  end.

(** [list(v.keys())] *)
Definition keys_list (v : pyval) : result pyval :=
  match v with
  | PDict d => Ok (PList (map PStr (keys d)))
  | _ => Raise (no_attribute v "keys")
  end.

(** *** Numbers *)

(** [float(n)] for an [int]: the nearest binary64 value, ties to even;
    beyond the largest finite value Python raises [OverflowError]. *)
Definition float_of_int (n : Z) : result float :=
  let f := SF2Prim (binary_normalize 53 1024 n 0 false) in
  if PrimFloat.is_infinity f
  then Raise (builtin_error OverflowError "int too large to convert to float")
  else Ok f.

Definition int_of_bool (b : bool) : Z := if b then 1 else 0.

(** [s * n] for a sequence: [n] copies, none when [n <= 0]. *)
Definition repeat_str (s : string) (n : Z) : string :=
  Nat.iter (Z.to_nat n) (fun acc => s +:+ acc) "".
Definition repeat_list (l : list pyval) (n : Z) : list pyval :=
  Nat.iter (Z.to_nat n) (fun acc => (l ++ acc)%list) [].

Definition unsupported (op : string) (a b : pyval) : exn :=
  builtin_error TypeError
    ("unsupported operand type(s) for " +:+ op +:+ ": '" +:+ type_name a
       +:+ "' and '" +:+ type_name b +:+ "'").

(** The integer a [bool] or [int] is, if it is one. *)
Definition as_int (v : pyval) : option Z :=
  match v with
  | PBool b => Some (int_of_bool b)
  | PInt n => Some n
  | _ => None
  end.

(** The error of a sequence multiplied by [v], which is not an integer. *)
Definition not_a_count (v : pyval) : exn :=
  builtin_error TypeError
    ("can't multiply sequence by non-int of type '" +:+ type_name v +:+ "'").

(** [a * b]: the product of two numbers, or a sequence repeated; a sequence
    on the left is asked first. *)
Definition mul (a b : pyval) : result pyval :=
  match as_int a, as_int b with
  | Some m, Some n => Ok (PInt (m * n))
  | Some m, None =>
      match b with
      | PFloat g => f ← float_of_int m; Ok (PFloat (f * g)%float)
      | PStr s => Ok (PStr (repeat_str s m))
      | PList l => Ok (PList (repeat_list l m))
      | _ => Raise (unsupported "*" a b)
      end
  | None, Some n =>
      match a with
      | PFloat f => g ← float_of_int n; Ok (PFloat (f * g)%float)
      | PStr s => Ok (PStr (repeat_str s n))
      | PList l => Ok (PList (repeat_list l n))
      | _ => Raise (unsupported "*" a b)
      end
  | None, None =>
      match a, b with
      | PFloat f, PFloat g => Ok (PFloat (f * g)%float)
      | PStr _, _ | PList _, _ => Raise (not_a_count b)
      | _, PStr _ | _, PList _ => Raise (not_a_count a)
      | _, _ => Raise (unsupported "*" a b)
      end
  end.

(** [v <= 0] for a number, as [validate_input] asks it of [amount]. *)
Definition le_zero (v : pyval) : option bool :=
  match v with
  | PBool b => Some (int_of_bool b <=? 0)%Z
  | PInt n => Some (n <=? 0)%Z
  | PFloat f => Some (PrimFloat.leb f 0%float)
  | _ => None
  end.

(** [str(v)]; [other] is what the interpreter prints for a float, a list
    or a dict. *)
Definition str (other : pyval -> string) (v : pyval) : string :=
  match v with
  | PNone => "None"
  | PBool true => "True"
  | PBool false => "False"
  | PInt n => pretty n
  | PStr s => s
  | _ => other v
  end.

(** *** Comparison *)

(** How an integer compares with a float, exactly; [None] for NaN. *)
Definition compare_int_float (n : Z) (f : float) : option comparison :=
  match Prim2SF f with
  | S754_zero _ => Some (n ?= 0)%Z
  | S754_infinity false => Some Lt
  | S754_infinity true => Some Gt
  | S754_nan => None
  | S754_finite s m e =>
      let v := if s then Z.neg m else Z.pos m in
      Some (if (0 <=? e)%Z then (n ?= v * 2 ^ e)%Z else (n * 2 ^ (- e) ?= v)%Z)
  end.

Definition compare_floats (f g : float) : option comparison :=
  match PrimFloat.compare f g with
  | FEq => Some Eq
  | FLt => Some Lt
  | FGt => Some Gt
  | FNotComparable => None
  end.

Definition is_eq (o : option comparison) : bool :=
  match o with Some Eq => true | _ => false end.

(** [a == b], by value. *)
Fixpoint eq (a b : pyval) {struct a} : bool :=
  match a, b with
  | PNone, PNone => true
  | PStr s, PStr t => String.eqb s t
  | PList l1, PList l2 =>
      (fix all2 (l1 l2 : list pyval) {struct l1} : bool :=
         match l1, l2 with
         | [], [] => true
         | x :: l1', y :: l2' => eq x y && all2 l1' l2'
         | _, _ => false
         end) l1 l2
  | PDict d1, PDict d2 =>
      (length d1 =? length d2)%nat &&
      (fix within (d1 : list (string * pyval)) {struct d1} : bool :=
         match d1 with
         | [] => true
         | (k, v) :: d1' =>
             match lookup k d2 with
             | Some w => eq v w
             | None => false
             end && within d1'
         end) d1
  | PFloat f, PFloat g => is_eq (compare_floats f g)
  | PFloat f, _ =>
      match as_int b with
      | Some n => is_eq (compare_int_float n f)
      | None => false
      end
  | _, PFloat g =>
      match as_int a with
      | Some m => is_eq (compare_int_float m g)
      | None => false
      end
  | _, _ =>
      match as_int a, as_int b with
      | Some m, Some n => (m =? n)%Z
      | _, _ => false
      end
  end.

(** [x in l] for a list [l]. *)
Definition member (x : pyval) (l : list pyval) : bool := existsb (eq x) l.

Definition not_supported (op : string) (a b : pyval) : exn :=
  builtin_error TypeError
    ("'" +:+ op +:+ "' not supported between instances of '" +:+ type_name a
       +:+ "' and '" +:+ type_name b +:+ "'").

(** The order of two values under the comparison written [op]: numbers by
    value, strings and lists lexicographically; the inner [None] is the
    unordered case of NaN. *)
Fixpoint order (op : string) (a b : pyval) {struct a} : result (option comparison) :=
  match a, b with
  | PStr s, PStr t => Ok (Some (String.compare s t))
  | PList l1, PList l2 =>
      (fix lex (l1 l2 : list pyval) {struct l1} : result (option comparison) :=
         match l1, l2 with
         | [], [] => Ok (Some Eq)
         | [], _ :: _ => Ok (Some Lt)
         | _ :: _, [] => Ok (Some Gt)
         | x :: l1', y :: l2' => if eq x y then lex l1' l2' else order op x y
         end) l1 l2
  | PFloat f, PFloat g => Ok (compare_floats f g)
  | PFloat f, _ =>
      match as_int b with
      | Some n => Ok (option_map CompOpp (compare_int_float n f))
      | None => Raise (not_supported op a b)
      end
  | _, PFloat g =>
      match as_int a with
      | Some m => Ok (compare_int_float m g)
      | None => Raise (not_supported op a b)
      end
  | _, _ =>
      match as_int a, as_int b with
      | Some m, Some n => Ok (Some (m ?= n)%Z)
      | _, _ => Raise (not_supported op a b)
      end
  end.

(** [a > b] *)
Definition gt (a b : pyval) : result bool :=
  o ← order ">" a b; Ok (match o with Some Gt => true | _ => false end).

(** [a <= b] *)
Definition le (a b : pyval) : result bool :=
  o ← order "<=" a b; Ok (match o with Some Lt | Some Eq => true | _ => false end).

(** [a < b] *)
Definition lt (a b : pyval) : result bool :=
  o ← order "<" a b; Ok (match o with Some Lt => true | _ => false end).

(** *** Arithmetic *)

(** [a + b] *)
Definition add (a b : pyval) : result pyval :=
  match as_int a, as_int b with
  | Some m, Some n => Ok (PInt (m + n))
  | Some m, None =>
      match b with
      | PFloat g => f ← float_of_int m; Ok (PFloat (f + g)%float)
      | _ => Raise (unsupported "+" a b)
      end
  | None, Some n =>
      match a with
      | PFloat f => g ← float_of_int n; Ok (PFloat (f + g)%float)
      | _ => Raise (unsupported "+" a b)
      end
  | None, None =>
      match a, b with
      | PFloat f, PFloat g => Ok (PFloat (f + g)%float)
      | PStr s, PStr t => Ok (PStr (s +:+ t))
      | PList l1, PList l2 => Ok (PList (l1 ++ l2)%list)
      | _, _ => Raise (unsupported "+" a b)
      end
  end.

(** [m / n] for two integers: the float nearest to the exact quotient. *)
Definition int_truediv (m n : Z) : result float :=
  if (n =? 0)%Z then Raise (builtin_error ZeroDivisionError "division by zero")
  else if (m =? 0)%Z then Ok (if (n <? 0)%Z then (-0)%float else 0%float)
  else
    let k := Z.max 0 (64 + Z.log2 (Z.abs n) - Z.log2 (Z.abs m)) in
    let num := Z.abs m * 2 ^ k in
    let q := num / Z.abs n in
    let sticky := if (num mod Z.abs n =? 0)%Z then 0 else 1 in
    let mant := 2 * q + sticky in
    let signed := if Bool.eqb (m <? 0)%Z (n <? 0)%Z then mant else - mant in
    let f := SF2Prim (binary_normalize 53 1024 signed (- k - 1) false) in
    if PrimFloat.is_infinity f
    then Raise (builtin_error OverflowError "integer division result too large for a float")
    else Ok f.

Definition float_truediv (f g : float) : result float :=
  if PrimFloat.eqb g 0%float
  then Raise (builtin_error ZeroDivisionError "float division by zero")
  else Ok (f / g)%float.

(** [a / b] *)
Definition truediv (a b : pyval) : result pyval :=
  match as_int a, as_int b with
  | Some m, Some n => f ← int_truediv m n; Ok (PFloat f)
  | Some m, None =>
      match b with
      | PFloat g => f ← float_of_int m; q ← float_truediv f g; Ok (PFloat q)
      | _ => Raise (unsupported "/" a b)
      end
  | None, Some n =>
      match a with
      | PFloat f => g ← float_of_int n; q ← float_truediv f g; Ok (PFloat q)
      | _ => Raise (unsupported "/" a b)
      end
  | None, None =>
      match a, b with
      | PFloat f, PFloat g => q ← float_truediv f g; Ok (PFloat q)
      | _, _ => Raise (unsupported "/" a b)
      end
  end.

(** [int(v)]: a float is truncated towards zero, a string is parsed. *)
Definition int_of (v : pyval) : result Z :=
  match v with
  | PBool b => Ok (int_of_bool b)
  | PInt n => Ok n
  | PFloat f =>
      match Prim2SF f with
      | S754_zero _ => Ok 0
      | S754_infinity _ =>
          Raise (builtin_error OverflowError "cannot convert float infinity to integer")
      | S754_nan => Raise (builtin_error ValueError "cannot convert float NaN to integer")
      | S754_finite s m e =>
          let a := if (0 <=? e)%Z then Z.pos m * 2 ^ e else Z.pos m / 2 ^ (- e) in
          Ok (if s then - a else a)
      end
  | PStr s =>
      match Str.parse_int s with
      | Some n => Ok n
      | None => Raise (builtin_error ValueError
                         ("invalid literal for int() with base 10: '" +:+ s +:+ "'"))
      end
  | _ => Raise (builtin_error TypeError
                  ("int() argument must be a string, a bytes-like object or a real number, not '"
                     +:+ type_name v +:+ "'"))
  end.

(** [v[:n]] *)
Definition slice_to (n : nat) (v : pyval) : result pyval :=
  match v with
  | PStr s => Ok (PStr (Str.take n s))
  | PList l => Ok (PList (firstn n l))
  | _ => Raise (builtin_error TypeError
                  ("'" +:+ type_name v +:+ "' object is not subscriptable"))
  end.

(** [len(v)] *)
Definition len (v : pyval) : result Z :=
  match v with
  | PStr s => Ok (Z.of_nat (String.length s))
  | PList l => Ok (Z.of_nat (length l))
  | PDict d => Ok (Z.of_nat (length d))
  | _ => Raise (builtin_error TypeError
                  ("object of type '" +:+ type_name v +:+ "' has no len()"))
  end.

(** [{ **d, **v }]: the bindings of [v] laid over those of [d]. *)
Definition merge (d : list (string * pyval)) (v : pyval) : result (list (string * pyval)) :=
  match v with
  | PDict e => Ok (fold_left (fun acc kv => store (fst kv) (snd kv) acc) e d)
  | _ => Raise (builtin_error TypeError
                  ("'" +:+ type_name v +:+ "' object is not a mapping"))
  end.

(** [v.items()] *)
Definition items (v : pyval) : result (list (string * pyval)) :=
  match v with
  | PDict d => Ok d
  | _ => Raise (no_attribute v "items")
  end.

End Py.

(** ** The network *)

(** What one call of [httpx.AsyncClient.get] does: it returns a response or
    raises. *)
Inductive outcome : Type :=
| Responded (r : response)
| Thrown (e : exn).

(** The world of the API server: the transport answers the [n]-th request
    (by URL and query parameters); [calls] counts the requests made so far
    and [sleeps] records the delays waited between attempts. *)
Record net : Type := Net {
  transport : nat -> string -> list (string * pyval) -> outcome;
  calls : nat;
  sleeps : list Z
}.

(** [first_try_mcp/src/config/settings.py], [APIConfig]. *)
Module settings.
Definition request_timeout : Z := 30.
Definition max_retries : Z := 3.
Definition retry_delay : float := 1.0%float.
End settings.

(** ** tenacity

    [@retry(stop=stop_after_attempt(n), wait=w, retry=p, reraise=True)]:
    call the function; when it raises an exception that [p] accepts and the
    attempt number is below [n], sleep [w attempt] and call again; any other
    exception, and the last one, is raised as it is. *)
Module tenacity.

(** [wait_exponential(multiplier, min, max)] at a given attempt number. *)
Definition wait_exponential (multiplier min_ max_ : Z) (attempt_number : nat) : Z :=
  let exp := 2 ^ (Z.of_nat attempt_number - 1) in
  let result := multiplier * exp in
  Z.max (Z.max 0 min_) (Z.min result max_).

(** [retry_if_exception_type(types)]: the raised exception itself is an
    instance of one of the types. *)
Definition retry_if_exception_type (types : list exn_class) (e : exn) : bool :=
  existsb (isinstance e) types.

Definition sleep (d : Z) : M net unit := fun w =>
  (Ok tt, Net (transport w) (calls w) (sleeps w ++ [d])).

(** [left] is how many further attempts [stop_after_attempt] still allows. *)
Fixpoint attempts {A} (left : nat) (attempt_number : nat) (wait : nat -> Z)
    (retry_if : exn -> bool) (f : M net A) : M net A :=
  catch f (fun e =>
    if retry_if e then
      match left with
      | O => raise e
      | S left' =>
          _ ← sleep (wait attempt_number);
          attempts left' (S attempt_number) wait retry_if f
      end
    else raise e).

Definition retry {A} (stop_after_attempt : nat) (wait : nat -> Z)
    (retry_if : exn -> bool) (f : M net A) : M net A :=
  attempts (stop_after_attempt - 1) 1 wait retry_if f.

End tenacity.

(** ** [first_try_mcp/src/utils/exceptions.py] *)

(** [MCPServerError(message, details)] and its plain subclasses. *)
Definition mcp_error (c : McpExn.cls) (message : string) (cause : option exn) : exn :=
  Exn (Mcp c) message [] None cause.

(** [APIError(message, status_code, response_text)]: a detail is recorded
    only when its value is truthy. *)
Definition api_error (message : string) (status_code : option Z)
    (response_text : option string) (cause : option exn) : exn :=
  let details := [] in
  let details :=
    match status_code with
    | Some c => if Py.truthy (PInt c) then Py.store "status_code" (PInt c) details else details
    | None => details
    end in
  let details :=
    match response_text with
    | Some t => if Py.truthy (PStr t) then Py.store "response_text" (PStr t) details else details
    | None => details
    end in
  Exn (Mcp McpExn.APIError) message details None cause.

(** ** [first_try_mcp/src/utils/http_client.py] *)
Module HTTPClient.

Record t : Type := Client {
  timeout : Z;
  max_retries : Z;
  retry_delay : float;
  (** [self._client is not None]: inside [async with]. *)
  entered : bool
}.

(** [HTTPClient()] *)
Definition init : t :=
  Client settings.request_timeout settings.max_retries settings.retry_delay false.

(** [__aenter__] *)
Definition aenter (self : t) : t :=
  Client (timeout self) (max_retries self) (retry_delay self) true.

(** [await self._client.get(url, params=params, headers=headers)] *)
Definition client_get (url : string) (params : list (string * pyval)) : M net response :=
  fun w =>
    let w' := Net (transport w) (S (calls w)) (sleeps w) in
    match transport w (calls w) url params with
    | Responded r => (Ok r, w')
    | Thrown e => (Raise e, w')
    end.

(** [response.raise_for_status()]: an [HTTPStatusError] carrying the
    response unless the status is 2xx. *)
Definition raise_for_status (r : response) : result unit :=
  if (200 <=? status_code r)%Z && (status_code r <=? 299)%Z then Ok tt
  else Raise (Exn (Httpx HTTPStatusError) (status_error r) [] (Some r) None).

(** [response.json()] *)
Definition response_json (r : response) : result pyval :=
  match json r with
  | inl v => Ok v
  | inr m => Raise (builtin_error JSONDecodeError m)
  end.

(** The [except] clauses of [get], tried in order. *)
Definition on_error {A} (url : string) (e : exn) : M net A :=
  if isinstance e (Httpx TimeoutException) then
    raise (mcp_error McpExn.TimeoutError ("Request to " +:+ url +:+ " timed out") (Some e))
  else if isinstance e (Httpx HTTPStatusError) then
    match exn_response e with
    | Some r =>
        raise (api_error ("HTTP " +:+ pretty (status_code r) +:+ " error for " +:+ url)
                 (Some (status_code r)) (Some (text r)) (Some e))
    | None => raise (Py.no_attribute PNone "status_code")
    end
  else if isinstance e (Httpx RequestError) then
    raise (api_error ("Request failed for " +:+ url +:+ ": " +:+ exn_str e) None None (Some e))
  else
    raise (api_error ("Unexpected error for " +:+ url +:+ ": " +:+ exn_str e) None None (Some e)).

(** The body of [get], under the decorator. *)
Definition get_once (self : t) (url : string) (params : list (string * pyval)) : M net pyval :=
  if negb (entered self) then
    raise (builtin_error RuntimeError "HTTPClient must be used as a context manager")
  else
    catch (response ← client_get url params;
           _ ← lift (raise_for_status response);
           lift (response_json response))
          (on_error url).

(** [get] as decorated: three attempts, exponential wait between one and
    ten seconds, retry on [httpx.TimeoutException] and [httpx.NetworkError]. *)
Definition get (self : t) (url : string) (params : list (string * pyval)) : M net pyval :=
  tenacity.retry 3 (tenacity.wait_exponential 1 1 10)
    (tenacity.retry_if_exception_type [Httpx TimeoutException; Httpx NetworkError])
    (get_once self url params).

(** [async with HTTPClient() as client: data = await client.get(url, params)] *)
Definition fetch (url : string) (params : list (string * pyval)) : M net pyval :=
  get (aenter init) url params.

End HTTPClient.

(** ** Regular expressions

    The patterns of the code are written as terms and matched with
    derivatives. *)
Module Re.

Inductive regex : Type :=
| Nothing
| Empty
| Class (p : ascii -> bool)
| Seq (r1 r2 : regex)
| Alt (r1 r2 : regex)
| Star (r : regex).

(** [r{n}] *)
Fixpoint times (n : nat) (r : regex) : regex :=
  match n with
  | O => Empty
  | S n' => Seq r (times n' r)
  end.

(** [r{0,n}] *)
Fixpoint upto (n : nat) (r : regex) : regex :=
  match n with
  | O => Empty
  | S n' => Alt Empty (Seq r (upto n' r))
  end.

(** [r{m,n}] *)
Definition between (m n : nat) (r : regex) : regex := Seq (times m r) (upto (n - m) r).

Fixpoint nullable (r : regex) : bool :=
  match r with
  | Nothing => false
  | Empty => true
  | Class _ => false
  | Seq r1 r2 => nullable r1 && nullable r2
  | Alt r1 r2 => nullable r1 || nullable r2
  | Star _ => true
  end.

Fixpoint deriv (c : ascii) (r : regex) : regex :=
  match r with
  | Nothing => Nothing
  | Empty => Nothing
  | Class p => if p c then Empty else Nothing
  | Seq r1 r2 =>
      if nullable r1 then Alt (Seq (deriv c r1) r2) (deriv c r2)
      else Seq (deriv c r1) r2
  | Alt r1 r2 => Alt (deriv c r1) (deriv c r2)
  | Star r' => Seq (deriv c r') (Star r')
  end.

(** The whole of [s] is a word of [r]. *)
Fixpoint fullmatch (r : regex) (s : list ascii) : bool :=
  match s with
  | [] => nullable r
  | c :: s' => fullmatch (deriv c r) s'
  end.

(** The words of a pattern. *)
Inductive lang : regex -> list ascii -> Prop :=
| lang_empty : lang Empty []
| lang_class p c : p c = true -> lang (Class p) [c]
| lang_seq r1 r2 s1 s2 : lang r1 s1 -> lang r2 s2 -> lang (Seq r1 r2) (s1 ++ s2)
| lang_alt_l r1 r2 s : lang r1 s -> lang (Alt r1 r2) s
| lang_alt_r r1 r2 s : lang r2 s -> lang (Alt r1 r2) s
| lang_star_nil r : lang (Star r) []
| lang_star_cons r s1 s2 : lang r s1 -> lang (Star r) s2 -> lang (Star r) (s1 ++ s2).

Definition newline : ascii := ascii_of_nat 10.

(** [re.match("^" r "$", s)]: [$] is the end of the string or the position
    just before a newline that ends it. *)
Definition match_anchored (r : regex) (s : string) : bool :=
  fullmatch r (Str.chars s) ||
  match rev (Str.chars s) with
  | c :: before => Str.is_char newline c && fullmatch r (rev before)
  | [] => false
  end.

End Re.

(** ** [first_try_mcp/src/tools/base.py] *)

(** Keyword arguments of a call. *)
Definition kwargs : Type := list (string * pyval).

Definition validation_error (message : string) : exn :=
  mcp_error McpExn.ValidationError message None.

Definition tool_execution_error (message : string) (cause : option exn) : exn :=
  mcp_error McpExn.ToolExecutionError message cause.

Record ToolMetadata : Type := Metadata {
  name : string;
  description : string;
  version : string;
  author : string;
  requires_api_key : bool
}.

(** What a subclass of [BaseTool] provides.  [execute] is given the keyword
    arguments of the call, as [self.execute( **kwargs)] passes them. *)
Record BaseTool : Type := Tool {
  metadata : ToolMetadata;
  validate_input : kwargs -> result unit;
  execute : kwargs -> M net pyval
}.

(** The first line of [__call__] logs with [extra=kwargs] through the
    tool's [ContextLogger], whose context is [{"tool": name}].  When the
    INFO level is enabled the adapter's [process] runs [extra.update(context)]
    on that very dict, so the keyword arguments that reach [validate_input]
    and [execute] carry a ["tool"] entry.  Nothing else of the logging is
    modelled: it writes to handlers and raises nothing. *)
Definition logged_kwargs (info_enabled : bool) (self : BaseTool) (kw : kwargs) : kwargs :=
  if info_enabled then Py.store "tool" (PStr (name (metadata self))) kw else kw.

(** [BaseTool.__call__]: validate, then execute; an exception of either is
    logged and raised again unchanged. *)
Definition __call__ (info_enabled : bool) (self : BaseTool) (kw : kwargs) : M net pyval :=
  let kw := logged_kwargs info_enabled self kw in
  catch (_ ← lift (validate_input self kw);
         result ← execute self kw;
         mret result)
        (fun e => raise e).

(** [APIBasedTool._build_url], with [base_url] already stripped of its
    trailing slashes by the constructor. *)
Definition _build_url (base_url endpoint : string) : string :=
  let endpoint := Str.lstrip_by (Str.is_char "/") endpoint in
  base_url +:+ "/" +:+ endpoint.

(** [APIBasedTool.__init__]: [base_url.rstrip("/")] *)
Definition api_base (base_url : string) : string := Str.rstrip_by (Str.is_char "/") base_url.

(** The error Python raises when a required parameter of [execute] is not
    among the keyword arguments. *)
Definition missing_argument (p : string) : exn :=
  builtin_error TypeError
    ("execute() missing 1 required positional argument: '" +:+ p +:+ "'").

(** [execute] is modelled at the types its signature declares; this is the
    error for a keyword argument of another type, which [validate_input]
    rules out before [execute] runs. *)
Definition ill_typed_argument (p : string) : exn :=
  builtin_error TypeError ("execute() argument '" +:+ p +:+ "' is not of its declared type").

(** ** [first_try_mcp/src/tools/weather.py] *)
Module WeatherTool.

Definition base_url : string := api_base "https://wttr.in".

Definition _get_metadata : ToolMetadata :=
  Metadata "weather" "Get current weather information for any location"
           "1.0.0" "Enterprise MCP Server" false.

Definition validate_input (kw : kwargs) : result unit :=
  let location := default PNone (Py.lookup "location" kw) in
  if negb (Py.truthy location) then
    Raise (validation_error "location parameter is required")
  else match location with
       | PStr s =>
           if (String.length (Str.strip s) =? 0)%nat
           then Raise (validation_error "location cannot be empty")
           else Ok tt
       | _ => Raise (validation_error "location must be a string")
       end.

(** [x.get(k, [{}])[0].get("value", d)] *)
Definition first_value (x : pyval) (k : string) (d : pyval) : result pyval :=
  l ← Py.get x k (PList [PDict []]);
  h ← Py.first l;
  Py.get h "value" d.

(** The mapping of the upstream document to the normalized result. *)
Definition normalize (location : string) (data : pyval) : result pyval :=
  cc ← Py.get data "current_condition" (PList [PDict []]);
  current ← Py.first cc;
  na ← Py.get data "nearest_area" (PList [PDict []]);
  location_info ← Py.first na;
  name ← first_value location_info "areaName" (PStr location);
  country ← first_value location_info "country" (PStr "");
  region ← first_value location_info "region" (PStr "");
  temperature_c ← Py.get current "temp_C" (PStr "");
  temperature_f ← Py.get current "temp_F" (PStr "");
  feels_like_c ← Py.get current "FeelsLikeC" (PStr "");
  feels_like_f ← Py.get current "FeelsLikeF" (PStr "");
  condition ← first_value current "weatherDesc" (PStr "");
  humidity ← Py.get current "humidity" (PStr "");
  precipitation_mm ← Py.get current "precipMM" (PStr "");
  pressure_mb ← Py.get current "pressure" (PStr "");
  wind_speed_kmph ← Py.get current "windspeedKmph" (PStr "");
  wind_direction ← Py.get current "winddir16Point" (PStr "");
  cloud_cover ← Py.get current "cloudcover" (PStr "");
  uv_index ← Py.get current "uvIndex" (PStr "");
  visibility_km ← Py.get current "visibility" (PStr "");
  observation_time ← Py.get current "observation_time" (PStr "");
  Ok (PDict [
    ("location", PDict [("name", name); ("country", country); ("region", region)]);
    ("current", PDict [
       ("temperature_c", temperature_c);
       ("temperature_f", temperature_f);
       ("feels_like_c", feels_like_c);
       ("feels_like_f", feels_like_f);
       ("condition", condition);
       ("humidity", humidity);
       ("precipitation_mm", precipitation_mm);
       ("pressure_mb", pressure_mb);
       ("wind_speed_kmph", wind_speed_kmph);
       ("wind_direction", wind_direction);
       ("cloud_cover", cloud_cover);
       ("uv_index", uv_index);
       ("visibility_km", visibility_km)]);
    ("observation_time", observation_time)]).

(** [execute(location, format="j1")] *)
Definition execute (location : string) (format : pyval) : M net pyval :=
  catch (let url := _build_url base_url location in
         let params := [("format", format)] in
         data ← HTTPClient.fetch url params;
         lift (normalize location data))
        (fun e => raise (tool_execution_error
                           ("Failed to fetch weather for " +:+ location +:+ ": " +:+ exn_str e)
                           (Some e))).

(** [self.execute( **kwargs)] *)
Definition apply (kw : kwargs) : M net pyval :=
  match Py.lookup "location" kw with
  | Some (PStr location) => execute location (default (PStr "j1") (Py.lookup "format" kw))
  | Some _ => raise (ill_typed_argument "location")
  | None => raise (missing_argument "location")
  end.

Definition tool : BaseTool := Tool _get_metadata validate_input apply.

End WeatherTool.

(** ** [first_try_mcp/src/tools/ip_info.py] *)
Module IPInfoTool.

Definition base_url : string := api_base "https://ipapi.co".

Definition _get_metadata : ToolMetadata :=
  Metadata "ip_info" "Get geolocation information for an IP address"
           "1.0.0" "Enterprise MCP Server" false.

(** [^(\d{1,3}\.){3}\d{1,3}$]; [\d] is the class of the ten ASCII digits,
    which is what it matches in ASCII text. *)
Definition ipv4_pattern : Re.regex :=
  Re.Seq (Re.times 3 (Re.Seq (Re.between 1 3 (Re.Class Str.is_digit))
                             (Re.Class (Str.is_char "."))))
         (Re.between 1 3 (Re.Class Str.is_digit)).

(** [^([0-9a-fA-F]{0,4}:){7}[0-9a-fA-F]{0,4}$] *)
Definition ipv6_pattern : Re.regex :=
  Re.Seq (Re.times 7 (Re.Seq (Re.between 0 4 (Re.Class Str.is_hex))
                             (Re.Class (Str.is_char ":"))))
         (Re.between 0 4 (Re.Class Str.is_hex)).

(** [all(0 <= int(octet) <= 255 for octet in octets)] *)
Fixpoint all_octets (octets : list string) : result bool :=
  match octets with
  | [] => Ok true
  | octet :: rest =>
      match Str.parse_int octet with
      | Some n => if (0 <=? n)%Z && (n <=? 255)%Z then all_octets rest else Ok false
      | None => Raise (builtin_error ValueError
                         ("invalid literal for int() with base 10: '" +:+ octet +:+ "'"))
      end
  end.

Definition _is_valid_ip (ip : string) : result bool :=
  if Re.match_anchored ipv4_pattern ip then
    let octets := Str.split "." ip in
    all_octets octets
  else if Re.match_anchored ipv6_pattern ip then Ok true
  else Ok false.

Definition validate_input (kw : kwargs) : result unit :=
  match Py.lookup "ip_address" kw with
  | None | Some PNone => Ok tt
  | Some (PStr ip_address) =>
      if String.eqb ip_address "" then Ok tt
      else
        valid ← _is_valid_ip (Str.strip ip_address);
        if negb valid
        then Raise (validation_error ("Invalid IP address format: " +:+ ip_address))
        else Ok tt
  | Some _ => Raise (validation_error "ip_address must be a string")
  end.

Definition rate_limit_message : string :=
  "API rate limit exceeded. The free ipapi.co service limits requests. "
  +:+ "Please try again later or use a specific IP address.".

Definition strict_rate_limit_message : string :=
  "API rate limit exceeded. The free ipapi.co service has strict rate limits. "
  +:+ "Please try again later.".

(** [v.lower()] *)
Definition lower_of (v : pyval) : result string :=
  match v with
  | PStr s => Ok (Str.lower s)
  | _ => Raise (Py.no_attribute v "lower")
  end.

(** The check of the upstream error flag. *)
Definition check_error (data : pyval) : result unit :=
  err ← Py.get_opt data "error";
  if Py.truthy err then
    error_msg ← Py.get data "reason" (PStr "Unknown error");
    low ← lower_of error_msg;
    if Str.contains "rate limit" low
       || match err with PBool true => true | _ => false end
    then Raise (tool_execution_error rate_limit_message None)
    else Raise (tool_execution_error
                  ("API error: " +:+ match error_msg with PStr m => m | _ => "" end) None)
  else Ok tt.

Definition normalize (data : pyval) : result pyval :=
  _ ← check_error data;
  ip ← Py.get data "ip" (PStr "");
  city ← Py.get data "city" (PStr "");
  region ← Py.get data "region" (PStr "");
  region_code ← Py.get data "region_code" (PStr "");
  country ← Py.get data "country_name" (PStr "");
  country_code ← Py.get data "country_code" (PStr "");
  continent_code ← Py.get data "continent_code" (PStr "");
  postal ← Py.get data "postal" (PStr "");
  latitude ← Py.get data "latitude" (PStr "");
  longitude ← Py.get data "longitude" (PStr "");
  timezone ← Py.get data "timezone" (PStr "");
  asn ← Py.get data "asn" (PStr "");
  org ← Py.get data "org" (PStr "");
  isp ← Py.get data "isp" (PStr "");
  currency ← Py.get data "currency" (PStr "");
  currency_name ← Py.get data "currency_name" (PStr "");
  languages ← Py.get data "languages" (PStr "");
  Ok (PDict [
    ("ip", ip);
    ("location", PDict [
       ("city", city); ("region", region); ("region_code", region_code);
       ("country", country); ("country_code", country_code);
       ("continent_code", continent_code); ("postal", postal);
       ("latitude", latitude); ("longitude", longitude); ("timezone", timezone)]);
    ("network", PDict [("asn", asn); ("org", org); ("isp", isp)]);
    ("currency", PDict [("code", currency); ("name", currency_name)]);
    ("languages", languages)]).

(** [execute(ip_address="")] *)
Definition execute (ip_address : string) : M net pyval :=
  catch (let endpoint := if negb (String.eqb ip_address "")
                         then ip_address +:+ "/json/" else "json/" in
         let url := _build_url base_url endpoint in
         data ← HTTPClient.fetch url [];
         lift (normalize data))
        (fun e =>
           if isinstance e (Mcp McpExn.ToolExecutionError) then raise e
           else
             let error_msg := exn_str e in
             if Str.contains "429" error_msg then
               raise (tool_execution_error strict_rate_limit_message (Some e))
             else
               raise (tool_execution_error
                        ("Failed to fetch IP info for "
                           +:+ (if negb (String.eqb ip_address "") then ip_address
                                else "current IP")
                           +:+ ": " +:+ error_msg)
                        (Some e))).

(** [self.execute( **kwargs)]; [None] for [ip_address] acts as the empty
    string everywhere [execute] looks at it. *)
Definition apply (kw : kwargs) : M net pyval :=
  match Py.lookup "ip_address" kw with
  | None | Some PNone => execute ""
  | Some (PStr ip_address) => execute ip_address
  | Some _ => raise (ill_typed_argument "ip_address")
  end.

Definition tool : BaseTool := Tool _get_metadata validate_input apply.

End IPInfoTool.

(** A [for] loop that builds up a value, stopping at the first exception. *)
Fixpoint for_loop {A B} (body : B -> A -> result B) (l : list A) (acc : B) : result B :=
  match l with
  | [] => Ok acc
  | x :: l' => acc' ← body acc x; for_loop body l' acc'
  end.

(** ** [first_try_mcp/src/tools/dictionary.py] *)
Module DictionaryTool.

Definition base_url : string := api_base "https://api.dictionaryapi.dev/api/v2/entries/en".

Definition _get_metadata : ToolMetadata :=
  Metadata "dictionary" "Look up word definitions, pronunciations, and examples"
           "1.0.0" "Enterprise MCP Server" false.

Definition validate_input (kw : kwargs) : result unit :=
  let word := default PNone (Py.lookup "word" kw) in
  if negb (Py.truthy word) then
    Raise (validation_error "word parameter is required")
  else match word with
       | PStr w =>
           if (String.length (Str.strip w) =? 0)%nat then
             Raise (validation_error "word cannot be empty")
           else if negb (Str.isalpha (Str.remove_char "'" (Str.remove_char "-" w))) then
             Raise (validation_error "word must contain only letters, hyphens, or apostrophes")
           else Ok tt
       | _ => Raise (validation_error "word must be a string")
       end.

Definition phonetic_entry (phonetics : list pyval) (phonetic : pyval) : result (list pyval) :=
  t ← Py.get_opt phonetic "text";
  keep ← (if Py.truthy t then Ok true
          else a ← Py.get_opt phonetic "audio"; Ok (Py.truthy a));
  if keep : bool then
    text ← Py.get phonetic "text" (PStr "");
    audio ← Py.get phonetic "audio" (PStr "");
    Ok (phonetics ++ [PDict [("text", text); ("audio", audio)]])%list
  else Ok phonetics.

Definition definition_entry (definitions : list pyval) (defn : pyval) : result (list pyval) :=
  d ← Py.get defn "definition" (PStr "");
  example ← Py.get defn "example" (PStr "");
  synonyms ← Py.get defn "synonyms" (PList []);
  antonyms ← Py.get defn "antonyms" (PList []);
  Ok (definitions ++ [PDict [("definition", d); ("example", example);
                             ("synonyms", synonyms); ("antonyms", antonyms)]])%list.

Definition meaning_entry (meanings : list pyval) (meaning : pyval) : result (list pyval) :=
  part_of_speech ← Py.get meaning "partOfSpeech" (PStr "");
  ds ← Py.get meaning "definitions" (PList []);
  ds ← Py.iter ds;
  definitions ← for_loop definition_entry ds [];
  synonyms ← Py.get meaning "synonyms" (PList []);
  antonyms ← Py.get meaning "antonyms" (PList []);
  Ok (meanings ++ [PDict [("part_of_speech", part_of_speech);
                          ("definitions", PList definitions);
                          ("synonyms", synonyms); ("antonyms", antonyms)]])%list.

Definition normalize (word : string) (data : pyval) : result pyval :=
  match data with
  | PList (entry :: _) =>
      ps ← Py.get entry "phonetics" (PList []);
      ps ← Py.iter ps;
      phonetics ← for_loop phonetic_entry ps [];
      ms ← Py.get entry "meanings" (PList []);
      ms ← Py.iter ms;
      meanings ← for_loop meaning_entry ms [];
      w ← Py.get entry "word" (PStr word);
      source_urls ← Py.get entry "sourceUrls" (PList []);
      Ok (PDict [("word", w); ("phonetics", PList phonetics);
                 ("meanings", PList meanings); ("source_urls", source_urls)])
  | _ => Raise (tool_execution_error ("No definition found for '" +:+ word +:+ "'") None)
  end.

(** [execute(word)]; the handler sees the word as reassigned in the body. *)
Definition execute (word : string) : M net pyval :=
  let word := Str.lower (Str.strip word) in
  catch (let url := _build_url base_url word in
         data ← HTTPClient.fetch url [];
         lift (normalize word data))
        (fun e =>
           if isinstance e (Mcp McpExn.ToolExecutionError) then raise e
           else raise (tool_execution_error
                         ("Failed to look up word '" +:+ word +:+ "': " +:+ exn_str e)
                         (Some e))).

Definition apply (kw : kwargs) : M net pyval :=
  match Py.lookup "word" kw with
  | Some (PStr word) => execute word
  | Some _ => raise (ill_typed_argument "word")
  | None => raise (missing_argument "word")
  end.

Definition tool : BaseTool := Tool _get_metadata validate_input apply.

End DictionaryTool.

(** ** [first_try_mcp/src/tools/exchange_rate.py] *)
Module ExchangeRateTool.

Definition base_url : string := api_base "https://open.er-api.com/v6".

Definition _get_metadata : ToolMetadata :=
  Metadata "exchange_rate" "Get currency exchange rates and convert between currencies"
           "1.0.0" "Enterprise MCP Server" false.

(** The three checks shared by the two currency parameters once the value
    is known to be there; [len] and [isalpha] as they are on ASCII text. *)
Definition check_code (param : string) (v : pyval) : result unit :=
  match v with
  | PStr s =>
      if negb (String.length s =? 3)%nat then
        Raise (validation_error (param +:+ " must be a 3-letter currency code"))
      else if negb (Str.isalpha s) then
        Raise (validation_error (param +:+ " must contain only letters"))
      else Ok tt
  | _ => Raise (validation_error (param +:+ " must be a string"))
  end.

Definition validate_input (kw : kwargs) : result unit :=
  let base_currency := default PNone (Py.lookup "base_currency" kw) in
  _ ← (if negb (Py.truthy base_currency)
       then Raise (validation_error "base_currency parameter is required")
       else check_code "base_currency" base_currency);
  let target_currency := default PNone (Py.lookup "target_currency" kw) in
  _ ← match target_currency with
      | PNone => Ok tt
      | _ => check_code "target_currency" target_currency
      end;
  let amount := default PNone (Py.lookup "amount" kw) in
  match amount with
  | PNone => Ok tt
  | _ =>
      match Py.le_zero amount with
      | None => Raise (validation_error "amount must be a number")
      | Some true => Raise (validation_error "amount must be positive")
      | Some false => Ok tt
      end
  end.

Section WithStr.

(** What [str()] gives for floats and containers. *)
Variable str_of : pyval -> string.

(** The part of [execute] after the response has arrived. *)
Definition normalize (base_currency : string) (target_currency : option string)
    (amount : option pyval) (data : pyval) : result pyval :=
  r ← Py.get_opt data "result";
  _ ← (if Py.eq_str r "error" then
         error_type ← Py.get data "error-type" (PStr "Unknown error");
         Raise (tool_execution_error
                  ("Exchange rate API error: " +:+ Py.str str_of error_type) None)
       else Ok tt);
  rates ← Py.get data "rates" (PDict []);
  base_code ← Py.get data "base_code" (PStr base_currency);
  last_update ← Py.get data "time_last_update_utc" (PStr "");
  next_update ← Py.get data "time_next_update_utc" (PStr "");
  let result := [("base_currency", base_code);
                 ("last_update", last_update);
                 ("next_update", next_update)] in
  match target_currency with
  | Some target_currency' =>
      if negb (String.eqb target_currency' "") then
        let target_currency := Str.upper target_currency' in
        present ← Py.contains_str target_currency rates;
        if negb present then
          Raise (tool_execution_error
                   ("Target currency '" +:+ target_currency +:+ "' not found") None)
        else
          rate ← Py.getitem_str rates target_currency;
          let conversion_amount := default (PFloat 1.0%float) amount in
          product ← Py.mul conversion_amount rate;
          Ok (PDict (Py.store "conversion"
                       (PDict [("from", PStr base_currency);
                               ("to", PStr target_currency);
                               ("rate", rate);
                               ("amount", conversion_amount);
                               ("result", product)])
                       result))
      else
        ks ← Py.keys_list rates;
        Ok (PDict (Py.store "available_currencies" ks (Py.store "rates" rates result)))
  | None =>
      ks ← Py.keys_list rates;
      Ok (PDict (Py.store "available_currencies" ks (Py.store "rates" rates result)))
  end.

(** [execute(base_currency, target_currency=None, amount=None)] *)
Definition execute (base_currency : string) (target_currency : option string)
    (amount : option pyval) : M net pyval :=
  let base_currency := Str.upper base_currency in
  catch (let url := _build_url base_url ("latest/" +:+ base_currency) in
         data ← HTTPClient.fetch url [];
         lift (normalize base_currency target_currency amount data))
        (fun e =>
           if isinstance e (Mcp McpExn.ToolExecutionError) then raise e
           else raise (tool_execution_error
                         ("Failed to fetch exchange rates for " +:+ base_currency
                            +:+ ": " +:+ exn_str e)
                         (Some e))).

Definition apply (kw : kwargs) : M net pyval :=
  match Py.lookup "base_currency" kw with
  | Some (PStr base_currency) =>
      match default PNone (Py.lookup "target_currency" kw) with
      | PNone =>
          execute base_currency None
                  (match default PNone (Py.lookup "amount" kw) with
                   | PNone => None | a => Some a end)
      | PStr target_currency =>
          execute base_currency (Some target_currency)
                  (match default PNone (Py.lookup "amount" kw) with
                   | PNone => None | a => Some a end)
      | _ => raise (ill_typed_argument "target_currency")
      end
  | Some _ => raise (ill_typed_argument "base_currency")
  | None => raise (missing_argument "base_currency")
  end.

Definition tool : BaseTool := Tool _get_metadata validate_input apply.

End WithStr.

End ExchangeRateTool.

(** The tools the HTTP server registers; [str_of] is what [str()] gives for
    floats and containers. *)
Definition api_tools (str_of : pyval -> string) : list BaseTool :=
  [WeatherTool.tool; IPInfoTool.tool; DictionaryTool.tool; ExchangeRateTool.tool str_of].

(** ** [prometheus_grafana_fake_data/src/utils/exceptions.py] *)

Definition mon_error (c : MonExn.cls) (message : string) (cause : option exn) : exn :=
  Exn (Mon c) message [] None cause.

(** ** [prometheus_grafana_fake_data/src/data_loader/loader.py] *)

(** What opening and parsing one file does at a given moment. *)
Inductive file : Type :=
| Missing
| Fails (e : exn)
| Loads (data : pyval).

(** The file system, by full path. *)
Definition disk : Type := string -> file.

(** ** pathlib

    [PurePosixPath], the flavour of [Path] on the systems the server runs
    on: a path is a root and the components between the slashes; empty
    components and single dots are dropped when a text is parsed, two dots
    are kept. *)
Module Path.

Record t : Type := Make {
  root : string;
  parts : list string
}.

(** The root of a text: exactly two leading slashes are kept as they are,
    one slash or three and more are one slash. *)
Definition root_of (s : string) : string :=
  match Str.chars s with
  | "/"%char :: "/"%char :: "/"%char :: _ => "/"
  | "/"%char :: "/"%char :: _ => "//"
  | "/"%char :: _ => "/"
  | _ => ""
  end.

Definition components (s : string) : list string :=
  List.filter (fun p => negb (String.eqb p "") && negb (String.eqb p "."))
              (Str.split "/" s).

(** [Path(s)] *)
Definition of_str (s : string) : t := Make (root_of s) (components s).

(** [self / other]: an absolute [other] replaces [self]. *)
Definition joinpath (self : t) (other : string) : t :=
  if Str.startswith "/" other then of_str other
  else Make (root self) (parts self ++ components other).

(** [str(self)] *)
Definition str (self : t) : string :=
  match root self, parts self with
  | EmptyString, [] => "."
  | r, ps => r +:+ String.concat "/" ps
  end.

End Path.

Module DataLoader.

(** [base_path] is the text the loader was made with; [self.base_path] of
    the code is [Path] of it. *)
Record t : Type := Loader {
  base_path : string;
  _cache : gmap string pyval
}.

(** [DataLoader(base_path)] *)
Definition init (base_path : string) : t := Loader base_path ∅.

(** [str(self.base_path / filepath)]: the text of the path that is tested,
    opened and named in the error. *)
Definition full_path (self : t) (filepath : string) : string :=
  Path.str (Path.joinpath (Path.of_str (base_path self)) filepath).

(** The body of the [try] of [load_yaml]: existence check, open and parse,
    then the write to the cache. *)
Definition read_and_cache (d : disk) (filepath : string) : M t pyval := fun self =>
  match d (full_path self filepath) with
  | Missing =>
      (Raise (mon_error MonExn.DataLoadError
                ("File not found: " +:+ full_path self filepath) None), self)
  | Fails e => (Raise e, self)
  | Loads data =>
      let stored := Py.or_else data (PDict []) in
      (Ok stored, Loader (base_path self) (<[filepath := stored]> (_cache self)))
  end.

Definition load_yaml (d : disk) (filepath : string) (use_cache : bool) : M t pyval :=
  fun self =>
    match (if use_cache then _cache self !! filepath else None) with
    | Some cached => (Ok cached, self)
    | None =>
        catch (read_and_cache d filepath)
              (fun e =>
                 if isinstance e (Builtin YAMLError) then
                   raise (mon_error MonExn.DataLoadError
                            ("Failed to parse YAML file " +:+ filepath +:+ ": " +:+ exn_str e)
                            (Some e))
                 else if isinstance e (Builtin OSError) then
                   raise (mon_error MonExn.DataLoadError
                            ("Failed to read file " +:+ filepath +:+ ": " +:+ exn_str e)
                            (Some e))
                 else raise e)
              self
    end.

Definition load_prometheus_metrics d := load_yaml d "prometheus/metrics.yaml" true.
Definition load_prometheus_alerts d := load_yaml d "prometheus/alerts.yaml" true.
Definition load_prometheus_targets d := load_yaml d "prometheus/targets.yaml" true.
Definition load_interface_logs d := load_yaml d "logs/interface_logs.yaml" true.
Definition load_batch_logs d := load_yaml d "logs/batch_logs.yaml" true.
Definition load_application_logs d := load_yaml d "logs/application_logs.yaml" true.
Definition load_server_metrics d := load_yaml d "performance/server_metrics.yaml" true.
Definition load_apm_data d := load_yaml d "performance/apm_data.yaml" true.
Definition load_grafana_dashboards d := load_yaml d "grafana/dashboards.yaml" true.
Definition load_grafana_datasources d := load_yaml d "grafana/datasources.yaml" true.
Definition load_appl_area_metrics d := load_yaml d "performance/appl_area_metrics.yaml" true.
Definition load_apm_traces d := load_yaml d "apm/traces.yaml" true.
Definition load_apm_metrics d := load_yaml d "apm/metrics.yaml" true.
Definition load_health_check_data d := load_yaml d "health_checks/api_endpoints.yaml" true.

Definition clear_cache : M t unit := fun self =>
  (Ok tt, Loader (base_path self) ∅).

(** [get_cache_stats()["cached_items"]] *)
Definition cached_items (self : t) : nat := size (_cache self).

(** One call on a loader, with the file system as it is at that moment. *)
Inductive op : Type :=
| LoadYaml (d : disk) (filepath : string) (use_cache : bool)
| ClearCache
| GetCacheStats.

Definition step (o : op) (self : t) : t :=
  match o with
  | LoadYaml d filepath use_cache => snd (load_yaml d filepath use_cache self)
  | ClearCache => snd (clear_cache self)
  | GetCacheStats => self
  end.

(** The loader after a sequence of calls, first call first. *)
Definition run (ops : list op) (self : t) : t := fold_left (fun s o => step o s) ops self.

End DataLoader.

(** ** The monitoring server's runtime

    What the interpreter and the operating system supply to the tools:
    formatting, hashing, the clock and the random UUIDs.  Readings of the
    clock and of the UUID source are numbered in the order they are made.
    The tools' logging ([_log_execution], [_log_error]) only writes to the
    log handlers and is left out. *)
Record runtime : Type := Runtime {
  (** [str(v)] for a float, a list or a dict *)
  str_of : pyval -> string;
  (** [json.dumps(v, indent=2)] *)
  json_dumps : pyval -> string;
  (** [hash(v)] of a hashable value *)
  hash_of : pyval -> Z;
  (** [datetime.now(timezone.utc)], in microseconds since 0001-01-01 *)
  now_utc : nat -> Z;
  (** [int(time.time())] *)
  time_time : nat -> Z;
  (** [uuid.uuid4().hex] *)
  uuid4_hex : nat -> string;
  (** [d.isoformat()] *)
  isoformat : Z -> string;
  (** [d.strftime("%Y.%m.%d")] *)
  strftime_ymd : Z -> string;
  (** [int(datetime.fromisoformat(s).timestamp() * 1_000_000)] *)
  iso_timestamp_us : string -> result Z
}.

(** [str(v)], also what an f-string puts for [{v}]. *)
Definition to_str (rt : runtime) (v : pyval) : string := Py.str (str_of rt) v.

(** The world of the monitoring server. *)
Record mon : Type := MonWorld {
  files : disk;
  data_loader : DataLoader.t;
  clock_reads : nat;
  uuid_reads : nat
}.

Definition nl : string := String (ascii_of_nat 10) EmptyString.
Definition tab : string := String (ascii_of_nat 9) EmptyString.
(** The double quote character. *)
Definition dq : string := String (ascii_of_nat 34) EmptyString.

(** [sep.join(parts)] *)
Fixpoint join (sep : string) (parts : list string) : string :=
  match parts with
  | [] => ""
  | [p] => p
  | p :: rest => p +:+ sep +:+ join sep rest
  end.

(** Microseconds in a minute and the last instant [datetime] can hold
    (9999-12-31 23:59:59.999999). *)
Definition us_per_minute : Z := 60 * 1000000.
Definition datetime_max : Z := 3652059 * 86400 * 1000000 - 1.

(** [timedelta(minutes=m)]: the days, rounded down, are at most 999999999
    either way; days that do not fit a C [int] fail before that test. *)
Definition timedelta_minutes (m : Z) : result Z :=
  let us := m * us_per_minute in
  let days := us / (86400 * 1000000) in
  if (-999999999 <=? days)%Z && (days <=? 999999999)%Z then Ok us
  else if (- 2 ^ 31 <=? days)%Z && (days <? 2 ^ 31)%Z then
    Raise (builtin_error OverflowError
             ("days=" +:+ pretty days +:+ "; must have magnitude <= 999999999"))
  else Raise (builtin_error OverflowError "Python int too large to convert to C int").

(** [d - delta] for a datetime: the result has to be a date between year 1
    and year 9999. *)
Definition datetime_sub (d delta : Z) : result Z :=
  let r := d - delta in
  if (0 <=? r)%Z && (r <=? datetime_max)%Z then Ok r
  else Raise (builtin_error OverflowError "date value out of range").

Section Monitoring.

Variable rt : runtime.

(** [self.data_loader.load_...()] *)
Definition load (f : disk -> M DataLoader.t pyval) : M mon pyval := fun w =>
  let '(r, l) := f (files w) (data_loader w) in
  (r, MonWorld (files w) l (clock_reads w) (uuid_reads w)).

(** [datetime.now(timezone.utc)] *)
Definition now : M mon Z := fun w =>
  (Ok (now_utc rt (clock_reads w)),
   MonWorld (files w) (data_loader w) (S (clock_reads w)) (uuid_reads w)).

(** [int(time.time())] *)
Definition unix_time : M mon Z := fun w =>
  (Ok (time_time rt (clock_reads w)),
   MonWorld (files w) (data_loader w) (S (clock_reads w)) (uuid_reads w)).

(** [uuid.uuid4().hex] *)
Definition uuid4 : M mon string := fun w =>
  (Ok (uuid4_hex rt (uuid_reads w)),
   MonWorld (files w) (data_loader w) (clock_reads w) (S (uuid_reads w))).

(** [str(u)] for the UUID with hex digits [h]: groups of 8, 4, 4, 4, 12. *)
Definition uuid_str (h : string) : string :=
  substring 0 8 h +:+ "-" +:+ substring 8 4 h +:+ "-" +:+ substring 12 4 h +:+ "-"
  +:+ substring 16 4 h +:+ "-" +:+ substring 20 12 h.

(** [hash(v)]: lists and dicts are unhashable. *)
Definition py_hash (v : pyval) : result Z :=
  match v with
  | PList _ | PDict _ =>
      Raise (builtin_error TypeError ("unhashable type: '" +:+ Py.type_name v +:+ "'"))
  | _ => Ok (hash_of rt v)
  end.

(** [for x in v: acc = body(acc, x)] in the world. *)
Fixpoint for_in {A B} (body : B -> A -> M mon B) (l : list A) (acc : B) : M mon B :=
  match l with
  | [] => mret acc
  | x :: l' => acc' ← body acc x; for_in body l' acc'
  end.

Definition time_range_error (message : string) : exn :=
  mon_error MonExn.TimeRangeError message None.
Definition filter_error (message : string) : exn :=
  mon_error MonExn.FilterError message None.
Definition mon_execution_error (message : string) (cause : exn) : exn :=
  mon_error MonExn.ToolExecutionError message (Some cause).

(** The handlers [except TimeRangeError: raise], [except FilterError: raise],
    [except Exception as e: raise ToolExecutionError(f"{what}: {e}") from e]. *)
Definition reraise_validation {A} (what : string) (e : exn) : M mon A :=
  if isinstance e (Mon MonExn.TimeRangeError) then raise e
  else if isinstance e (Mon MonExn.FilterError) then raise e
  else raise (mon_execution_error (what +:+ ": " +:+ exn_str e) e).

(** The handlers [except (TimeRangeError, FilterError) as e: raise
    ToolExecutionError(f"Input validation failed: {str(e)}") from e] and
    [except Exception as e: raise ToolExecutionError(f"{what}: {str(e)}") from e]. *)
Definition wrap_validation {A} (what : string) (e : exn) : M mon A :=
  if isinstance e (Mon MonExn.TimeRangeError) || isinstance e (Mon MonExn.FilterError)
  then raise (mon_execution_error ("Input validation failed: " +:+ exn_str e) e)
  else raise (mon_execution_error (what +:+ ": " +:+ exn_str e) e).

(** [BaseTool._format_result] *)
Definition _format_result (title content : string) : string :=
  let separator := Py.repeat_str "=" 60 in
  separator +:+ nl +:+ title +:+ nl +:+ separator +:+ nl +:+ content +:+ nl.

Fixpoint numbered (i : Z) (items : list string) : list string :=
  match items with
  | [] => []
  | item :: rest => ("  " +:+ pretty i +:+ ". " +:+ item) :: numbered (i + 1) rest
  end.

(** [BaseTool._format_section] *)
Definition _format_section (title : string) (items : list string) : string :=
  match items with
  | [] => "[" +:+ title +:+ "]: No items" +:+ nl
  | _ => join nl ((nl +:+ title +:+ ":") :: numbered 1 items)
  end.

End Monitoring.

(** ** [prometheus_grafana_fake_data/src/tools/interface_logs.py] *)
Module InterfaceLogsTool.
Section WithRuntime.

Variable rt : runtime.

(** One pass of the loop that builds the rows. *)
Definition row (rows : list pyval) (log : pyval) : result (list pyval) :=
  log_id ← Py.get log "id" (PStr "unknown");
  created_at ← Py.get_opt log "created_at";
  timestamp ← (if Py.truthy created_at then Ok created_at
               else Py.get_opt log "started_at");
  system_name ← Py.get log "system_name" (PStr "unknown");
  interface_name ← Py.get log "interface_name" (PStr "unknown");
  direction ← Py.get log "direction" (PStr "OUTBOUND");
  status ← Py.get log "status" (PStr "UNKNOWN");
  protocol ← Py.get log "protocol" (PStr "REST");
  source_system ← Py.get log "source_system" (PStr "unknown");
  target_system ← Py.get log "target_system" (PStr "unknown");
  record_count ← Py.get log "record_count" (PInt 0);
  bytes_transferred ← Py.get log "bytes_transferred" (PInt 0);
  duration_seconds ← Py.get log "duration_seconds" (PInt 0);
  retry_count ← Py.get log "retry_count" (PInt 0);
  error_message ← Py.get_opt log "error_message";
  correlation_id ← Py.get_opt log "correlation_id";
  trace_id ← Py.get_opt log "trace_id";
  Ok (rows ++ [PDict [
    ("log_id", log_id);
    ("timestamp", timestamp);
    ("system_name", system_name);
    ("interface_name", interface_name);
    ("direction", direction);
    ("status", status);
    ("protocol", protocol);
    ("source_system", source_system);
    ("target_system", target_system);
    ("record_count", record_count);
    ("bytes_transferred", bytes_transferred);
    ("duration_seconds", duration_seconds);
    ("retry_count", retry_count);
    ("error_message", error_message);
    ("correlation_id", correlation_id);
    ("trace_id", trace_id)]])%list.

(** The document built from the loaded fixture. *)
Definition response (data : pyval) : result pyval :=
  logs ← Py.get data "interface_logs" (PList []);
  let filtered_logs := logs in
  let query := "SELECT * FROM interface_logs ORDER BY timestamp DESC" in
  each ← Py.iter filtered_logs;
  rows ← for_loop row each [];
  Ok (PDict [("query", PStr query);
             ("rowCount", PInt (Z.of_nat (length rows)));
             ("rows", PList rows)]).

Definition execute (system_name : string) (hours : Z) (status : option string)
    : M mon string :=
  catch (_ ← (if (hours <? 0)%Z
              then raise (time_range_error "Hours must be non-negative")
              else mret tt);
         data ← load DataLoader.load_interface_logs;
         r ← lift (response data);
         mret (json_dumps rt r))
        (reraise_validation "Failed to check interface logs").

End WithRuntime.
End InterfaceLogsTool.

(** ** [prometheus_grafana_fake_data/src/tools/batch_logs.py] *)
Module BatchLogsTool.
Section WithRuntime.

Variable rt : runtime.

Definition row (rows : list pyval) (job : pyval) : result (list pyval) :=
  job_status ← Py.get job "status" (PStr "UNKNOWN");
  job_id ← Py.get job "job_id" (PStr "unknown");
  job_name ← Py.get job "job_name" (PStr "unknown");
  job_group ← Py.get job "job_group" (PStr "DEFAULT");
  job_type ← Py.get job "job_type" (PStr "BATCH");
  priority ← Py.get job "priority" (PStr "NORMAL");
  scheduled_time ← Py.get_opt job "scheduled_time";
  start_time ← Py.get_opt job "start_time";
  end_time ← Py.get_opt job "end_time";
  duration_seconds ← Py.get job "duration_seconds" (PInt 0);
  let exit_code := if Py.eq_str job_status "SUCCESS" then PInt 0
                   else if Py.eq_str job_status "FAILED" then PInt 1 else PNone in
  records_processed ← Py.get job "records_processed" (PInt 0);
  records_failed ← Py.get job "records_failed" (PInt 0);
  retry_count ← Py.get job "retry_count" (PInt 0);
  max_retries ← Py.get job "max_retries" (PInt 3);
  run_as_user ← Py.get job "run_as_user" (PStr "batch");
  host ← Py.get job "host" (PStr "batch-server-01");
  correlation_id ← Py.get_opt job "correlation_id";
  log_job_id ← Py.get job "job_id" (PStr "unknown");
  let row := [
    ("job_id", job_id);
    ("job_name", job_name);
    ("job_group", job_group);
    ("job_type", job_type);
    ("priority", priority);
    ("status", job_status);
    ("scheduled_time", scheduled_time);
    ("start_time", start_time);
    ("end_time", end_time);
    ("duration_seconds", duration_seconds);
    ("exit_code", exit_code);
    ("records_processed", records_processed);
    ("records_failed", records_failed);
    ("retry_count", retry_count);
    ("max_retries", max_retries);
    ("run_as_user", run_as_user);
    ("host", host);
    ("correlation_id", correlation_id);
    ("log_file", PStr ("/var/log/batch/" +:+ to_str rt log_job_id +:+ ".log"))] in
  resource_usage ← Py.get job "resource_usage" (PDict []);
  row ← (if Py.truthy resource_usage then
           cpu ← Py.get_opt resource_usage "cpu_percent_avg";
           mem ← Py.get_opt resource_usage "memory_mb_peak";
           io ← Py.get_opt resource_usage "disk_io_mb";
           Ok (Py.store "disk_io_mb" io
                 (Py.store "memory_mb_peak" mem
                    (Py.store "cpu_percent_avg" cpu row)))
         else Ok row);
  row ← (if Py.eq_str job_status "FAILED" then
           error_log ← Py.get job "error_message"
                         (PStr ("ERROR: Job execution failed" +:+ nl
                                  +:+ "DETAIL: See log file for details"));
           Ok (Py.store "error_log" error_log row)
         else Ok row);
  Ok (rows ++ [PDict row])%list.

Definition response (data : pyval) : result pyval :=
  jobs ← Py.get data "batch_jobs" (PList []);
  let filtered_jobs := jobs in
  let query := "SELECT * FROM batch_job_logs ORDER BY start_time DESC" in
  each ← Py.iter filtered_jobs;
  rows ← for_loop row each [];
  Ok (PDict [("query", PStr query);
             ("rowCount", PInt (Z.of_nat (length rows)));
             ("rows", PList rows)]).

Definition execute (job_name : string) (hours : Z) (status : option string)
    : M mon string :=
  catch (_ ← (if (hours <? 0)%Z
              then raise (time_range_error "Hours must be non-negative")
              else mret tt);
         data ← load DataLoader.load_batch_logs;
         r ← lift (response data);
         mret (json_dumps rt r))
        (reraise_validation "Failed to check batch logs").

End WithRuntime.
End BatchLogsTool.

(** ** [prometheus_grafana_fake_data/src/tools/application_logs.py] *)
Module ApplicationLogsTool.
Section WithRuntime.

Variable rt : runtime.

Definition valid_levels : list string := ["DEBUG"; "INFO"; "WARN"; "ERROR"].

(** [str(valid_levels)] *)
Definition valid_levels_text : string := "['DEBUG', 'INFO', 'WARN', 'ERROR']".

Definition default_stack_trace (message : pyval) : string :=
  "java.lang.Exception: " +:+ to_str rt message +:+ nl
  +:+ tab +:+ "at com.company.service.Handler.process(Handler.java:123)" +:+ nl
  +:+ tab +:+ "at com.company.service.Controller.handle(Controller.java:45)".

(** One pass of the loop that builds the hits.  The defaults of [get] are
    evaluated whether or not the key is there, so every pass reads the
    UUID source four times and the clock once. *)
Definition hit (today : string) (hits : list pyval) (log : pyval) : M mon (list pyval) :=
  exception ← lift (Py.get log "exception" (PDict []));
  context ← lift (Py.get log "context" (PDict []));
  id ← uuid4 rt;
  stamp ← now rt;
  timestamp ← lift (Py.get log "timestamp" (PStr (isoformat rt stamp)));
  level ← lift (Py.get log "level" (PStr "INFO"));
  service ← lift (Py.get log "service" (PStr "unknown"));
  logger_name ← lift (Py.get log "logger"
                         (PStr ("com.company." +:+ to_str rt service +:+ ".Service")));
  message ← lift (Py.get log "message" (PStr ""));
  h ← lift (py_hash rt message);
  thread_name ← lift (Py.get log "thread"
                         (PStr ("http-nio-8080-exec-" +:+ pretty (h mod 50))));
  instance_id ← uuid4 rt;
  instance ← lift (Py.get log "instance"
                      (PStr (to_str rt service +:+ "-" +:+ Str.take 8 instance_id)));
  namespace ← lift (Py.get log "namespace" (PStr "production"));
  version ← lift (Py.get log "version" (PStr "unknown"));
  trace_hex ← uuid4 rt;
  trace_id ← lift (Py.get log "trace_id" (PStr trace_hex));
  span_hex ← uuid4 rt;
  span_id ← lift (Py.get log "span_id" (PStr (Str.take 16 span_hex)));
  parent_span_id ← lift (Py.get_opt log "parent_span_id");
  request_id ← lift (Py.get_opt log "request_id");
  let source := [
    ("@timestamp", timestamp);
    ("level", level);
    ("logger_name", logger_name);
    ("message", message);
    ("thread_name", thread_name);
    ("service", service);
    ("instance", instance);
    ("namespace", namespace);
    ("version", version);
    ("trace_id", trace_id);
    ("span_id", span_id);
    ("parent_span_id", parent_span_id);
    ("request_id", request_id)] in
  lvl ← lift (Py.get_opt log "level");
  unknown ← lift (Py.get log "message" (PStr "Unknown error"));
  source ← lift
    (if Py.eq_str lvl "ERROR" && Py.truthy exception then
       cls ← Py.get exception "class" (PStr "java.lang.Exception");
       msg ← Py.get exception "message" unknown;
       trace ← Py.get exception "stacktrace" (PStr (default_stack_trace unknown));
       Ok (Py.store "stack_trace" trace
             (Py.store "exception_message" msg
                (Py.store "exception_class" cls source)))
     else if Py.eq_str lvl "ERROR" then
       Ok (Py.store "stack_trace" (PStr (default_stack_trace unknown)) source)
     else Ok source);
  source ← lift
    (if Py.truthy context then
       let source := Py.store "context" context source in
       transaction_id ← Py.get_opt context "transaction_id";
       let source := if Py.truthy transaction_id
                     then Py.store "transaction_id" transaction_id source else source in
       customer_id ← Py.get_opt context "customer_id";
       Ok (if Py.truthy customer_id
           then Py.store "customer_id" customer_id source else source)
     else Ok source);
  user_id ← lift (Py.get_opt log "user_id");
  let source := if Py.truthy user_id then Py.store "user_id" user_id source else source in
  mret (hits ++ [PDict [
    ("_index", PStr ("app-logs-" +:+ today));
    ("_id", PStr (Str.take 12 (uuid_str id)));
    ("_score", PNone);
    ("_source", PDict source)]])%list.

(** The document built from the loaded fixture. *)
Definition response (data : pyval) : M mon pyval :=
  logs ← lift (Py.get data "application_logs" (PList []));
  let filtered_logs := logs in
  d ← now rt;
  let today := strftime_ymd rt d in
  each ← lift (Py.iter filtered_logs);
  hits ← for_in (hit today) each [];
  mret (PDict [
    ("took", PInt 5);
    ("timed_out", PBool false);
    ("_shards", PDict [("total", PInt 5); ("successful", PInt 5);
                       ("skipped", PInt 0); ("failed", PInt 0)]);
    ("hits", PDict [
       ("total", PDict [("value", PInt (Z.of_nat (length hits)));
                        ("relation", PStr "eq")]);
       ("max_score", PNone);
       ("hits", PList hits)])]).

Definition execute (service : string) (minutes : Z) (level : string)
    (search_pattern : option string) : M mon string :=
  catch (_ ← (if (minutes <? 0)%Z
              then raise (time_range_error "Minutes must be non-negative")
              else mret tt);
         _ ← (if negb (existsb (String.eqb level) valid_levels)
              then raise (filter_error ("Level must be one of " +:+ valid_levels_text))
              else mret tt);
         data ← load DataLoader.load_application_logs;
         r ← response data;
         mret (json_dumps rt r))
        (wrap_validation "Failed to check application logs").

End WithRuntime.
End ApplicationLogsTool.

(** ** [prometheus_grafana_fake_data/src/tools/server_performance.py] *)
Module ServerPerformanceTool.
Section WithRuntime.

Variable rt : runtime.

Definition valid_types : list string := ["cpu"; "memory"; "disk_io"; "network"; "all"].

(** [str(valid_types)] *)
Definition valid_types_text : string := "['cpu', 'memory', 'disk_io', 'network', 'all']".

(** [f"{m.get('node', 'unknown')}:9100"] *)
Definition instance_of (m : pyval) : result pyval :=
  node ← Py.get m "node" (PStr "unknown");
  Ok (PStr (to_str rt node +:+ ":9100")).

(** One sample: labels then [[timestamp, str(m.get(field, 0))]]. *)
Definition sample (ts : Z) (m : pyval) (labels : list (string * pyval)) (field : string)
    : result pyval :=
  v ← Py.get m field (PInt 0);
  Ok (PDict [("metric", PDict labels);
             ("value", PList [PInt ts; PStr (to_str rt v)])]).

Definition vector (query : string) (results : list pyval) : pyval :=
  PDict [("query", PStr query);
         ("response", PDict [
            ("status", PStr "success");
            ("data", PDict [("resultType", PStr "vector");
                            ("result", PList results)])])].

Definition cpu_result (ts : Z) (acc : list pyval) (m : pyval) : result (list pyval) :=
  inst ← instance_of m;
  zone ← Py.get m "zone" (PStr "us-east-1a");
  s ← sample ts m [("__name__", PStr "node_cpu_usage_percent"); ("instance", inst);
                   ("job", PStr "node-exporter"); ("zone", zone)] "cpu_usage_percent";
  Ok (acc ++ [s])%list.

Definition memory_result (ts : Z) (acc : list pyval) (m : pyval) : result (list pyval) :=
  inst ← instance_of m;
  s ← sample ts m [("__name__", PStr "node_memory_usage_percent"); ("instance", inst);
                   ("job", PStr "node-exporter")] "memory_usage_percent";
  Ok (acc ++ [s])%list.

(** The disk loop fills two lists, reads and writes. *)
Definition disk_result (ts : Z) (acc : list pyval * list pyval) (m : pyval)
    : result (list pyval * list pyval) :=
  inst ← instance_of m;
  r ← sample ts m [("__name__", PStr "node_disk_read_mbps"); ("instance", inst);
                   ("device", PStr "sda")] "disk_io_read_mbps";
  inst' ← instance_of m;
  w ← sample ts m [("__name__", PStr "node_disk_write_mbps"); ("instance", inst');
                   ("device", PStr "sda")] "disk_io_write_mbps";
  Ok (fst acc ++ [r], snd acc ++ [w])%list.

Definition network_result (ts : Z) (acc : list pyval) (m : pyval) : result (list pyval) :=
  inst ← instance_of m;
  rx ← sample ts m [("__name__", PStr "node_network_receive_mbps"); ("instance", inst);
                    ("device", PStr "eth0")] "network_rx_mbps";
  inst' ← instance_of m;
  tx ← sample ts m [("__name__", PStr "node_network_transmit_mbps"); ("instance", inst');
                    ("device", PStr "eth0")] "network_tx_mbps";
  Ok (acc ++ [rx; tx])%list.

Definition wants (metric_type family : string) : bool :=
  String.eqb metric_type family || String.eqb metric_type "all".

(** The metric families built from the records of the fixture at timestamp
    [ts]. *)
Definition families_of_metrics (metric_type : string) (ts : Z) (metrics : pyval)
    : result (list (string * pyval)) :=
  let filtered_metrics := metrics in
  let prometheus_results := [] in
  prometheus_results ←
    (if wants metric_type "cpu" then
       each ← Py.iter filtered_metrics;
       cpu_results ← for_loop (cpu_result ts) each [];
       Ok (Py.store "cpu_usage"
             (vector ("100 - (avg by (instance) (irate(node_cpu_seconds_total{mode="
                        +:+ dq +:+ "idle" +:+ dq +:+ "}[5m])) * 100)")
                     cpu_results)
             prometheus_results)
     else Ok prometheus_results);
  prometheus_results ←
    (if wants metric_type "memory" then
       each ← Py.iter filtered_metrics;
       memory_results ← for_loop (memory_result ts) each [];
       Ok (Py.store "memory_usage"
             (vector "100 * (1 - ((node_memory_MemAvailable_bytes) / (node_memory_MemTotal_bytes)))"
                     memory_results)
             prometheus_results)
     else Ok prometheus_results);
  prometheus_results ←
    (if wants metric_type "disk_io" then
       each ← Py.iter filtered_metrics;
       rw ← for_loop (disk_result ts) each ([], []);
       Ok (Py.store "disk_io"
             (vector "rate(node_disk_read_bytes_total[5m]) / 1024 / 1024"
                     (fst rw ++ snd rw)%list)
             prometheus_results)
     else Ok prometheus_results);
  (if wants metric_type "network" then
     each ← Py.iter filtered_metrics;
     network_results ← for_loop (network_result ts) each [];
     Ok (Py.store "network"
           (vector "rate(node_network_receive_bytes_total[5m]) / 1024 / 1024"
                   network_results)
           prometheus_results)
   else Ok prometheus_results).

(** The same from the loaded fixture. *)
Definition families (metric_type : string) (ts : Z) (data : pyval)
    : result (list (string * pyval)) :=
  metrics ← Py.get data "server_metrics" (PList []);
  families_of_metrics metric_type ts metrics.

Definition execute (node : string) (metric_type : string) (minutes : Z) : M mon string :=
  catch (_ ← (if (minutes <? 0)%Z
              then raise (time_range_error "Minutes must be non-negative")
              else mret tt);
         _ ← (if negb (existsb (String.eqb metric_type) valid_types)
              then raise (filter_error ("Metric type must be one of " +:+ valid_types_text))
              else mret tt);
         data ← load DataLoader.load_server_metrics;
         metrics ← lift (Py.get data "server_metrics" (PList []));
         current_timestamp ← unix_time rt;
         prometheus_results ← lift (families_of_metrics metric_type current_timestamp
                                      metrics);
         stamp ← now rt;
         mret (json_dumps rt (PDict [
           ("timestamp", PStr (isoformat rt stamp));
           ("source", PStr "prometheus");
           ("metrics", PDict prometheus_results)])))
        (wrap_validation "Failed to view server performance").

End WithRuntime.
End ServerPerformanceTool.

(** ** [prometheus_grafana_fake_data/src/tools/app_performance.py] *)
Module ApplicationPerformanceTool.
Section WithRuntime.

Variable rt : runtime.

(** [services_dict]: service to its metrics, in order of first appearance;
    a key is found by [==]. *)
Fixpoint group_add (svc metric : pyval) (groups : list (pyval * list pyval))
    : list (pyval * list pyval) :=
  match groups with
  | [] => [(svc, [metric])]
  | (k, ms) :: rest =>
      if Py.eq svc k then (k, ms ++ [metric])%list :: rest
      else (k, ms) :: group_add svc metric rest
  end.

Definition group (groups : list (pyval * list pyval)) (metric : pyval)
    : result (list (pyval * list pyval)) :=
  svc ← Py.get metric "service" (PStr "unknown");
  _ ← py_hash rt svc;
  Ok (group_add svc metric groups).

Definition warn : string := "⚠️ ".
Definition fine : string := "✓ ".

(** One pass of the loop over the metrics of a service. *)
Definition item (items : list string) (metric : pyval) : result (list string) :=
  nested_metrics ← Py.get metric "metrics" (PDict []);
  ep ← Py.get metric "endpoint" (PStr "N/A");
  endpoint_name ← Py.get metric "operation" ep;
  d ← Py.get metric "avg_latency_ms" (PInt 0);
  avg_latency ← Py.get nested_metrics "trace_duration_p50_ms" d;
  d ← Py.get metric "p95_latency_ms" (PInt 0);
  p95_latency ← Py.get nested_metrics "trace_duration_p95_ms" d;
  d ← Py.get metric "p99_latency_ms" (PInt 0);
  p99_latency ← Py.get nested_metrics "trace_duration_p99_ms" d;
  d ← Py.get metric "error_rate_percent" (PInt 0);
  error_rate ← Py.get nested_metrics "error_rate_percent" d;
  d ← Py.get metric "throughput_rps" (PInt 0);
  throughput ← Py.get nested_metrics "request_rate_per_sec" d;
  successes ← Py.get nested_metrics "success_count" (PInt 0);
  errors ← Py.get nested_metrics "error_count" (PInt 0);
  request_count ← Py.add successes errors;
  request_count ← (if Py.eq request_count (PInt 0)
                   then Py.get metric "request_count" (PInt 0)
                   else Ok request_count);
  slow ← Py.gt avg_latency (PInt 500);
  let latency_status := if slow : bool then warn else fine in
  failing ← Py.gt error_rate (PFloat 1.0%float);
  let error_status := if failing : bool then warn else fine in
  Ok (items ++ [
    "Endpoint: " +:+ to_str rt endpoint_name +:+ nl
    +:+ "    " +:+ latency_status +:+ "Latency: avg " +:+ to_str rt avg_latency
    +:+ "ms, p95 " +:+ to_str rt p95_latency +:+ "ms, p99 " +:+ to_str rt p99_latency
    +:+ "ms" +:+ nl
    +:+ "    " +:+ error_status +:+ "Error Rate: " +:+ to_str rt error_rate +:+ "%" +:+ nl
    +:+ "    Throughput: " +:+ to_str rt throughput +:+ " req/s ("
    +:+ to_str rt request_count +:+ " requests)"])%list.

Definition section_of (lines : list string) (g : pyval * list pyval)
    : result (list string) :=
  items ← for_loop item (snd g) [];
  Ok (lines ++ [_format_section ("Service: " +:+ to_str rt (fst g)) items])%list.

(** The lines of the report built from the loaded fixture. *)
Definition report (service : string) (minutes : Z) (data : pyval) : result (list string) :=
  metrics ← Py.get data "apm_metrics" (PList []);
  let filtered_metrics := metrics in
  if negb (Py.truthy filtered_metrics) then
    Ok ["No APM metrics found for " +:+ service +:+ " in the last " +:+ pretty minutes
        +:+ " minute(s)"]
  else
    n ← Py.len filtered_metrics;
    let result_lines := ["Found " +:+ pretty n +:+ " APM metric(s) for " +:+ service
                         +:+ ":" +:+ nl] in
    each ← Py.iter filtered_metrics;
    services_dict ← for_loop group each [];
    for_loop section_of services_dict result_lines.

Definition execute (service : string) (endpoint : option string) (minutes : Z)
    : M mon string :=
  catch (_ ← (if (minutes <? 0)%Z
              then raise (time_range_error "Minutes must be non-negative")
              else mret tt);
         data ← load DataLoader.load_apm_data;
         result_lines ← lift (report service minutes data);
         mret (_format_result "Application Performance Report" (join nl result_lines)))
        (wrap_validation "Failed to view application performance").

End WithRuntime.
End ApplicationPerformanceTool.

(** A Prometheus sample: [{"metric": labels, "value": [ts, text]}]. *)
Definition prom_sample (ts : Z) (labels : list (string * pyval)) (text : string) : pyval :=
  PDict [("metric", PDict labels); ("value", PList [PInt ts; PStr text])].

(** A Prometheus vector response. *)
Definition prom_vector (result : list pyval) : pyval :=
  PDict [("status", PStr "success");
         ("data", PDict [("resultType", PStr "vector"); ("result", PList result)])].

(** ** [prometheus_grafana_fake_data/src/tools/api_health_check.py] *)
Module ApiHealthCheckTool.
Section WithRuntime.

Variable rt : runtime.

(** The inner loop: one check of an endpoint, with the endpoint's fields
    under the check's own. *)
Definition flatten_check (endpoint : pyval) (acc : list pyval) (check : pyval)
    : result (list pyval) :=
  endpoint_id ← Py.get endpoint "endpoint_id" (PStr "unknown");
  url ← Py.get endpoint "url" (PStr "");
  name ← Py.get endpoint "name" (PStr "");
  service ← Py.get endpoint "service" (PStr "unknown");
  environment ← Py.get endpoint "environment" (PStr "production");
  region ← Py.get endpoint "region" (PStr "unknown");
  method ← Py.get endpoint "method" (PStr "GET");
  expected_status_code ← Py.get endpoint "expected_status_code" (PInt 200);
  merged ← Py.merge [("endpoint_id", endpoint_id); ("url", url); ("name", name);
                     ("service", service); ("environment", environment);
                     ("region", region); ("method", method);
                     ("expected_status_code", expected_status_code)] check;
  Ok (acc ++ [PDict merged])%list.

Definition flatten_endpoint (acc : list pyval) (endpoint : pyval) : result (list pyval) :=
  checks ← Py.get endpoint "checks" (PList []);
  each ← Py.iter checks;
  for_loop (flatten_check endpoint) each acc.

(** [status_labels.get(status, 0)], as text. *)
Definition status_value (status : pyval) : result string :=
  _ ← py_hash rt status;
  Ok (if Py.eq_str status "UP" then "1"
      else if Py.eq_str status "DOWN" then "0"
      else if Py.eq_str status "DEGRADED" then "0.5"
      else if Py.eq_str status "RATE_LIMITED" then "0.3"
      else if Py.eq_str status "ENDPOINT_NOT_FOUND" then "0"
      else "0").

(** The six samples of one check. *)
Definition samples (ts : Z) (acc : list pyval) (check : pyval) : result (list pyval) :=
  service_name ← Py.get check "service" (PStr "unknown");
  endpoint_url ← Py.get check "url" (PStr "");
  region ← Py.get check "region" (PStr "unknown");
  environment ← Py.get check "environment" (PStr "production");
  status ← Py.get check "status" (PStr "UNKNOWN");
  status_code ← Py.get check "status_code" (PInt 0);
  response_time_ms ← Py.get check "response_time_ms" (PInt 0);
  expected_code ← Py.get check "expected_status_code" (PInt 200);
  let health_up := if Py.eq_str status "UP" then "1" else "0" in
  let status_match := if Py.eq status_code expected_code then "1" else "0" in
  sv ← status_value status;
  slow ← Py.gt response_time_ms (PInt 1000);
  let slow_response := if slow : bool then "1" else "0" in
  Ok (acc ++ [
    prom_sample ts [("__name__", PStr "api_health_up"); ("service", service_name);
                    ("url", endpoint_url); ("region", region);
                    ("environment", environment)] health_up;
    prom_sample ts [("__name__", PStr "api_health_status_code"); ("service", service_name);
                    ("url", endpoint_url); ("region", region)] (to_str rt status_code);
    prom_sample ts [("__name__", PStr "api_health_response_time_ms");
                    ("service", service_name); ("url", endpoint_url);
                    ("region", region)] (to_str rt response_time_ms);
    prom_sample ts [("__name__", PStr "api_health_status_code_match");
                    ("service", service_name); ("url", endpoint_url);
                    ("expected_code", PStr (to_str rt expected_code))] status_match;
    prom_sample ts [("__name__", PStr "api_health_status"); ("service", service_name);
                    ("url", endpoint_url); ("status", status)] sv;
    prom_sample ts [("__name__", PStr "api_health_slow_response");
                    ("service", service_name); ("url", endpoint_url);
                    ("threshold_ms", PStr "1000")] slow_response])%list.

Definition execute (service_name : string) : M mon string :=
  catch (data ← load DataLoader.load_health_check_data;
         endpoints ← lift (Py.get data "health_check_endpoints" (PList []));
         each ← lift (Py.iter endpoints);
         filtered_checks ← lift (for_loop flatten_endpoint each []);
         current_timestamp ← unix_time rt;
         result ← lift (for_loop (samples current_timestamp) filtered_checks []);
         mret (json_dumps rt (prom_vector result)))
        (reraise_validation "Failed to check API health").

End WithRuntime.
End ApiHealthCheckTool.

(** ** [prometheus_grafana_fake_data/src/tools/check_apm.py] *)
Module CheckAPMTool.
Section WithRuntime.

Variable rt : runtime.

Definition valid_types : list string := ["traces"; "errors"; "latency"; "all"].

(** [str(valid_types)] *)
Definition valid_types_text : string := "['traces', 'errors', 'latency', 'all']".

(** The state of the loop over the spans of one trace. *)
Record span_state : Type := SpanState {
  spans : list pyval;
  processes : list (string * pyval);
  process_counter : Z
}.

(** [[p.get("serviceName") for p in processes.values()]]; every value is a
    dict the loop has stored. *)
Definition service_names (processes : list (string * pyval)) : list pyval :=
  map (fun kv => match snd kv with
                 | PDict d => default PNone (Py.lookup "serviceName" d)
                 | _ => PNone
                 end) processes.

(** [v.replace("-", "_")] *)
Definition dashes_to_underscores (v : pyval) : result string :=
  match v with
  | PStr s => Ok (Str.replace_char "-" "_" s)
  | _ => Raise (Py.no_attribute v "replace")
  end.

(** The start of a span in microseconds: zero unless [start_time] is there
    and parses. *)
Definition start_time_us (span_start_str : pyval) : result Z :=
  if Py.truthy span_start_str then
    match span_start_str with
    | PStr s =>
        try_except (iso_timestamp_us rt (Str.replace_char_by "Z" "+00:00" s))
          (fun e => if isinstance e (Builtin ValueError) || isinstance e (Builtin TypeError)
                    then Ok 0 else Raise e)
    | v => Raise (Py.no_attribute v "replace")
    end
  else Ok 0.

Definition span_entry (trace_id : pyval) (st : span_state) (span : pyval)
    : result span_state :=
  service_name ← Py.get span "service_name" (PStr "unknown");
  let process_key := "p" +:+ pretty (process_counter st) in
  st ← (if negb (Py.member service_name (service_names (processes st))) then
          host ← dashes_to_underscores service_name;
          prefix ← Py.slice_to 8 trace_id;
          Ok (SpanState (spans st)
                (Py.store process_key
                   (PDict [("serviceName", service_name);
                           ("tags", PDict [
                              ("hostname", PStr (host +:+ "-pod-" +:+ to_str rt prefix));
                              ("ip", PStr ("10.0.1." +:+ pretty (process_counter st + 10)))])])
                   (processes st))
                (process_counter st + 1))
        else Ok st);
  span_start_str ← Py.get span "start_time" (PStr "");
  start ← start_time_us span_start_str;
  duration_ms ← Py.get span "duration_ms" (PInt 0);
  scaled ← Py.mul duration_ms (PInt 1000);
  duration_us ← Py.int_of scaled;
  span_id ← Py.get span "span_id" (PStr "");
  operation_name ← Py.get span "operation_name" (PStr "");
  tags ← Py.get span "tags" (PDict []);
  logs ← Py.get span "logs" (PList []);
  let jaeger_span := [("traceID", trace_id);
                      ("spanID", span_id);
                      ("operationName", operation_name);
                      ("startTime", PInt start);
                      ("duration", PInt duration_us);
                      ("tags", tags);
                      ("logs", logs)] in
  parent ← Py.get_opt span "parent_span_id";
  let jaeger_span := if Py.truthy parent
                     then Py.store "parentSpanID" parent jaeger_span else jaeger_span in
  Ok (SpanState (spans st ++ [PDict jaeger_span])%list (processes st) (process_counter st)).

Definition trace_entry (filtered_traces : list pyval) (trace : pyval) : result (list pyval) :=
  trace_id ← Py.get trace "trace_id" (PStr "");
  ss ← Py.get trace "spans" (PList []);
  each ← Py.iter ss;
  st ← for_loop (span_entry trace_id) each (SpanState [] [] 1);
  Ok (filtered_traces ++ [PDict [("traceID", trace_id);
                                 ("spans", PList (spans st));
                                 ("processes", PDict (processes st))]])%list.

Definition _build_traces_response (traces : pyval) (service : string)
    (start_time end_time : Z) : result pyval :=
  each ← Py.iter traces;
  filtered_traces ← for_loop trace_entry each [];
  Ok (PDict [("data", PList filtered_traces)]).

Definition in_types (metric_type : string) (types : list string) : bool :=
  existsb (String.eqb metric_type) types.

(** [str(metrics_data.get(field, 0) / 1000)] *)
Definition seconds_text (metrics_data : pyval) (field : string) : result string :=
  v ← Py.get metrics_data field (PInt 0);
  q ← Py.truediv v (PInt 1000);
  Ok (to_str rt q).

Definition metric_entry (metric_type : string) (ts : Z) (acc : list pyval) (metric : pyval)
    : result (list pyval) :=
  service_name ← Py.get metric "service" (PStr "unknown");
  operation ← Py.get metric "operation" (PStr "unknown");
  metrics_data ← Py.get metric "metrics" (PDict []);
  error_rate ← Py.get metrics_data "error_rate_percent" (PInt 0);
  let labels name := [("__name__", PStr name); ("service", service_name);
                      ("operation", operation)] in
  let quantile q := [("__name__", PStr "apm_trace_duration_seconds");
                     ("service", service_name); ("operation", operation);
                     ("quantile", PStr q)] in
  acc ← (if in_types metric_type ["errors"; "all"] then
           error_count ← Py.get metrics_data "error_count" (PInt 0);
           success_count ← Py.get metrics_data "success_count" (PInt 0);
           Ok (acc ++ [
             prom_sample ts (labels "apm_error_rate_percent") (to_str rt error_rate);
             prom_sample ts (labels "apm_error_count") (to_str rt error_count);
             prom_sample ts (labels "apm_success_count") (to_str rt success_count)])%list
         else Ok acc);
  (if in_types metric_type ["latency"; "all"] then
     p50 ← seconds_text metrics_data "trace_duration_p50_ms";
     p95 ← seconds_text metrics_data "trace_duration_p95_ms";
     p99 ← seconds_text metrics_data "trace_duration_p99_ms";
     rate ← Py.get metrics_data "request_rate_per_sec" (PInt 0);
     Ok (acc ++ [
       prom_sample ts (quantile "0.50") p50;
       prom_sample ts (quantile "0.95") p95;
       prom_sample ts (quantile "0.99") p99;
       prom_sample ts (labels "apm_request_rate") (to_str rt rate)])%list
   else Ok acc).

Definition _build_metrics_response (metrics : pyval) (service : string)
    (metric_type : string) (start_time end_time : Z) (current_timestamp : Z)
    (error_threshold : option pyval) : result pyval :=
  each ← Py.iter metrics;
  result ← for_loop (metric_entry metric_type current_timestamp) each [];
  Ok (prom_vector result).

(** The two halves of [execute] after validation; [inl] is an early
    [return] of the document to print, [inr] the dict built so far. *)
Definition traces_part (service metric_type : string) (start_time end_time : Z)
    (response : list (string * pyval)) : M mon (pyval + list (string * pyval)) :=
  if in_types metric_type ["traces"; "all"] then
    traces_data ← load DataLoader.load_apm_traces;
    traces ← lift (Py.get traces_data "traces" (PList []));
    traces_response ← lift (_build_traces_response traces service start_time end_time);
    if String.eqb metric_type "traces" then mret (inl traces_response)
    else mret (inr (Py.store "traces" traces_response response))
  else mret (inr response).

Definition metrics_part (service metric_type : string) (start_time end_time : Z)
    (current_timestamp : Z) (error_threshold : option pyval)
    (response : list (string * pyval)) : M mon (pyval + list (string * pyval)) :=
  if in_types metric_type ["errors"; "latency"; "all"] then
    metrics_data ← load DataLoader.load_apm_metrics;
    metrics ← lift (Py.get metrics_data "apm_metrics" (PList []));
    metrics_response ← lift (_build_metrics_response metrics service metric_type
                               start_time end_time current_timestamp error_threshold);
    if in_types metric_type ["errors"; "latency"] then mret (inl metrics_response)
    else mret (inr (Py.store "metrics" metrics_response response))
  else mret (inr response).

Definition execute (service : string) (metric_type : string) (minutes : Z)
    (error_threshold : option pyval) : M mon string :=
  catch (_ ← (if (minutes <? 0)%Z
              then raise (time_range_error "Minutes must be non-negative")
              else mret tt);
         _ ← (if negb (in_types metric_type valid_types)
              then raise (filter_error
                            ("Invalid metric_type. Must be one of: " +:+ valid_types_text))
              else mret tt);
         end_time ← now rt;
         delta ← lift (timedelta_minutes minutes);
         start_time ← lift (datetime_sub end_time delta);
         current_timestamp ← unix_time rt;
         t ← traces_part service metric_type start_time end_time [];
         match t with
         | inl doc => mret (json_dumps rt doc)
         | inr response =>
             m ← metrics_part service metric_type start_time end_time
                   current_timestamp error_threshold response;
             match m with
             | inl doc => mret (json_dumps rt doc)
             | inr response => mret (json_dumps rt (PDict response))
             end
         end)
        (reraise_validation "Failed to query APM data").

End WithRuntime.
End CheckAPMTool.

(** ** [prometheus_grafana_fake_data/src/tools/application_performance_inquiry.py] *)
Module ApplicationPerformanceInquiryTool.
Section WithRuntime.

Variable rt : runtime.

(** The inner loop: one metric of an area, with the area's fields under the
    metric's own. *)
Definition with_area (area : string * pyval) (acc : list pyval) (metric : pyval)
    : result (list pyval) :=
  let '(area_name, area_data) := area in
  description ← Py.get area_data "description" (PStr "");
  criticality ← Py.get area_data "criticality" (PStr "NORMAL");
  sla ← Py.get area_data "sla_response_time_ms" (PInt 1000);
  merged ← Py.merge [("area", PStr area_name); ("description", description);
                     ("criticality", criticality); ("sla_response_time_ms", sla)] metric;
  Ok (acc ++ [PDict merged])%list.

Definition flatten_area (acc : list pyval) (area : string * pyval) : result (list pyval) :=
  ms ← Py.get (snd area) "metrics" (PList []);
  each ← Py.iter ms;
  for_loop (with_area area) each acc.

(** The eight samples of one metric. *)
Definition samples (ts : Z) (acc : list pyval) (metric : pyval) : result (list pyval) :=
  area_name ← Py.get metric "area" (PStr "unknown");
  criticality ← Py.get metric "criticality" (PStr "NORMAL");
  sla ← Py.get metric "sla_response_time_ms" (PInt 1000);
  let labels name := [("__name__", PStr name); ("area", area_name);
                      ("criticality", criticality)] in
  let quantile q := [("__name__", PStr "appl_area_response_time_ms"); ("area", area_name);
                     ("criticality", criticality); ("quantile", PStr q)] in
  request_rate ← Py.get metric "request_rate" (PInt 0);
  p50 ← Py.get metric "response_time_p50_ms" (PInt 0);
  p95 ← Py.get metric "response_time_p95_ms" (PInt 0);
  p99 ← Py.get metric "response_time_p99_ms" (PInt 0);
  error_count ← Py.get metric "error_count" (PInt 0);
  success_count ← Py.get metric "success_count" (PInt 0);
  throughput ← Py.get metric "throughput_rps" (PInt 0);
  p95_time ← Py.get metric "response_time_p95_ms" (PInt 0);
  within ← Py.le p95_time sla;
  let sla_compliant := if within : bool then "1" else "0" in
  Ok (acc ++ [
    prom_sample ts (labels "appl_area_request_rate") (to_str rt request_rate);
    prom_sample ts (quantile "0.50") (to_str rt p50);
    prom_sample ts (quantile "0.95") (to_str rt p95);
    prom_sample ts (quantile "0.99") (to_str rt p99);
    prom_sample ts (labels "appl_area_error_count") (to_str rt error_count);
    prom_sample ts (labels "appl_area_success_count") (to_str rt success_count);
    prom_sample ts (labels "appl_area_throughput_rps") (to_str rt throughput);
    prom_sample ts [("__name__", PStr "appl_area_sla_compliant"); ("area", area_name);
                    ("criticality", criticality); ("sla_ms", PStr (to_str rt sla))]
                sla_compliant])%list.

Definition execute (area : string) (time_range_minutes : Z) : M mon string :=
  catch (_ ← (if (time_range_minutes <? 0)%Z
              then raise (time_range_error "Time range must be non-negative")
              else mret tt);
         data ← load DataLoader.load_appl_area_metrics;
         application_areas ← lift (Py.get data "application_areas" (PDict []));
         areas ← lift (Py.items application_areas);
         filtered_metrics ← lift (for_loop flatten_area areas []);
         current_timestamp ← unix_time rt;
         result ← lift (for_loop (samples current_timestamp) filtered_metrics []);
         mret (json_dumps rt (prom_vector result)))
        (reraise_validation "Failed to query application performance").

End WithRuntime.
End ApplicationPerformanceInquiryTool.

(** ** [first_try_mcp/src/servers/http_server.py] *)
Module http_server.

(** [FeaturesConfig]: which tools the server creates at start-up. *)
Record features : Type := Features {
  enable_weather_tool : bool;
  enable_ip_info_tool : bool;
  enable_dictionary_tool : bool;
  enable_exchange_rate_tool : bool
}.

Section WithSettings.

Variable str_of : pyval -> string.
Variable info_enabled : bool.
Variable settings : features.

(** [WeatherTool() if settings.enable_weather_tool else None], and so on. *)
Definition weather_tool : option BaseTool :=
  if enable_weather_tool settings then Some WeatherTool.tool else None.
Definition ip_info_tool : option BaseTool :=
  if enable_ip_info_tool settings then Some IPInfoTool.tool else None.
Definition dictionary_tool : option BaseTool :=
  if enable_dictionary_tool settings then Some DictionaryTool.tool else None.
Definition exchange_rate_tool : option BaseTool :=
  if enable_exchange_rate_tool settings then Some (ExchangeRateTool.tool str_of) else None.

Definition get_weather (location : pyval) : M net pyval :=
  match weather_tool with
  | None => mret (PDict [("error", PStr "Weather tool is disabled")])
  | Some weather_tool => __call__ info_enabled weather_tool [("location", location)]
  end.

Definition get_ip_info (ip_address : pyval) : M net pyval :=
  match ip_info_tool with
  | None => mret (PDict [("error", PStr "IP info tool is disabled")])
  | Some ip_info_tool => __call__ info_enabled ip_info_tool [("ip_address", ip_address)]
  end.

Definition lookup_word (word : pyval) : M net pyval :=
  match dictionary_tool with
  | None => mret (PDict [("error", PStr "Dictionary tool is disabled")])
  | Some dictionary_tool => __call__ info_enabled dictionary_tool [("word", word)]
  end.

(** An empty target currency and an amount equal to 1.0 are passed on as
    [None]. *)
Definition get_exchange_rate (base_currency target_currency amount : pyval) : M net pyval :=
  match exchange_rate_tool with
  | None => mret (PDict [("error", PStr "Exchange rate tool is disabled")])
  | Some exchange_rate_tool =>
      __call__ info_enabled exchange_rate_tool
        [("base_currency", base_currency);
         ("target_currency", if Py.truthy target_currency then target_currency else PNone);
         ("amount", if negb (Py.eq amount (PFloat 1.0%float)) then amount else PNone)]
  end.

Definition greet (name : pyval) : string :=
  "Hello, " +:+ Py.str str_of name +:+ "! Welcome to the Enterprise MCP Server.".

(** The list [run_server] logs. *)
Definition enabled_tools : list string :=
  let enabled_tools := [] in
  let enabled_tools := if enable_weather_tool settings
                       then (enabled_tools ++ ["weather"])%list else enabled_tools in
  let enabled_tools := if enable_ip_info_tool settings
                       then (enabled_tools ++ ["ip_info"])%list else enabled_tools in
  let enabled_tools := if enable_dictionary_tool settings
                       then (enabled_tools ++ ["dictionary"])%list else enabled_tools in
  if enable_exchange_rate_tool settings
  then (enabled_tools ++ ["exchange_rate"])%list else enabled_tools.

(** A request to one of the four API endpoints. *)
Inductive request : Type :=
| GetWeather (location : pyval)
| GetIpInfo (ip_address : pyval)
| LookupWord (word : pyval)
| GetExchangeRate (base_currency target_currency amount : pyval).

Definition serve (r : request) : M net pyval :=
  match r with
  | GetWeather location => get_weather location
  | GetIpInfo ip_address => get_ip_info ip_address
  | LookupWord word => lookup_word word
  | GetExchangeRate base_currency target_currency amount =>
      get_exchange_rate base_currency target_currency amount
  end.

(** The feature flag of the tool behind an endpoint, and the tool's name in
    the answer of a disabled endpoint. *)
Definition enabled (r : request) : bool :=
  match r with
  | GetWeather _ => enable_weather_tool settings
  | GetIpInfo _ => enable_ip_info_tool settings
  | LookupWord _ => enable_dictionary_tool settings
  | GetExchangeRate _ _ _ => enable_exchange_rate_tool settings
  end.

Definition label (r : request) : string :=
  match r with
  | GetWeather _ => "Weather tool"
  | GetIpInfo _ => "IP info tool"
  | LookupWord _ => "Dictionary tool"
  | GetExchangeRate _ _ _ => "Exchange rate tool"
  end.

End WithSettings.

End http_server.

(** ** [prometheus_grafana_fake_data/src/utils/helpers.py] *)
Module helpers.

(** [format_duration(seconds)]; [//] and [%] round towards minus infinity,
    as [Z.div] and [Z.modulo] do for a positive divisor. *)
Definition format_duration (seconds : option Z) : string :=
  match seconds with
  | None => "N/A"
  | Some seconds =>
      let hours := seconds / 3600 in
      let minutes := (seconds mod 3600) / 60 in
      let secs := seconds mod 60 in
      let parts := [] in
      let parts := if (0 <? hours)%Z then (parts ++ [pretty hours +:+ "h"])%list
                   else parts in
      let parts := if (0 <? minutes)%Z then (parts ++ [pretty minutes +:+ "m"])%list
                   else parts in
      let parts := if (0 <? secs)%Z || match parts with [] => true | _ => false end
                   then (parts ++ [pretty secs +:+ "s"])%list
                   else parts in
      join " " parts
  end.

(** [filter_by_status(items, status)]: the comprehension keeps the items
    whose ["status"] equals the given one; an item that is not a dict has no
    [get]. *)
Definition filter_by_status (items : list pyval) (status : option string)
    : result (list pyval) :=
  match status with
  | None => Ok items
  | Some status =>
      for_loop (fun kept item =>
                  s ← Py.get_opt item "status";
                  Ok (if Py.eq_str s status then (kept ++ [item])%list else kept))
               items []
  end.

(** [l[:n]] for any integer [n]. *)
Definition slice_to {A} (n : Z) (l : list A) : list A :=
  let len := Z.of_nat (length l) in
  let stop := if (n <? 0)%Z then Z.max 0 (len + n) else Z.min n len in
  firstn (Z.to_nat stop) l.

(** [l[i]] for any integer [i]. *)
Definition item (l : list Z) (i : Z) : result Z :=
  let len := Z.of_nat (length l) in
  let i := if (i <? 0)%Z then i + len else i in
  if (0 <=? i)%Z && (i <? len)%Z then Ok (nth (Z.to_nat i) l 0)
  else Raise (builtin_error IndexError "list index out of range").

Section WithRuntime.

Variable rt : runtime.

(** The lines [f"{i}. {item}"] for [enumerate(items, i)]. *)
Fixpoint enumerated (i : Z) (items : list pyval) : list string :=
  match items with
  | [] => []
  | item :: rest => (pretty i +:+ ". " +:+ to_str rt item) :: enumerated (i + 1) rest
  end.

(** The list [summary] of [summarize_list] for items that are there. *)
Definition summary_lines (items : list pyval) (max_items : Z) : list string :=
  let summary := enumerated 1 (slice_to max_items items) in
  if (Z.of_nat (length items) >? max_items)%Z
  then (summary ++ ["... and " +:+ pretty (Z.of_nat (length items) - max_items)
                      +:+ " more"])%list
  else summary.

Definition summarize_list (items : list pyval) (max_items : Z) : string :=
  match items with
  | [] => "No items found."
  | _ => join nl (summary_lines items max_items)
  end.

End WithRuntime.

(** [calculate_statistics(values)] for a list of integers: [sorted] gives
    the one ascending arrangement, [sum(...) / count] is true division. *)
Definition calculate_statistics (values : list Z) : result (list (string * pyval)) :=
  match values with
  | [] => Ok [("min", PInt 0); ("max", PInt 0); ("avg", PInt 0); ("median", PInt 0)]
  | _ =>
      let sorted_values := merge_sort Z.le values in
      let count := Z.of_nat (length sorted_values) in
      min_val ← item sorted_values 0;
      max_val ← item sorted_values (-1);
      avg ← Py.int_truediv (foldr Z.add 0 sorted_values) count;
      median ← item sorted_values (count / 2);
      Ok [("min", PInt min_val); ("max", PInt max_val);
          ("avg", PFloat avg); ("median", PInt median)]
  end.

End helpers.

(** ** [prometheus_grafana_fake_data/src/config/settings.py]

    The configuration is the value [yaml.safe_load] gave; the sections are
    separate objects (no YAML alias makes two of them one). *)
Module Settings.

(** [Path(path).exists()] *)
Definition file_exists (d : disk) (path : string) : bool :=
  match d path with
  | Missing => false
  | _ => true
  end.

(** [_find_config(config_path)]; [home_config] is
    [os.path.expanduser("~/.monitoring-mcp/config.yaml")]. *)
Definition _find_config (d : disk) (home_config : string) (config_path : option string)
    : string :=
  let standard :=
    let locations := ["config.yaml"; home_config; "/etc/monitoring-mcp/config.yaml"] in
    match List.find (file_exists d) locations with
    | Some location => location
    | None =>
        if file_exists d "config.yaml.example" then "config.yaml.example"
        else "config.yaml"
    end in
  match config_path with
  | Some config_path =>
      if negb (String.eqb config_path "") && file_exists d config_path then config_path
      else standard
  | None => standard
  end.

Definition configuration_error (message : string) (cause : exn) : exn :=
  mon_error MonExn.ConfigurationError message (Some cause).

(** [_load_config()] *)
Definition _load_config (d : disk) (config_path : string) : result pyval :=
  match d config_path with
  | Missing => Ok (PDict [])
  | Fails e =>
      if isinstance e (Builtin YAMLError) then
        Raise (configuration_error ("Failed to parse YAML config: " +:+ exn_str e) e)
      else if isinstance e (Builtin OSError) then
        Raise (configuration_error ("Failed to read config file: " +:+ exn_str e) e)
      else Raise e
  | Loads config => Ok (Py.or_else config (PDict []))
  end.

(** [v[k] = x] *)
Definition setitem (v : pyval) (k : string) (x : pyval) : result pyval :=
  match v with
  | PDict d => Ok (PDict (Py.store k x d))
  | PList _ => Raise (builtin_error TypeError
                        "list indices must be integers or slices, not str")
  | _ => Raise (builtin_error TypeError
                  ("'" +:+ Py.type_name v +:+ "' object does not support item assignment"))
  end.

(** [if name not in self.config: self.config[name] = {}] *)
Definition ensure_section (config : pyval) (name : string) : result pyval :=
  present ← Py.contains_str name config;
  if negb present then setitem config name (PDict []) else Ok config.

(** [self.config[section].setdefault(key, value)]: the section is changed
    in place, so it keeps its position in the configuration. *)
Definition setdefault (config : pyval) (entry : string * string * pyval) : result pyval :=
  let '(section, key, value) := entry in
  s ← Py.getitem_str config section;
  match s with
  | PDict d =>
      match Py.lookup key d with
      | Some _ => Ok config
      | None => setitem config section (PDict (Py.store key value d))
      end
  | _ => Raise (Py.no_attribute s "setdefault")
  end.

Definition sections : list string := ["server"; "data"; "time"; "thresholds"].

Definition defaults : list (string * string * pyval) := [
  ("server", "name", PStr "monitoring-mcp-server");
  ("server", "version", PStr "1.0.0");
  ("server", "host", PStr "0.0.0.0");
  ("server", "port", PInt 8000);
  ("server", "transport", PStr "stdio");
  ("server", "log_level", PStr "INFO");
  ("server", "log_file", PStr "logs/mcp_server.log");
  ("data", "base_path", PStr "data");
  ("data", "prometheus_path", PStr "data/prometheus");
  ("data", "grafana_path", PStr "data/grafana");
  ("data", "logs_path", PStr "data/logs");
  ("data", "performance_path", PStr "data/performance");
  ("time", "timezone", PStr "UTC");
  ("time", "default_lookback_hours", PInt 24);
  ("thresholds", "cpu_warning", PInt 70);
  ("thresholds", "cpu_critical", PInt 85);
  ("thresholds", "memory_warning", PInt 80);
  ("thresholds", "memory_critical", PInt 90);
  ("thresholds", "error_rate_warning", PFloat 1.0%float);
  ("thresholds", "error_rate_critical", PFloat 5.0%float);
  ("thresholds", "latency_warning_ms", PInt 500);
  ("thresholds", "latency_critical_ms", PInt 1000)].

(** [_initialize_defaults()] *)
Definition _initialize_defaults (config : pyval) : result pyval :=
  config ← for_loop ensure_section sections config;
  for_loop setdefault defaults config.

(** The loop of [get] over the keys of the path. *)
Fixpoint get_from (keys : list string) (value otherwise : pyval) : pyval :=
  match keys with
  | [] => match value with PNone => otherwise | _ => value end
  | key :: keys' =>
      match value with
      | PDict d =>
          match default PNone (Py.lookup key d) with
          | PNone => otherwise
          | value => get_from keys' value otherwise
          end
      | _ => otherwise
      end
  end.

(** [get(path, default)] *)
Definition get (config : pyval) (path : string) (otherwise : pyval) : pyval :=
  get_from (Str.split "." path) config otherwise.

Record t : Type := Make {
  config_path : string;
  config : pyval
}.

(** [Settings(config_path)] *)
Definition init (d : disk) (home_config : string) (path : option string) : result t :=
  let config_path := _find_config d home_config path in
  config ← _load_config d config_path;
  config ← _initialize_defaults config;
  Ok (Make config_path config).

Definition server_name (self : t) := get (config self) "server.name" (PStr "monitoring-mcp-server").
Definition server_version (self : t) := get (config self) "server.version" (PStr "1.0.0").
Definition server_host (self : t) := get (config self) "server.host" (PStr "0.0.0.0").
Definition server_port (self : t) := get (config self) "server.port" (PInt 8000).
Definition server_transport (self : t) := get (config self) "server.transport" (PStr "stdio").
Definition log_level (self : t) := get (config self) "server.log_level" (PStr "INFO").
Definition log_file (self : t) := get (config self) "server.log_file" (PStr "logs/mcp_server.log").
Definition prometheus_path (self : t) :=
  get (config self) "data.prometheus_path" (PStr "data/prometheus").
Definition grafana_path (self : t) := get (config self) "data.grafana_path" (PStr "data/grafana").
Definition logs_path (self : t) := get (config self) "data.logs_path" (PStr "data/logs").
Definition performance_path (self : t) :=
  get (config self) "data.performance_path" (PStr "data/performance").
Definition timezone (self : t) := get (config self) "time.timezone" (PStr "UTC").
Definition default_lookback_hours (self : t) :=
  get (config self) "time.default_lookback_hours" (PInt 24).
Definition cpu_warning_threshold (self : t) :=
  get (config self) "thresholds.cpu_warning" (PInt 70).
Definition cpu_critical_threshold (self : t) :=
  get (config self) "thresholds.cpu_critical" (PInt 85).
Definition memory_warning_threshold (self : t) :=
  get (config self) "thresholds.memory_warning" (PInt 80).
Definition memory_critical_threshold (self : t) :=
  get (config self) "thresholds.memory_critical" (PInt 90).
Definition error_rate_warning_threshold (self : t) :=
  get (config self) "thresholds.error_rate_warning" (PFloat 1.0%float).
Definition error_rate_critical_threshold (self : t) :=
  get (config self) "thresholds.error_rate_critical" (PFloat 5.0%float).
Definition latency_warning_threshold_ms (self : t) :=
  get (config self) "thresholds.latency_warning_ms" (PInt 500).
Definition latency_critical_threshold_ms (self : t) :=
  get (config self) "thresholds.latency_critical_ms" (PInt 1000).

End Settings.

(** ** Sample worlds

    Concrete transports, file systems and runtimes on which the theorems
    below are exercised. *)

(** A 200 response whose body parses to [data]. *)
Definition ok_response (data : pyval) : response := Response 200 "" (inl data) "".

(** A response with the given status and body, not JSON. *)
Definition error_response (status : Z) (body : string) : response :=
  Response status body (inr "Expecting value: line 1 column 1 (char 0)") "".

(** A transport that gives the same outcome to every request. *)
Definition always (o : outcome) : nat -> string -> list (string * pyval) -> outcome :=
  fun _ _ _ => o.

(** A transport that fails twice with [e] and then answers [r]. *)
Definition flaky (e : exn) (r : response) : nat -> string -> list (string * pyval) -> outcome :=
  fun n _ _ =>
    match n with
    | 0%nat | 1%nat => Thrown e
    | _ => Responded r
    end.

(** [httpx.ReadTimeout(msg)] and [httpx.ConnectError(msg)] *)
Definition read_timeout (msg : string) : exn := Exn (Httpx ReadTimeout) msg [] None None.
Definition connect_error (msg : string) : exn := Exn (Httpx ConnectError) msg [] None None.

(** A fresh network world over a transport. *)
Definition fresh (tr : nat -> string -> list (string * pyval) -> outcome) : net := Net tr 0 [].

(** A runtime whose clock stands at zero and whose printers print nothing. *)
Definition still_runtime : runtime :=
  Runtime (fun _ => "") (fun _ => "") (fun _ => 0) (fun _ => 0) (fun _ => 0)
          (fun _ => "") (fun _ => "") (fun _ => "") (fun _ => Ok 0).

(** A runtime whose clock stands at the given instant. *)
Definition runtime_at (instant : Z) : runtime :=
  Runtime (fun _ => "") (fun _ => "") (fun _ => 0) (fun _ => instant) (fun _ => 0)
          (fun _ => "") (fun _ => "") (fun _ => "") (fun _ => Ok 0).

(** Noon of 1 January 2026, in microseconds since 0001-01-01. *)
Definition new_year_2026 : Z := (739616 * 86400 + 43200) * 1000000.

(** A file system with no files, and one with a single file. *)
Definition no_files : disk := fun _ => Missing.
Definition one_file (path : string) (data : pyval) : disk :=
  fun p => if String.eqb p path then Loads data else Missing.

(** The monitoring server at start-up over a file system. *)
Definition boot (d : disk) : mon := MonWorld d (DataLoader.init "data") 0 0.

(** ** Dotted quads *)

(** One to three decimal digits. *)
Definition octet_text (s : string) : bool :=
  (1 <=? String.length s)%nat && (String.length s <=? 3)%nat
  && forallb Str.is_digit (Str.chars s).

(** The number an octet text denotes. *)
Definition octet_value (s : string) : Z := Str.digits_value (Str.chars s).

(** [a.b.c.d] *)
Definition dotted (a b c d : string) : string :=
  a +:+ "." +:+ b +:+ "." +:+ c +:+ "." +:+ d.

(** ** The shape of a weather result

    The result of a weather lookup, given the upstream's first
    [current_condition] entry [current] and the four values looked up one
    level further down: every field of the result is there, and a field that
    [current] lacks is the empty string. *)
Definition weather_result (current : list (string * pyval))
    (name country region condition : pyval) : pyval :=
  let field k := default (PStr "") (Py.lookup k current) in
  PDict [
    ("location", PDict [("name", name); ("country", country); ("region", region)]);
    ("current", PDict [
       ("temperature_c", field "temp_C");
       ("temperature_f", field "temp_F");
       ("feels_like_c", field "FeelsLikeC");
       ("feels_like_f", field "FeelsLikeF");
       ("condition", condition);
       ("humidity", field "humidity");
       ("precipitation_mm", field "precipMM");
       ("pressure_mb", field "pressure");
       ("wind_speed_kmph", field "windspeedKmph");
       ("wind_direction", field "winddir16Point");
       ("cloud_cover", field "cloudcover");
       ("uv_index", field "uvIndex");
       ("visibility_km", field "visibility")]);
    ("observation_time", field "observation_time")].

(** [data.get(k, [{}])[0]]: the first entry of a list field of the upstream
    document. *)
Definition first_entry (data : pyval) (k : string) : result pyval :=
  l ← Py.get data k (PList [PDict []]); Py.first l.

(** A traces fixture with one trace of one span. *)
Definition one_trace : pyval :=
  PDict [("traces", PList [
    PDict [("trace_id", PStr "4bf92f3577b34da6");
           ("spans", PList [
              PDict [("span_id", PStr "00f067aa0ba902b7");
                     ("service_name", PStr "api-gateway");
                     ("operation_name", PStr "GET /orders");
                     ("duration_ms", PInt 12)]])]])].

(** ** Notions used in the statements *)

(** Whatever [get_once] raises, the retry predicate of the decorator
    rejects: the handlers have already replaced every httpx exception by an
    [APIError] or a [TimeoutError] of the server. *)
Definition retryable (e : exn) : bool :=
  tenacity.retry_if_exception_type [Httpx TimeoutException; Httpx NetworkError] e.

(** The values [data or {}] can be: something true, or the empty dict. *)
Definition settled (v : pyval) : Prop := Py.truthy v = true \/ v = PDict [].

(** Every cached value went through [data or {}]. *)
Definition cache_settled (self : DataLoader.t) : Prop :=
  forall k v, DataLoader._cache self !! k = Some v -> settled v.

(** The window of the APM tool can be computed: [minutes] is not negative
    and does not reach back before year 1. *)
Definition window_fits (rt : runtime) (w : mon) (minutes : Z) : Prop :=
  0 <= minutes
  /\ minutes * us_per_minute <= now_utc rt (clock_reads w) <= datetime_max.

(** What httpx guarantees of the exceptions of a request: an
    [HTTPStatusError] carries the response it was raised for. *)
Definition carries_response (o : outcome) : Prop :=
  match o with
  | Thrown e => isinstance e (Httpx HTTPStatusError) = true -> is_Some (exn_response e)
  | Responded _ => True
  end.

(** [n] slashes. *)
Definition slashes (n : nat) : string := Str.of_chars (repeat "/"%char n).

(** The last character of [s] is a slash. *)
Definition ends_with_slash (s : string) : bool :=
  match rev (Str.chars s) with
  | c :: _ => Str.is_char "/" c
  | [] => false
  end.

(** A handler that ends in a [ToolExecutionError] whatever it is given,
    and leaves the world alone. *)
Definition wraps (h : exn -> M net pyval) : Prop :=
  forall e w, exists e', h e w = (Raise e', w)
                         /\ exn_cls e' = Mcp McpExn.ToolExecutionError.

(** The characters of a dictionary word: letters, hyphen, apostrophe. *)
Definition word_char (c : ascii) : bool :=
  Str.is_alpha c || Str.is_char "-" c || Str.is_char "'" c.

(** Some character of [s] satisfies [p]. *)
Fixpoint any_char (p : ascii -> bool) (s : string) : bool :=
  match s with
  | EmptyString => false
  | String c s' => p c || any_char p s'
  end.

(** The URL the IP tool asks for. *)
Definition ip_url (ip_address : string) : string :=
  _build_url IPInfoTool.base_url
    (if negb (String.eqb ip_address "") then ip_address +:+ "/json/" else "json/").

(** The definitions of an upstream meaning and of a meaning of the result
    are as many. *)
Definition as_many_definitions (meaning out : pyval) : Prop :=
  exists defs outs,
    (ds ← Py.get meaning "definitions" (PList []); Py.iter ds) = Ok defs
    /\ Py.get out "definitions" PNone = Ok (PList outs)
    /\ length outs = length defs.

(** What a monitoring tool lets out: a validation error as it was raised,
    or a [ToolExecutionError] that carries its cause. *)
Definition wrapped (e : exn) : Prop :=
  exn_cls e = Mon MonExn.ToolExecutionError /\ is_Some (exn_cause e).

Definition validation_or_wrapped (e : exn) : Prop :=
  exn_cls e = Mon MonExn.TimeRangeError \/ exn_cls e = Mon MonExn.FilterError \/ wrapped e.

(** Every exception of an outcome satisfies [P]. *)
Definition raises_only {A W} (P : exn -> Prop) (out : result A * W) : Prop :=
  match fst out with
  | Ok _ => True
  | Raise e => P e
  end.

(** The error of a fixture that is not there. *)
Definition file_not_found (self : DataLoader.t) (filepath : string) : exn :=
  mon_error MonExn.DataLoadError
    ("File not found: " +:+ DataLoader.full_path self filepath) None.

(** The error a tool makes of it. *)
Definition failed_with (what : string) (cause : exn) : exn :=
  mon_execution_error (what +:+ ": " +:+ exn_str cause) cause.

(** The world after a fixture has been read and cached. *)
Definition cached (w : mon) (filepath : string) (data : pyval) : mon :=
  MonWorld (files w)
    (DataLoader.Loader (DataLoader.base_path (data_loader w))
       (<[filepath := data]> (DataLoader._cache (data_loader w))))
    (clock_reads w) (uuid_reads w).

(** The world after one more reading of the clock. *)
Definition tick (w : mon) : mon :=
  MonWorld (files w) (data_loader w) (S (clock_reads w)) (uuid_reads w).

(** A fixture with two interface records. *)
Definition two_interface_logs : pyval :=
  PDict [("interface_logs", PList [PDict [("id", PStr "if-1")]; PDict [("id", PStr "if-2")]])].

(** What an outcome returned, [None] if it raised. *)
Definition returned (r : result pyval) : pyval :=
  match r with
  | Ok v => v
  | Raise _ => PNone
  end.

(** The checks of a health-check endpoint and the metrics of an
    application area, as the flattening loops walk them. *)
Definition checks_of (endpoint : pyval) : result (list pyval) :=
  checks ← Py.get endpoint "checks" (PList []); Py.iter checks.

Definition metrics_of (area : string * pyval) : result (list pyval) :=
  ms ← Py.get (snd area) "metrics" (PList []); Py.iter ms.

(** [x] has [n] records under it. *)
Definition holds {A} (records : A -> result (list pyval)) (x : A) (n : nat) : Prop :=
  exists l, records x = Ok l /\ length l = n.

(** The samples the APM tool emits for one metric. *)
Definition apm_samples_per_metric (metric_type : string) : nat :=
  (if CheckAPMTool.in_types metric_type ["errors"; "all"] then 3 else 0)
  + (if CheckAPMTool.in_types metric_type ["latency"; "all"] then 4 else 0).

(** A trace of the fixture and a trace of the Jaeger document have the same
    identifier and as many spans. *)
Definition same_trace (trace out : pyval) : Prop :=
  exists trace_id each spans processes,
    Py.get trace "trace_id" (PStr "") = Ok trace_id
    /\ (ss ← Py.get trace "spans" (PList []); Py.iter ss) = Ok each
    /\ out = PDict [("traceID", trace_id); ("spans", PList spans);
                    ("processes", PDict processes)]
    /\ length spans = length each.

(** A metric family of the server report: a Prometheus vector with [n]
    samples. *)
Definition family_of (n : nat) (v : pyval) : Prop :=
  exists query results,
    v = ServerPerformanceTool.vector query results /\ length results = n.

(** A server-metrics fixture with two nodes. *)
Definition two_nodes : list pyval :=
  [PDict [("node", PStr "web-01"); ("cpu_usage_percent", PInt 45)];
   PDict [("node", PStr "web-02"); ("cpu_usage_percent", PInt 72)]].

(** What a computation returned, nothing if it raised. *)
Definition families_of (r : result (list (string * pyval))) : list (string * pyval) :=
  match r with
  | Ok fams => fams
  | Raise _ => []
  end.

(** The parts of a duration of [h] hours, [m] minutes and [s] seconds. *)
Definition duration_parts (h m s : Z) : list string :=
  ((if (0 <? h)%Z then [pretty h +:+ "h"] else [])
   ++ (if (0 <? m)%Z then [pretty m +:+ "m"] else [])
   ++ (if (0 <? s)%Z || ((h =? 0)%Z && (m =? 0)%Z) then [pretty s +:+ "s"] else []))%list.

(** What a configuration holds for a key of a section. *)
Definition look (c : list (string * pyval)) (section key : string) : option pyval :=
  match Py.lookup section c with
  | Some (PDict d) => Py.lookup key d
  | _ => None
  end.

(** What the file sets for a key of a section, if it sets anything. *)
Definition file_sets (config : pyval) (section key : string) : option pyval :=
  match config with
  | PDict c => look c section key
  | _ => None
  end.

(** The first default of a list for a key of a section. *)
Fixpoint first_default (l : list (string * string * pyval)) (section key : string)
    : option pyval :=
  match l with
  | [] => None
  | (s, k, v) :: l' =>
      if String.eqb section s && String.eqb key k then Some v
      else first_default l' section key
  end.

(** The accessors of [Settings]. *)
Definition accessors : list (Settings.t -> pyval) := [
  Settings.server_name; Settings.server_version; Settings.server_host;
  Settings.server_port; Settings.server_transport; Settings.log_level; Settings.log_file;
  Settings.prometheus_path; Settings.grafana_path; Settings.logs_path;
  Settings.performance_path; Settings.timezone; Settings.default_lookback_hours;
  Settings.cpu_warning_threshold; Settings.cpu_critical_threshold;
  Settings.memory_warning_threshold; Settings.memory_critical_threshold;
  Settings.error_rate_warning_threshold; Settings.error_rate_critical_threshold;
  Settings.latency_warning_threshold_ms; Settings.latency_critical_threshold_ms].

(** A configuration file with a port and a null log level. *)
Definition port_and_null_level : pyval :=
  PDict [("server", PDict [("port", PInt 9000); ("log_level", PNone)])].

(** ** The addresses the IP tool accepts *)

(** Four octets of at most 255 with dots between them, possibly followed by
    the one newline that [$] lets through. *)
Definition quad_in_range (s : string) : Prop :=
  exists a b c d,
    (s = dotted a b c d \/ s = dotted a b c d +:+ nl)
    /\ octet_text a = true /\ octet_text b = true
    /\ octet_text c = true /\ octet_text d = true
    /\ octet_value a <= 255 /\ octet_value b <= 255
    /\ octet_value c <= 255 /\ octet_value d <= 255.

(** The text matches the simplified colon-hex pattern. *)
Definition colon_hex (s : string) : Prop :=
  Re.match_anchored IPInfoTool.ipv6_pattern s = true.

(** ** The stated constraints on the parameters

    What the tools require of their parameters, in the words of their
    descriptions.  Each predicate reads: the parameters of the call violate
    the constraints of the tool. *)


(** Every text among the parameters is ASCII. *)
Definition ascii_args (kw : kwargs) : Prop :=
  forall p s, Py.lookup p kw = Some (PStr s) -> Str.isascii s = true.



(** A word: letters, hyphens and apostrophes, with a letter among them. *)
Definition good_word (w : string) : bool :=
  Str.all_chars word_char w && any_char Str.is_alpha w.







(** * Properties *)

(** ** The monad *)

Lemma catch_reraise {W A} (m : M W A) (w : W) :
  catch m (fun e => raise e) w = m w.
Proof.
  unfold catch, raise. destruct (m w) as [[a|e] w']; reflexivity.
Qed.

(** ** The fetch client *)

Lemma on_error_not_retryable {A} (url : string) (e : exn) (w w' : net) (e' : exn) :
  @HTTPClient.on_error A url e w = (Raise e', w') -> retryable e' = false.
Proof.
  unfold HTTPClient.on_error.
  destruct (isinstance e (Httpx TimeoutException)).
  { intros H; inversion H; reflexivity. }
  destruct (isinstance e (Httpx HTTPStatusError)).
  { destruct (exn_response e) as [r|]; intros H; inversion H; subst.
    - unfold api_error. destruct (Py.truthy (PInt (status_code r))),
        (Py.truthy (PStr (text r))); reflexivity.
    - reflexivity. }
  destruct (isinstance e (Httpx RequestError)); intros H; inversion H; reflexivity.
Qed.

Lemma get_once_not_retryable (self : HTTPClient.t) url params (w w' : net) (e : exn) :
  HTTPClient.get_once self url params w = (Raise e, w') -> retryable e = false.
Proof.
  unfold HTTPClient.get_once.
  destruct (HTTPClient.entered self); simpl.
  2:{ intros H; inversion H; reflexivity. }
  unfold catch.
  match goal with |- context [match ?m w with _ => _ end] => destruct (m w) as [[v|e0] w0] end.
  - intros H; inversion H.
  - apply on_error_not_retryable.
Qed.

(** The decorated [get] makes exactly the one attempt of its body. *)
Lemma get_is_get_once (self : HTTPClient.t) url params (w : net) :
  HTTPClient.get self url params w = HTTPClient.get_once self url params w.
Proof.
  unfold HTTPClient.get, tenacity.retry. simpl tenacity.attempts.
  unfold catch at 1.
  destruct (HTTPClient.get_once self url params w) as [[v|e] w'] eqn:E; [reflexivity|].
  apply get_once_not_retryable in E.
  unfold retryable, tenacity.retry_if_exception_type in E. cbn [existsb] in E.
  rewrite E. reflexivity.
Qed.

(** The decorator does retry what it is shown: around the bare transport
    call, two timeouts and an answer make three requests, with waits of one
    and two seconds between them. *)
Lemma retry_sees_raw_timeouts (msg url : string) (params : list (string * pyval))
    (r : response) :
  tenacity.retry 3 (tenacity.wait_exponential 1 1 10) retryable
    (HTTPClient.client_get url params) (fresh (flaky (read_timeout msg) r))
  = (Ok r, Net (flaky (read_timeout msg) r) 3 [1; 2]).
Proof. reflexivity. Qed.

(** C1: the retry that [get] announces does not happen.  On a transport
    that fails twice with a transient error and would then answer, [get]
    raises after the first failure: the transport has been invoked once, not
    three times, nothing has been waited, and the success is never seen.  A
    timeout surfaces as the server's [TimeoutError], a connection failure as
    an [APIError], each with the httpx exception as its cause.  On a
    transport that always times out the transport is likewise invoked once,
    not [max_retries] times. *)
Theorem get_stops_at_first_transient_failure (msg url : string)
    (params : list (string * pyval)) (r : response) :
  HTTPClient.fetch url params (fresh (flaky (read_timeout msg) r))
  = (Raise (mcp_error McpExn.TimeoutError ("Request to " +:+ url +:+ " timed out")
              (Some (read_timeout msg))),
     Net (flaky (read_timeout msg) r) 1 [])
  /\
  HTTPClient.fetch url params (fresh (flaky (connect_error msg) r))
  = (Raise (api_error ("Request failed for " +:+ url +:+ ": " +:+ msg) None None
              (Some (connect_error msg))),
     Net (flaky (connect_error msg) r) 1 [])
  /\
  HTTPClient.fetch url params (fresh (always (Thrown (read_timeout msg))))
  = (Raise (mcp_error McpExn.TimeoutError ("Request to " +:+ url +:+ " timed out")
              (Some (read_timeout msg))),
     Net (always (Thrown (read_timeout msg))) 1 []).
Proof.
  unfold HTTPClient.fetch. rewrite !get_is_get_once. repeat split.
Qed.

(** The status check fails exactly outside 200-299. *)
Lemma raise_for_status_error (r : response) :
  (status_code r < 200 \/ 299 < status_code r) ->
  HTTPClient.raise_for_status r
  = Raise (Exn (Httpx HTTPStatusError) (status_error r) [] (Some r) None).
Proof.
  intros H. unfold HTTPClient.raise_for_status.
  destruct (200 <=? status_code r)%Z eqn:E1; [|reflexivity].
  destruct (status_code r <=? 299)%Z eqn:E2; [|reflexivity].
  apply Z.leb_le in E1, E2. lia.
Qed.

(** C3: a response whose status is not 2xx is not retried.  [get] raises
    an [APIError] at once: the transport has been invoked exactly once more
    and nothing has been waited.  The error's details hold the status code,
    and the body whenever the body is not empty; its cause is the
    [HTTPStatusError] that carries the response itself. *)
Theorem non_2xx_raises_without_retry
    (tr : nat -> string -> list (string * pyval) -> outcome)
    (url : string) (params : list (string * pyval)) (r : response)
    (n : nat) (waited : list Z) :
  tr n url params = Responded r ->
  100 <= status_code r ->
  (status_code r < 200 \/ 299 < status_code r) ->
  let cause := Exn (Httpx HTTPStatusError) (status_error r) [] (Some r) None in
  let e := api_error ("HTTP " +:+ pretty (status_code r) +:+ " error for " +:+ url)
             (Some (status_code r)) (Some (text r)) (Some cause) in
  HTTPClient.fetch url params (Net tr n waited) = (Raise e, Net tr (S n) waited)
  /\ exn_cls e = Mcp McpExn.APIError
  /\ Py.lookup "status_code" (exn_details e) = Some (PInt (status_code r))
  /\ Py.lookup "response_text" (exn_details e)
     = (if String.eqb (text r) "" then None else Some (PStr (text r)))
  /\ exn_cause e = Some cause
  /\ exn_response cause = Some r.
Proof.
  intros Htr Hlo Hnot cause e.
  assert (Hs : Py.truthy (PInt (status_code r)) = true).
  { simpl. destruct (status_code r =? 0)%Z eqn:E; [|reflexivity].
    apply Z.eqb_eq in E. lia. }
  split.
  { unfold HTTPClient.fetch. rewrite get_is_get_once.
    unfold HTTPClient.get_once.
    change (HTTPClient.entered (HTTPClient.aenter HTTPClient.init)) with true.
    cbv beta iota delta [negb catch mbind M_bind HTTPClient.client_get transport calls sleeps].
    rewrite Htr. unfold lift. rewrite (raise_for_status_error r Hnot).
    unfold HTTPClient.on_error.
    change (isinstance cause (Httpx TimeoutException)) with false.
    change (isinstance cause (Httpx HTTPStatusError)) with true.
    reflexivity. }
  subst e. unfold api_error. rewrite Hs.
  repeat split.
  - simpl. destruct (String.eqb (text r) ""); reflexivity.
  - simpl. destruct (String.eqb (text r) ""); reflexivity.
Qed.

(** A 404 with a body, answered to the first request. *)
Lemma non_2xx_raises_without_retry_witness :
  HTTPClient.fetch "https://wttr.in/Nowhere" []
    (fresh (always (Responded (error_response 404 "Not Found"))))
  = (Raise (api_error "HTTP 404 error for https://wttr.in/Nowhere" (Some 404)
              (Some "Not Found")
              (Some (Exn (Httpx HTTPStatusError) "" []
                       (Some (error_response 404 "Not Found")) None))),
     Net (always (Responded (error_response 404 "Not Found"))) 1 []).
Proof.
  apply (non_2xx_raises_without_retry
           (always (Responded (error_response 404 "Not Found")))
           "https://wttr.in/Nowhere" [] (error_response 404 "Not Found") 0 []).
  - reflexivity.
  - simpl; lia.
  - right; simpl; lia.
Defined.

(** ** Patterns: matching by derivatives is membership in the language *)

Lemma nullable_lang (r : Re.regex) : Re.nullable r = true <-> Re.lang r [].
Proof.
  split.
  - induction r; simpl; intros H; try discriminate.
    + constructor.
    + apply andb_true_iff in H as [H1 H2].
      change (@nil ascii) with (@nil ascii ++ [])%list. constructor; auto.
    + apply orb_true_iff in H as [H|H]; [apply Re.lang_alt_l|apply Re.lang_alt_r]; auto.
    + constructor.
  - intros H. remember (@nil ascii) as s eqn:Es.
    induction H; simpl; try discriminate; auto.
    + apply app_eq_nil in Es as [-> ->]. rewrite IHlang1, IHlang2; auto.
    + rewrite IHlang; auto.
    + rewrite IHlang; auto. apply orb_true_r.
Qed.

Lemma deriv_sound (c : ascii) (r : Re.regex) :
  forall s, Re.lang (Re.deriv c r) s -> Re.lang r (c :: s).
Proof.
  induction r; simpl; intros s H.
  - inversion H.
  - inversion H.
  - destruct (p c) eqn:E; inversion H; subst. constructor; exact E.
  - destruct (Re.nullable r1) eqn:N.
    + inversion H; subst.
      * match goal with Hs : Re.lang (Re.Seq _ _) _ |- _ => inversion Hs; subst end.
        change (c :: (s1 ++ s2))%list with ((c :: s1) ++ s2)%list.
        constructor; auto.
      * change (c :: s) with ([] ++ c :: s)%list.
        constructor; auto. apply nullable_lang; exact N.
    + inversion H; subst.
      change (c :: (s1 ++ s2))%list with ((c :: s1) ++ s2)%list.
      constructor; auto.
  - inversion H; subst; [apply Re.lang_alt_l|apply Re.lang_alt_r]; auto.
  - inversion H; subst.
    change (c :: (s1 ++ s2))%list with ((c :: s1) ++ s2)%list.
    constructor; auto.
Qed.

Lemma deriv_complete (r : Re.regex) (t : list ascii) :
  Re.lang r t -> forall c s, t = c :: s -> Re.lang (Re.deriv c r) s.
Proof.
  induction 1; intros c0 s0 E; simpl.
  - discriminate.
  - inversion E; subst. rewrite H. constructor.
  - destruct s1 as [|a s1'].
    + simpl in E. subst s2.
      assert (N : Re.nullable r1 = true) by (apply nullable_lang; assumption).
      rewrite N. apply Re.lang_alt_r. apply IHlang2. reflexivity.
    + simpl in E. inversion E; subst.
      assert (L : Re.lang (Re.Seq (Re.deriv c0 r1) r2) (s1' ++ s2)%list).
      { constructor; auto. }
      destruct (Re.nullable r1); [apply Re.lang_alt_l|]; exact L.
  - apply Re.lang_alt_l; auto.
  - apply Re.lang_alt_r; auto.
  - discriminate.
  - destruct s1 as [|a s1'].
    + simpl in E. apply (IHlang2 c0 s0) in E. simpl in E. exact E.
    + simpl in E. inversion E; subst. constructor; auto.
Qed.

Lemma fullmatch_lang (s : list ascii) :
  forall r, Re.fullmatch r s = true <-> Re.lang r s.
Proof.
  induction s as [|c s IH]; intros r; simpl.
  - apply nullable_lang.
  - rewrite IH. split.
    + apply deriv_sound.
    + intros H. eapply deriv_complete; eauto.
Qed.

(** ** Text: characters, splitting and [int] *)

Lemma chars_app (a b : string) : Str.chars (a +:+ b) = (Str.chars a ++ Str.chars b)%list.
Proof. induction a as [|c a IH]; simpl; [reflexivity|]. unfold Str.chars in *. simpl. now rewrite IH. Qed.

Lemma of_chars_chars (s : string) : Str.of_chars (Str.chars s) = s.
Proof. apply string_of_list_ascii_of_string. Qed.

Lemma chars_of_chars (l : list ascii) : Str.chars (Str.of_chars l) = l.
Proof. apply list_ascii_of_string_of_list_ascii. Qed.

(** What being a digit excludes. *)
Lemma digit_is_plain (c : ascii) :
  Str.is_digit c = true ->
  Str.is_space c = false /\ Str.is_char "-" c = false /\ Str.is_char "+" c = false
  /\ Str.is_char "_" c = false /\ Str.is_char "." c = false
  /\ Str.is_char Re.newline c = false /\ 0 <= Str.digit_value c <= 9.
Proof.
  destruct c as [[] [] [] [] [] [] [] []]; vm_compute; intros H; try discriminate H;
    repeat split; discriminate.
Qed.

Lemma drop_while_stops (p : ascii -> bool) (l : list ascii) :
  match l with c :: _ => p c = false | [] => True end -> Str.drop_while p l = l.
Proof. destruct l as [|c l]; simpl; [reflexivity|]. intros ->. reflexivity. Qed.

Lemma forallb_last (p : ascii -> bool) (l : list ascii) :
  forallb p l = true ->
  match rev l with c :: _ => p c = true | [] => True end.
Proof.
  intros H. destruct (rev l) as [|c t] eqn:E; [exact I|].
  rewrite forallb_forall in H. apply H. apply in_rev. rewrite E. left; reflexivity.
Qed.

(** A non-empty run of digits, possibly followed by the newline that [$]
    lets through, is left as the run of digits by [strip]. *)
Lemma strip_digits (l : list ascii) (tail : list ascii) :
  l <> [] -> forallb Str.is_digit l = true ->
  tail = [] \/ tail = [Re.newline] ->
  Str.chars (Str.strip (Str.of_chars (l ++ tail))) = l.
Proof.
  intros Hne Hd Ht. unfold Str.strip, Str.lstrip_by, Str.rstrip_by.
  rewrite !chars_of_chars.
  assert (Hr : Str.drop_while Str.is_space (rev (l ++ tail)) = rev l).
  { rewrite rev_app_distr. destruct Ht as [->| ->]; simpl.
    - apply drop_while_stops. pose proof (forallb_last _ _ Hd) as Hl.
      destruct (rev l); [exact I|]. apply digit_is_plain in Hl. tauto.
    - apply drop_while_stops. pose proof (forallb_last _ _ Hd) as Hl.
      destruct (rev l); [exact I|]. apply digit_is_plain in Hl. tauto. }
  rewrite Hr, rev_involutive.
  apply drop_while_stops. destruct l as [|c l]; [exact I|].
  simpl in Hd. apply andb_true_iff in Hd as [Hc _]. apply digit_is_plain in Hc. tauto.
Qed.

Lemma digit_groups_digits (l : list ascii) (b : bool) :
  forallb Str.is_digit l = true -> l <> [] -> Str.digit_groups b l = true.
Proof.
  revert b. induction l as [|c l IH]; intros b Hd Hne; [congruence|].
  simpl in Hd. apply andb_true_iff in Hd as [Hc Hl]. simpl. rewrite Hc.
  destruct l as [|c' l']; [reflexivity|]. apply IH; [exact Hl|congruence].
Qed.

Lemma filter_digits (l : list ascii) :
  forallb Str.is_digit l = true -> filter (fun c => Str.is_digit c = true) l = l.
Proof.
  induction l as [|c l IH]; simpl; intros H; [reflexivity|].
  apply andb_true_iff in H as [Hc Hl].
  rewrite filter_cons. destruct (decide (Str.is_digit c = true)); [|contradiction].
  now rewrite IH.
Qed.

(** [int] of such a text is the value of its digits. *)
Lemma parse_int_digits (l tail : list ascii) :
  l <> [] -> forallb Str.is_digit l = true ->
  tail = [] \/ tail = [Re.newline] ->
  Str.parse_int (Str.of_chars (l ++ tail)) = Some (Str.digits_value l).
Proof.
  intros Hne Hd Ht. unfold Str.parse_int. rewrite (strip_digits l tail Hne Hd Ht).
  destruct l as [|c l]; [congruence|].
  pose proof Hd as Hd'. simpl in Hd'. apply andb_true_iff in Hd' as [Hc _].
  destruct (digit_is_plain c Hc) as (_ & Hm & Hp & _).
  rewrite Hm, Hp. rewrite digit_groups_digits by (auto; congruence).
  rewrite filter_digits by exact Hd. reflexivity.
Qed.

Lemma fold_digits_nonneg (l : list ascii) :
  forall acc, 0 <= acc -> forallb Str.is_digit l = true ->
  0 <= fold_left (fun a c => 10 * a + Str.digit_value c) l acc.
Proof.
  induction l as [|c l IH]; simpl; intros acc Ha Hd; [exact Ha|].
  apply andb_true_iff in Hd as [Hc Hl]. apply IH; [|exact Hl].
  apply digit_is_plain in Hc. lia.
Qed.

Lemma digits_value_nonneg (l : list ascii) :
  forallb Str.is_digit l = true -> 0 <= Str.digits_value l.
Proof. intros Hd. apply fold_digits_nonneg; [lia|exact Hd]. Qed.

(** Splitting at a separator that the pieces do not contain. *)
Lemma split_whole (sep : ascii) (l : list ascii) :
  forallb (fun c => negb (Str.is_char sep c)) l = true ->
  Str.split sep (Str.of_chars l) = [Str.of_chars l].
Proof.
  induction l as [|c l IH]; simpl; intros H; [reflexivity|].
  apply andb_true_iff in H as [Hc Hl]. apply negb_true_iff in Hc.
  change (Str.of_chars (c :: l)) with (String c (Str.of_chars l)).
  simpl. rewrite Hc, (IH Hl). reflexivity.
Qed.

Lemma split_piece (sep : ascii) (l rest : list ascii) :
  forallb (fun c => negb (Str.is_char sep c)) l = true ->
  Str.split sep (Str.of_chars (l ++ sep :: rest))
  = Str.of_chars l :: Str.split sep (Str.of_chars rest).
Proof.
  induction l as [|c l IH]; simpl; intros H.
  - change (Str.of_chars (sep :: rest)) with (String sep (Str.of_chars rest)).
    simpl. unfold Str.is_char at 1. rewrite Ascii.eqb_refl. reflexivity.
  - apply andb_true_iff in H as [Hc Hl]. apply negb_true_iff in Hc.
    change (Str.of_chars (c :: (l ++ sep :: rest)))
      with (String c (Str.of_chars (l ++ sep :: rest))).
    simpl. rewrite Hc, (IH Hl). reflexivity.
Qed.

(** ** The IPv4 pattern *)

Ltac invert_lang :=
  repeat match goal with
         | H : Re.lang (Re.Seq _ _) _ |- _ => inversion H; clear H; subst
         | H : Re.lang (Re.Alt _ _) _ |- _ => inversion H; clear H; subst
         | H : Re.lang Re.Empty _ |- _ => inversion H; clear H; subst
         | H : Re.lang (Re.Class _) _ |- _ => inversion H; clear H; subst
         | H : Re.lang Re.Nothing _ |- _ => inversion H
         end.

Lemma lang_seq_inv (r1 r2 : Re.regex) (l : list ascii) :
  Re.lang (Re.Seq r1 r2) l ->
  exists s1 s2, l = (s1 ++ s2)%list /\ Re.lang r1 s1 /\ Re.lang r2 s2.
Proof. intros H. inversion H; subst. eauto. Qed.

Lemma lang_char_inv (c : ascii) (l : list ascii) :
  Re.lang (Re.Class (Str.is_char c)) l -> l = [c].
Proof.
  intros H. inversion H; subst.
  match goal with H : Str.is_char _ _ = true |- _ => apply Ascii.eqb_eq in H; subst end.
  reflexivity.
Qed.

(** [\d{1,3}]: one to three digits. *)
Lemma lang_octet (l : list ascii) :
  Re.lang (Re.between 1 3 (Re.Class Str.is_digit)) l
  <-> forallb Str.is_digit l = true /\ (1 <= length l <= 3)%nat.
Proof.
  split.
  - unfold Re.between. simpl. intros H. invert_lang; simpl;
      repeat match goal with H : Str.is_digit _ = true |- _ => rewrite H; clear H end;
      split; try reflexivity; lia.
  - intros [Hd Hl]. apply fullmatch_lang.
    destruct l as [|c1 [|c2 [|c3 [|c4 l]]]]; simpl in Hl; try lia; simpl in Hd;
      repeat match goal with
             | H : _ && _ = true |- _ => apply andb_true_iff in H as [? ?]
             end;
      cbn; repeat match goal with H : Str.is_digit _ = true |- _ => rewrite H; cbn end;
      reflexivity.
Qed.

(** A word of the IPv4 pattern is four octets with dots between them. *)
Lemma lang_ipv4 (l : list ascii) :
  Re.lang IPInfoTool.ipv4_pattern l
  <-> exists a b c d,
        l = (a ++ "."%char :: b ++ "."%char :: c ++ "."%char :: d)%list
        /\ Re.lang (Re.between 1 3 (Re.Class Str.is_digit)) a
        /\ Re.lang (Re.between 1 3 (Re.Class Str.is_digit)) b
        /\ Re.lang (Re.between 1 3 (Re.Class Str.is_digit)) c
        /\ Re.lang (Re.between 1 3 (Re.Class Str.is_digit)) d.
Proof.
  unfold IPInfoTool.ipv4_pattern.
  generalize (Re.between 1 3 (Re.Class Str.is_digit)) as oct. intros oct.
  simpl Re.times. split.
  - intros H.
    apply lang_seq_inv in H as (t & d & -> & H & Hd).
    apply lang_seq_inv in H as (a' & t1 & -> & Ha & H).
    apply lang_seq_inv in Ha as (a & da & -> & Ha & Hda).
    apply lang_seq_inv in H as (b' & t2 & -> & Hb & H).
    apply lang_seq_inv in Hb as (b & db & -> & Hb & Hdb).
    apply lang_seq_inv in H as (c' & t3 & -> & Hc & H).
    apply lang_seq_inv in Hc as (c & dc & -> & Hc & Hdc).
    apply lang_char_inv in Hda, Hdb, Hdc. subst da db dc.
    inversion H; subst.
    exists a, b, c, d. split; [|tauto].
    rewrite <- !app_assoc. simpl. reflexivity.
  - intros (a & b & c & d & -> & Ha & Hb & Hc & Hd).
    replace (a ++ "."%char :: b ++ "."%char :: c ++ "."%char :: d)%list
      with (((a ++ ["."%char]) ++ (b ++ ["."%char]) ++ (c ++ ["."%char]) ++ []) ++ d)%list.
    2:{ rewrite <- !app_assoc. simpl. reflexivity. }
    repeat constructor; assumption.
Qed.

(** ** The IP validator *)

Lemma octet_no_dot (l tail : list ascii) :
  forallb Str.is_digit l = true -> tail = [] \/ tail = [Re.newline] ->
  forallb (fun c => negb (Str.is_char "." c)) (l ++ tail) = true.
Proof.
  intros Hd Ht. rewrite forallb_app. apply andb_true_iff. split.
  - rewrite forallb_forall in *. intros c Hc. apply Hd in Hc.
    apply digit_is_plain in Hc. apply negb_true_iff. tauto.
  - destruct Ht as [-> | ->]; reflexivity.
Qed.

Lemma all_octets_step (l tail : list ascii) (rest : list string) :
  forallb Str.is_digit l = true /\ (1 <= length l <= 3)%nat ->
  tail = [] \/ tail = [Re.newline] ->
  IPInfoTool.all_octets (Str.of_chars (l ++ tail) :: rest)
  = if (Str.digits_value l <=? 255)%Z then IPInfoTool.all_octets rest else Ok false.
Proof.
  intros [Hd Hl] Ht. simpl.
  rewrite parse_int_digits; auto.
  2:{ destruct l; simpl in Hl; [lia|congruence]. }
  pose proof (digits_value_nonneg l Hd) as Hn.
  apply Z.leb_le in Hn. rewrite Hn. reflexivity.
Qed.

(** On four octets with dots between them, and possibly the newline that
    [$] lets through after them, the validator answers whether every octet
    is at most 255. *)
Lemma is_valid_ip_chars (a b c d tail : list ascii) :
  forallb Str.is_digit a = true /\ (1 <= length a <= 3)%nat ->
  forallb Str.is_digit b = true /\ (1 <= length b <= 3)%nat ->
  forallb Str.is_digit c = true /\ (1 <= length c <= 3)%nat ->
  forallb Str.is_digit d = true /\ (1 <= length d <= 3)%nat ->
  tail = [] \/ tail = [Re.newline] ->
  IPInfoTool._is_valid_ip
    (Str.of_chars (a ++ "."%char :: b ++ "."%char :: c ++ "."%char :: d ++ tail))
  = Ok ((Str.digits_value a <=? 255)%Z && (Str.digits_value b <=? 255)%Z
        && (Str.digits_value c <=? 255)%Z && (Str.digits_value d <=? 255)%Z).
Proof.
  intros Ha Hb Hc Hd Ht. unfold IPInfoTool._is_valid_ip.
  assert (Hm : Re.match_anchored IPInfoTool.ipv4_pattern
                 (Str.of_chars (a ++ "."%char :: b ++ "."%char :: c ++ "."%char :: d ++ tail))
               = true).
  { unfold Re.match_anchored. rewrite chars_of_chars.
    assert (L : Re.lang IPInfoTool.ipv4_pattern
                  (a ++ "."%char :: b ++ "."%char :: c ++ "."%char :: d)%list).
    { apply lang_ipv4. exists a, b, c, d. rewrite <- !lang_octet in *. tauto. }
    apply fullmatch_lang in L.
    destruct Ht as [-> | ->].
    - rewrite app_nil_r. rewrite L. reflexivity.
    - apply orb_true_iff. right.
      replace (a ++ "."%char :: b ++ "."%char :: c ++ "."%char :: d ++ [Re.newline])%list
        with ((a ++ "."%char :: b ++ "."%char :: c ++ "."%char :: d) ++ [Re.newline])%list.
      2:{ rewrite <- !app_assoc. simpl. rewrite <- !app_assoc. simpl.
          rewrite <- !app_assoc. reflexivity. }
      rewrite rev_app_distr. simpl. rewrite rev_involutive. exact L. }
  rewrite Hm.
  rewrite (split_piece "." a) by (rewrite <- (app_nil_r a); apply octet_no_dot; tauto).
  rewrite (split_piece "." b) by (rewrite <- (app_nil_r b); apply octet_no_dot; tauto).
  rewrite (split_piece "." c) by (rewrite <- (app_nil_r c); apply octet_no_dot; tauto).
  rewrite (split_whole "." (d ++ tail)) by (apply octet_no_dot; tauto).
  rewrite <- (app_nil_r a) at 1. rewrite all_octets_step by tauto.
  rewrite <- (app_nil_r b) at 1. rewrite all_octets_step by tauto.
  rewrite <- (app_nil_r c) at 1. rewrite all_octets_step by tauto.
  rewrite all_octets_step by tauto. simpl.
  destruct (Str.digits_value a <=? 255)%Z, (Str.digits_value b <=? 255)%Z,
    (Str.digits_value c <=? 255)%Z, (Str.digits_value d <=? 255)%Z; reflexivity.
Qed.

(** The validator never raises: whenever the IPv4 pattern matches, every
    piece between the dots is text that [int] reads. *)
Lemma is_valid_ip_total (ip : string) : exists b, IPInfoTool._is_valid_ip ip = Ok b.
Proof.
  destruct (Re.match_anchored IPInfoTool.ipv4_pattern ip) eqn:Hm.
  2:{ unfold IPInfoTool._is_valid_ip. rewrite Hm.
      destruct (Re.match_anchored IPInfoTool.ipv6_pattern ip); eauto. }
  unfold Re.match_anchored in Hm. apply orb_true_iff in Hm as [Hm|Hm].
  - apply fullmatch_lang, lang_ipv4 in Hm as (a & b & c & d & E & Ha & Hb & Hc & Hd).
    rewrite lang_octet in Ha, Hb, Hc, Hd.
    rewrite <- (of_chars_chars ip), E. rewrite <- (app_nil_r d).
    eexists. apply is_valid_ip_chars; auto.
  - destruct (rev (Str.chars ip)) as [|n before] eqn:Er; [discriminate|].
    apply andb_true_iff in Hm as [Hn Hm]. apply Ascii.eqb_eq in Hn. subst n.
    apply fullmatch_lang, lang_ipv4 in Hm as (a & b & c & d & E & Ha & Hb & Hc & Hd).
    rewrite lang_octet in Ha, Hb, Hc, Hd.
    assert (Ec : Str.chars ip
                 = (a ++ "."%char :: b ++ "."%char :: c ++ "."%char :: d ++ [Re.newline])%list).
    { rewrite <- (rev_involutive (Str.chars ip)), Er. simpl. rewrite E.
      rewrite <- !app_assoc. simpl. rewrite <- !app_assoc. simpl.
      rewrite <- !app_assoc. reflexivity. }
    rewrite <- (of_chars_chars ip), Ec.
    eexists. apply is_valid_ip_chars; auto.
Qed.

Lemma length_chars (s : string) : length (Str.chars s) = String.length s.
Proof. induction s as [|c s IH]; simpl; [reflexivity|]. unfold Str.chars in *. simpl. now rewrite IH. Qed.

Lemma octet_text_chars (s : string) :
  octet_text s = true ->
  forallb Str.is_digit (Str.chars s) = true /\ (1 <= length (Str.chars s) <= 3)%nat.
Proof.
  unfold octet_text. intros H.
  apply andb_true_iff in H as [H Hd]. apply andb_true_iff in H as [H1 H3].
  apply Nat.leb_le in H1, H3. rewrite length_chars. auto.
Qed.

Lemma of_chars_app (x y : list ascii) :
  Str.of_chars (x ++ y) = Str.of_chars x +:+ Str.of_chars y.
Proof.
  induction x as [|c x IH]; [reflexivity|].
  unfold Str.of_chars in *. simpl. now rewrite IH.
Qed.

(** What the IPv4 pattern matches, with the anchors. *)
Lemma ipv4_shape (s : string) :
  Re.match_anchored IPInfoTool.ipv4_pattern s = true ->
  exists a b c d tail,
    Str.chars s = (a ++ "."%char :: b ++ "."%char :: c ++ "."%char :: d ++ tail)%list
    /\ (forallb Str.is_digit a = true /\ (1 <= length a <= 3)%nat)
    /\ (forallb Str.is_digit b = true /\ (1 <= length b <= 3)%nat)
    /\ (forallb Str.is_digit c = true /\ (1 <= length c <= 3)%nat)
    /\ (forallb Str.is_digit d = true /\ (1 <= length d <= 3)%nat)
    /\ (tail = [] \/ tail = [Re.newline]).
Proof.
  unfold Re.match_anchored. intros Hm. apply orb_true_iff in Hm as [Hm|Hm].
  - apply fullmatch_lang, lang_ipv4 in Hm as (a & b & c & d & E & Ha & Hb & Hc & Hd).
    rewrite lang_octet in Ha, Hb, Hc, Hd.
    exists a, b, c, d, []. rewrite app_nil_r. auto 10.
  - destruct (rev (Str.chars s)) as [|n before] eqn:Er; [discriminate|].
    apply andb_true_iff in Hm as [Hn Hm]. apply Ascii.eqb_eq in Hn. subst n.
    apply fullmatch_lang, lang_ipv4 in Hm as (a & b & c & d & E & Ha & Hb & Hc & Hd).
    rewrite lang_octet in Ha, Hb, Hc, Hd.
    exists a, b, c, d, [Re.newline]. split; [|auto 10].
    rewrite <- (rev_involutive (Str.chars s)), Er. simpl. rewrite E.
    rewrite <- !app_assoc. simpl. rewrite <- !app_assoc. simpl.
    rewrite <- !app_assoc. reflexivity.
Qed.

Lemma octet_of_chars (l : list ascii) :
  forallb Str.is_digit l = true /\ (1 <= length l <= 3)%nat ->
  octet_text (Str.of_chars l) = true /\ octet_value (Str.of_chars l) = Str.digits_value l.
Proof.
  intros [Hd Hl]. unfold octet_text, octet_value.
  rewrite <- length_chars, chars_of_chars, Hd.
  split; [|reflexivity].
  destruct (Nat.leb_spec 1 (length l)); [|lia].
  destruct (Nat.leb_spec (length l) 3); [reflexivity|lia].
Qed.

Lemma dotted_chars (a b c d : string) :
  Str.chars (dotted a b c d)
  = (Str.chars a ++ "."%char :: Str.chars b ++ "."%char :: Str.chars c
       ++ "."%char :: Str.chars d)%list.
Proof.
  unfold dotted. rewrite !chars_app. reflexivity.
Qed.

(** A quad in range is accepted. *)
Lemma quad_accepted (s : string) :
  quad_in_range s -> IPInfoTool._is_valid_ip s = Ok true.
Proof.
  intros (a & b & c & d & Hs & Ha & Hb & Hc & Hd & Va & Vb & Vc & Vd).
  apply octet_text_chars in Ha, Hb, Hc, Hd.
  assert (E : exists tail,
             s = Str.of_chars (Str.chars a ++ "."%char :: Str.chars b ++ "."%char
                                 :: Str.chars c ++ "."%char :: Str.chars d ++ tail)
             /\ (tail = [] \/ tail = [Re.newline])).
  { destruct Hs as [-> | ->].
    - exists []. split; [|auto].
      rewrite app_nil_r, <- dotted_chars. symmetry. apply of_chars_chars.
    - exists [Re.newline]. split; [|auto].
      rewrite <- (of_chars_chars (dotted a b c d +:+ nl)). f_equal.
      rewrite chars_app, dotted_chars. rewrite <- !app_assoc. simpl.
      rewrite <- !app_assoc. simpl. rewrite <- !app_assoc. reflexivity. }
  destruct E as (tail & -> & Ht).
  rewrite (is_valid_ip_chars _ _ _ _ tail Ha Hb Hc Hd Ht).
  unfold octet_value in Va, Vb, Vc, Vd.
  apply Z.leb_le in Va, Vb, Vc, Vd. rewrite Va, Vb, Vc, Vd. reflexivity.
Qed.

Lemma chars_inj (s t : string) : Str.chars s = Str.chars t -> s = t.
Proof. intros H. rewrite <- (of_chars_chars s), <- (of_chars_chars t), H. reflexivity. Qed.

(** What is accepted is a quad in range or a word of the colon-hex
    pattern. *)
Lemma accepted_shape (s : string) :
  IPInfoTool._is_valid_ip s = Ok true -> quad_in_range s \/ colon_hex s.
Proof.
  intros H. destruct (Re.match_anchored IPInfoTool.ipv4_pattern s) eqn:Hm.
  - left. destruct (ipv4_shape s Hm) as (a & b & c & d & tail & E & Ha & Hb & Hc & Hd & Ht).
    rewrite <- (of_chars_chars s), E in H.
    rewrite (is_valid_ip_chars a b c d tail Ha Hb Hc Hd Ht) in H.
    injection H as H.
    apply andb_true_iff in H as [H Vd]. apply andb_true_iff in H as [H Vc].
    apply andb_true_iff in H as [Va Vb]. apply Z.leb_le in Va, Vb, Vc, Vd.
    destruct (octet_of_chars a Ha) as [Ta Ea], (octet_of_chars b Hb) as [Tb Eb],
      (octet_of_chars c Hc) as [Tc Ec], (octet_of_chars d Hd) as [Td Ed].
    exists (Str.of_chars a), (Str.of_chars b), (Str.of_chars c), (Str.of_chars d).
    rewrite Ea, Eb, Ec, Ed. split; [|auto 10].
    destruct Ht as [-> | ->]; [left|right]; apply chars_inj; rewrite E.
    + rewrite dotted_chars, !chars_of_chars, app_nil_r. reflexivity.
    + rewrite chars_app, dotted_chars, !chars_of_chars.
      rewrite <- !app_assoc. simpl. rewrite <- !app_assoc. simpl.
      rewrite <- !app_assoc. reflexivity.
  - right. unfold IPInfoTool._is_valid_ip in H. rewrite Hm in H.
    unfold colon_hex. destruct (Re.match_anchored IPInfoTool.ipv6_pattern s);
      [reflexivity|discriminate H].
Qed.

(** A word of the colon-hex pattern has a colon in it; a word of the IPv4
    pattern has none. *)
Lemma colon_hex_colon (s : string) :
  Re.match_anchored IPInfoTool.ipv6_pattern s = true -> In ":"%char (Str.chars s).
Proof.
  assert (L : forall l, Re.lang IPInfoTool.ipv6_pattern l -> In ":"%char l).
  { intros l H. unfold IPInfoTool.ipv6_pattern in H. simpl Re.times in H.
    apply lang_seq_inv in H as (t & d & -> & H & _).
    apply lang_seq_inv in H as (g & t1 & -> & Hg & _).
    apply lang_seq_inv in Hg as (h & colon & -> & _ & Hc).
    apply lang_char_inv in Hc. subst colon.
    apply in_or_app. left. apply in_or_app. left. apply in_or_app. right. left. reflexivity. }
  unfold Re.match_anchored. intros Hm. apply orb_true_iff in Hm as [Hm|Hm].
  - apply L, fullmatch_lang, Hm.
  - destruct (rev (Str.chars s)) as [|n before] eqn:Er; [discriminate|].
    apply andb_true_iff in Hm as [_ Hm]. apply fullmatch_lang, L in Hm.
    rewrite <- (rev_involutive (Str.chars s)), Er. simpl.
    apply in_or_app. left. exact Hm.
Qed.

Lemma digits_no_colon (l : list ascii) :
  forallb Str.is_digit l = true -> ~ In ":"%char l.
Proof.
  intros Hd Hin. rewrite forallb_forall in Hd. apply Hd in Hin. discriminate Hin.
Qed.

Lemma quad_no_colon (s : string) :
  Re.match_anchored IPInfoTool.ipv4_pattern s = true -> ~ In ":"%char (Str.chars s).
Proof.
  intros Hm Hin.
  destruct (ipv4_shape s Hm) as (a & b & c & d & tail & E & [Ha _] & [Hb _] & [Hc _]
                                   & [Hd _] & Ht).
  rewrite E in Hin.
  repeat match goal with
         | H : In _ (_ ++ _) |- _ => apply in_app_or in H as [H|H]
         | H : In _ (_ :: _) |- _ => destruct H as [H|H]; [discriminate H|]
         end;
    try match goal with
        | Hi : In _ ?l, Hl : forallb Str.is_digit ?l = true |- _ =>
            exact (digits_no_colon l Hl Hi)
        end.
  destruct Ht as [-> | ->]; simpl in Hin;
    [exact Hin|destruct Hin as [Hin|Hin]; [discriminate Hin|exact Hin]].
Qed.

Lemma colon_hex_accepted (s : string) :
  colon_hex s -> IPInfoTool._is_valid_ip s = Ok true.
Proof.
  unfold colon_hex. intros H. unfold IPInfoTool._is_valid_ip.
  destruct (Re.match_anchored IPInfoTool.ipv4_pattern s) eqn:Hm.
  - exfalso. apply (quad_no_colon s Hm), colon_hex_colon, H.
  - rewrite H. reflexivity.
Qed.

(** The validator returns true exactly on the quads in range and on the
    words of the colon-hex pattern, and false on every other text. *)
Lemma is_valid_ip_iff (s : string) :
  exists valid, IPInfoTool._is_valid_ip s = Ok valid
                /\ (valid = true <-> quad_in_range s \/ colon_hex s).
Proof.
  destruct (is_valid_ip_total s) as [valid Hv]. exists valid. split; [exact Hv|]. split.
  - intros ->. apply accepted_shape, Hv.
  - intros [H|H]; [apply quad_accepted in H|apply colon_hex_accepted in H]; congruence.
Qed.

(** ** Dotted texts with another number of groups *)

Lemma octet_no_dots (g : string) :
  octet_text g = true ->
  forallb (fun c => negb (Str.is_char "." c)) (Str.chars g) = true.
Proof.
  intros H. apply octet_text_chars in H as [Hd _].
  rewrite <- (app_nil_r (Str.chars g)). apply octet_no_dot; auto.
Qed.

Lemma split_join (groups : list string) :
  groups <> [] -> Forall (fun g => octet_text g = true) groups ->
  Str.split "." (join "." groups) = groups.
Proof.
  intros Hne Hall. induction Hall as [|g rest Hg Hrest IH]; [congruence|].
  destruct rest as [|g' rest].
  - simpl. rewrite <- (of_chars_chars g) at 1.
    rewrite (split_whole "." (Str.chars g) (octet_no_dots g Hg)), of_chars_chars.
    reflexivity.
  - change (join "." (g :: g' :: rest)) with (g +:+ "." +:+ join "." (g' :: rest)).
    rewrite <- (of_chars_chars (g +:+ "." +:+ join "." (g' :: rest))).
    rewrite !chars_app. change (Str.chars ".") with ["."%char]. cbn [app].
    rewrite (split_piece "." (Str.chars g) _ (octet_no_dots g Hg)).
    rewrite !of_chars_chars, IH by discriminate. reflexivity.
Qed.

Lemma join_chars_plain (groups : list string) :
  Forall (fun g => octet_text g = true) groups ->
  forallb (fun c => Str.is_digit c || Str.is_char "." c) (Str.chars (join "." groups)) = true.
Proof.
  intros Hall. induction Hall as [|g rest Hg Hrest IH]; [reflexivity|].
  assert (Hd : forallb (fun c => Str.is_digit c || Str.is_char "." c) (Str.chars g) = true).
  { apply octet_text_chars in Hg as [Hd _]. rewrite forallb_forall in *.
    intros c Hc. rewrite (Hd c Hc). reflexivity. }
  destruct rest as [|g' rest]; [exact Hd|].
  change (join "." (g :: g' :: rest)) with (g +:+ "." +:+ join "." (g' :: rest)).
  rewrite !chars_app, !forallb_app, Hd, IH. reflexivity.
Qed.

Lemma other_group_counts_rejected (groups : list string) :
  Forall (fun g => octet_text g = true) groups ->
  length groups <> 4%nat ->
  IPInfoTool._is_valid_ip (join "." groups) = Ok false.
Proof.
  intros Hall Hlen.
  destruct groups as [|g0 rest0] eqn:Eg; [reflexivity|]. rewrite <- Eg in *.
  assert (Hne : groups <> []) by (rewrite Eg; discriminate).
  clear Eg g0 rest0.
  unfold IPInfoTool._is_valid_ip.
  destruct (Re.match_anchored IPInfoTool.ipv4_pattern (join "." groups)) eqn:Hm.
  - exfalso.
    destruct (ipv4_shape _ Hm) as (a & b & c & d & tail & E & Ha & Hb & Hc & Hd & Ht).
    pose proof (split_join groups Hne Hall) as Hs.
    rewrite <- (of_chars_chars (join "." groups)), E in Hs.
    rewrite (split_piece "." a) in Hs
      by (rewrite <- (app_nil_r a); apply octet_no_dot; tauto).
    rewrite (split_piece "." b) in Hs
      by (rewrite <- (app_nil_r b); apply octet_no_dot; tauto).
    rewrite (split_piece "." c) in Hs
      by (rewrite <- (app_nil_r c); apply octet_no_dot; tauto).
    rewrite (split_whole "." (d ++ tail)) in Hs by (apply octet_no_dot; tauto).
    apply Hlen. rewrite <- Hs. reflexivity.
  - destruct (Re.match_anchored IPInfoTool.ipv6_pattern (join "." groups)) eqn:H6;
      [|reflexivity].
    exfalso. apply colon_hex_colon in H6.
    pose proof (join_chars_plain groups Hall) as Hp. rewrite forallb_forall in Hp.
    apply Hp in H6. discriminate H6.
Qed.

(** C9: the IP-format validator accepts 8.8.8.8 and rejects 256.1.1.1 and
    1.2.3.  On every ASCII text it returns, and it returns true exactly when
    the text is a dotted quad in range, four groups of one to three decimal
    digits that are each at most 255, with dots between them (followed at
    most by the one newline that the dollar anchor lets through), or a word
    of the colon-hex pattern.  On four digit groups joined by dots it answers
    whether each of the four numbers is at most 255; digit groups joined by
    dots in any other number than four are rejected. *)
Theorem is_valid_ip_dotted_quad (ip : string) :
  Str.isascii ip = true ->
  (exists valid, IPInfoTool._is_valid_ip ip = Ok valid
                 /\ (valid = true <-> quad_in_range ip \/ colon_hex ip))
  /\ (forall a b c d,
        octet_text a = true -> octet_text b = true ->
        octet_text c = true -> octet_text d = true ->
        IPInfoTool._is_valid_ip (dotted a b c d)
        = Ok ((octet_value a <=? 255)%Z && (octet_value b <=? 255)%Z
              && (octet_value c <=? 255)%Z && (octet_value d <=? 255)%Z))
  /\ (forall groups,
        Forall (fun g => octet_text g = true) groups -> length groups <> 4%nat ->
        IPInfoTool._is_valid_ip (join "." groups) = Ok false)
  /\ IPInfoTool._is_valid_ip "8.8.8.8" = Ok true
  /\ IPInfoTool._is_valid_ip "256.1.1.1" = Ok false
  /\ IPInfoTool._is_valid_ip "1.2.3" = Ok false.
Proof.
  intros _. split; [apply is_valid_ip_iff|]. split.
  { intros a b c d Ha Hb Hc Hd.
    apply octet_text_chars in Ha, Hb, Hc, Hd.
    unfold octet_value. rewrite <- (of_chars_chars (dotted a b c d)), dotted_chars.
    rewrite <- (app_nil_r (Str.chars d)) at 1.
    apply is_valid_ip_chars; auto. }
  split; [apply other_group_counts_rejected|].
  repeat split; vm_compute; reflexivity.
Qed.

(** A private address with octets of one, two and three digits, and five
    groups. *)
Lemma is_valid_ip_dotted_quad_witness :
  (exists valid, IPInfoTool._is_valid_ip "192.168.1.10" = Ok valid
                 /\ (valid = true
                     <-> quad_in_range "192.168.1.10" \/ colon_hex "192.168.1.10"))
  /\ IPInfoTool._is_valid_ip (dotted "192" "168" "1" "10") = Ok true
  /\ IPInfoTool._is_valid_ip (join "." ["1"; "2"; "3"; "4"; "5"]) = Ok false.
Proof.
  destruct (is_valid_ip_dotted_quad "192.168.1.10" eq_refl) as (H1 & H2 & H3 & _).
  split; [exact H1|]. split.
  - apply (H2 "192" "168" "1" "10"); reflexivity.
  - apply H3; [repeat constructor|discriminate].
Defined.

(** ** Validation comes first *)

Ltac raised_validation :=
  intros H;
  repeat match type of H with
         | context [match ?x with _ => _ end] => destruct x; simpl in H
         | context [if ?x then _ else _] => destruct x; simpl in H
         end;
  try discriminate H; inversion H; reflexivity.

Lemma weather_validate_class (kw : kwargs) (e : exn) :
  WeatherTool.validate_input kw = Raise e -> exn_cls e = Mcp McpExn.ValidationError.
Proof. unfold WeatherTool.validate_input. raised_validation. Qed.

Lemma dictionary_validate_class (kw : kwargs) (e : exn) :
  DictionaryTool.validate_input kw = Raise e -> exn_cls e = Mcp McpExn.ValidationError.
Proof. unfold DictionaryTool.validate_input. raised_validation. Qed.

Lemma check_code_class (param : string) (v : pyval) (e : exn) :
  ExchangeRateTool.check_code param v = Raise e -> exn_cls e = Mcp McpExn.ValidationError.
Proof. unfold ExchangeRateTool.check_code. raised_validation. Qed.

Lemma exchange_validate_class (kw : kwargs) (e : exn) :
  ExchangeRateTool.validate_input kw = Raise e -> exn_cls e = Mcp McpExn.ValidationError.
Proof.
  unfold ExchangeRateTool.validate_input, mbind, result_bind.
  destruct (Py.truthy (default PNone (Py.lookup "base_currency" kw))); simpl.
  2:{ intros H; inversion H; reflexivity. }
  destruct (ExchangeRateTool.check_code "base_currency" _) eqn:E1.
  2:{ intros H; inversion H; subst. eapply check_code_class; eauto. }
  destruct (default PNone (Py.lookup "target_currency" kw)) eqn:Et;
    try (destruct (ExchangeRateTool.check_code "target_currency" _) eqn:E2;
         [|intros H; inversion H; subst; eapply check_code_class; eauto]);
    destruct (default PNone (Py.lookup "amount" kw)); simpl;
    raised_validation.
Qed.

Lemma ip_validate_class (kw : kwargs) (e : exn) :
  IPInfoTool.validate_input kw = Raise e -> exn_cls e = Mcp McpExn.ValidationError.
Proof.
  unfold IPInfoTool.validate_input.
  destruct (Py.lookup "ip_address" kw) as [[| | | |s| |]|];
    try (intros H; discriminate H); try (intros H; inversion H; reflexivity).
  destruct (String.eqb s ""); [intros H; discriminate H|].
  destruct (is_valid_ip_total (Str.strip s)) as [b ->]. simpl.
  destruct b; simpl; intros H; [discriminate H|inversion H; reflexivity].
Qed.

(** Whatever a tool's [validate_input] raises is a [ValidationError]. *)
Lemma validate_class (str_of : pyval -> string) (tool : BaseTool) (kw : kwargs) (e : exn) :
  In tool (api_tools str_of) ->
  validate_input tool kw = Raise e -> exn_cls e = Mcp McpExn.ValidationError.
Proof.
  intros [<-|[<-|[<-|[<-|[]]]]]; simpl.
  - apply weather_validate_class.
  - apply ip_validate_class.
  - apply dictionary_validate_class.
  - apply exchange_validate_class.
Qed.

(** The entry that logging adds is one no tool looks at. *)
Lemma lookup_store_other (k k' : string) (v : pyval) (d : list (string * pyval)) :
  k <> k' -> Py.lookup k (Py.store k' v d) = Py.lookup k d.
Proof.
  intros Hne. induction d as [|[k0 v0] d IH]; simpl.
  - destruct (String.eqb_spec k k'); [contradiction|reflexivity].
  - destruct (String.eqb_spec k' k0) as [->|Hk]; simpl.
    + destruct (String.eqb_spec k k0); [contradiction|reflexivity].
    + destruct (String.eqb k k0); [reflexivity|exact IH].
Qed.

Lemma validate_ignores_logging (str_of : pyval -> string) (tool : BaseTool)
    (b : bool) (kw : kwargs) :
  In tool (api_tools str_of) ->
  validate_input tool (logged_kwargs b tool kw) = validate_input tool kw.
Proof.
  unfold logged_kwargs. destruct b; [|reflexivity].
  intros [<-|[<-|[<-|[<-|[]]]]]; simpl.
  - unfold WeatherTool.validate_input. rewrite lookup_store_other by discriminate.
    reflexivity.
  - unfold IPInfoTool.validate_input. rewrite lookup_store_other by discriminate.
    reflexivity.
  - unfold DictionaryTool.validate_input. rewrite lookup_store_other by discriminate.
    reflexivity.
  - unfold ExchangeRateTool.validate_input.
    rewrite !lookup_store_other by discriminate. reflexivity.
Qed.

(** When validation passes, the call is the execution. *)
Lemma call_after_validation (str_of : pyval -> string) (b : bool) (tool : BaseTool)
    (kw : kwargs) (w : net) :
  In tool (api_tools str_of) ->
  validate_input tool kw = Ok tt ->
  __call__ b tool kw w = execute tool (logged_kwargs b tool kw) w.
Proof.
  intros Hin H. unfold __call__. cbv zeta. rewrite catch_reraise.
  unfold mbind, M_bind, lift. rewrite (validate_ignores_logging str_of tool b kw Hin), H.
  destruct (execute tool (logged_kwargs b tool kw) w) as [[v|e] w']; reflexivity.
Qed.

(** Some of the stated constraints, as [validate_input] enforces them. *)
Lemma exchange_rejects_other_lengths (kw : kwargs) (s : string) :
  Py.lookup "base_currency" kw = Some (PStr s) ->
  String.length s <> 3%nat ->
  exists e, ExchangeRateTool.validate_input kw = Raise e.
Proof.
  intros Hl Hn. unfold ExchangeRateTool.validate_input. rewrite Hl. simpl.
  destruct (String.eqb s "") eqn:E; simpl; [eexists; reflexivity|].
  destruct (String.length s =? 3)%nat eqn:E3.
  - apply Nat.eqb_eq in E3. contradiction.
  - simpl. eexists; reflexivity.
Qed.

Lemma dictionary_rejects_blank (kw : kwargs) (s : string) :
  Py.lookup "word" kw = Some (PStr s) ->
  Str.strip s = "" ->
  exists e, DictionaryTool.validate_input kw = Raise e.
Proof.
  intros Hl Hs. unfold DictionaryTool.validate_input. rewrite Hl. simpl.
  destruct (String.eqb s ""); simpl; [eexists; reflexivity|].
  rewrite Hs. simpl. eexists; reflexivity.
Qed.

(** ** The exchange rate tool *)

(** A 2xx response with a JSON body is returned as its parsed body, after
    one request. *)
Lemma fetch_ok (tr : nat -> string -> list (string * pyval) -> outcome)
    (url : string) (params : list (string * pyval)) (r : response) (data : pyval)
    (n : nat) (waited : list Z) :
  tr n url params = Responded r ->
  200 <= status_code r <= 299 ->
  json r = inl data ->
  HTTPClient.fetch url params (Net tr n waited) = (Ok data, Net tr (S n) waited).
Proof.
  intros Htr [Hlo Hhi] Hj. unfold HTTPClient.fetch. rewrite get_is_get_once.
  unfold HTTPClient.get_once.
  change (HTTPClient.entered (HTTPClient.aenter HTTPClient.init)) with true.
  cbv beta iota delta [negb catch mbind M_bind HTTPClient.client_get transport calls sleeps].
  rewrite Htr. unfold lift, HTTPClient.raise_for_status, HTTPClient.response_json.
  apply Z.leb_le in Hlo, Hhi. rewrite Hlo, Hhi, Hj. reflexivity.
Qed.




(** ** The weather tool *)

(** A key the upstream entry lacks gives the default. *)
Lemma first_value_absent (d : list (string * pyval)) (k : string) (otherwise : pyval) :
  Py.lookup k d = None -> WeatherTool.first_value (PDict d) k otherwise = Ok otherwise.
Proof. intros H. unfold WeatherTool.first_value. simpl. rewrite H. reflexivity. Qed.

Tactic Notation "step_bind" hyp(H) ident(x) ident(E) :=
  match type of H with
  | (?m ≫= _) = Ok _ =>
      destruct m as [x|] eqn:E; [cbn [mbind result_bind] in H | discriminate H]
  end.

(** A successful normalization is the complete shape. *)
Lemma normalize_complete (location : string) (data r : pyval) :
  WeatherTool.normalize location data = Ok r ->
  exists current area name country region condition,
    first_entry data "current_condition" = Ok (PDict current)
    /\ first_entry data "nearest_area" = Ok (PDict area)
    /\ WeatherTool.first_value (PDict area) "areaName" (PStr location) = Ok name
    /\ WeatherTool.first_value (PDict area) "country" (PStr "") = Ok country
    /\ WeatherTool.first_value (PDict area) "region" (PStr "") = Ok region
    /\ WeatherTool.first_value (PDict current) "weatherDesc" (PStr "") = Ok condition
    /\ r = weather_result current name country region condition.
Proof.
  intros H. unfold WeatherTool.normalize in H. unfold first_entry.
  step_bind H cc Ecc. step_bind H current Ecur. step_bind H na Ena.
  step_bind H location_info Eloc.
  step_bind H name Ename. step_bind H country Ecountry. step_bind H region Eregion.
  destruct current as [| | | | | |c]; try discriminate H.
  destruct location_info as [| | | | | |a]; try discriminate Ename.
  cbn [Py.get mbind result_bind] in H.
  step_bind H condition Econd. cbn [Py.get mbind result_bind] in H.
  inversion H; subst. cbn [mbind result_bind].
  exists c, a, name, country, region, condition. repeat split; assumption.
Qed.

(** With nothing in the upstream document, the name of the location is not
    the empty string: it is the location that was asked for. *)
Lemma weather_absent_name_is_the_location :
  ~ (forall r loc name,
       fst (WeatherTool.execute "London" (PStr "j1")
              (fresh (always (Responded (ok_response (PDict [])))))) = Ok r ->
       Py.get r "location" PNone = Ok loc ->
       Py.get loc "name" PNone = Ok name ->
       name = PStr "").
Proof.
  intros H.
  specialize (H (weather_result [] (PStr "London") (PStr "") (PStr "") (PStr ""))
                (PDict [("name", PStr "London"); ("country", PStr ""); ("region", PStr "")])
                (PStr "London")).
  assert (E : PStr "London" = PStr "").
  { apply H; vm_compute; reflexivity. }
  discriminate E.
Qed.

(** C7, amended: a weather lookup either succeeds with the complete result,
    every named field present, or raises one [ToolExecutionError]; there is
    no shape in between.  In a success, a field that the upstream entry lacks
    is the empty string, except the name of the location, which is then the
    location that was asked for. *)
Theorem weather_succeeds_completely_or_raises
    (location : string) (format : pyval) (w : net) :
  match fst (WeatherTool.execute location format w) with
  | Ok r =>
      exists data current area name country region condition,
        fst (HTTPClient.fetch (_build_url WeatherTool.base_url location)
               [("format", format)] w) = Ok data
        /\ first_entry data "current_condition" = Ok (PDict current)
        /\ first_entry data "nearest_area" = Ok (PDict area)
        /\ r = weather_result current name country region condition
        /\ WeatherTool.first_value (PDict area) "areaName" (PStr location) = Ok name
        /\ WeatherTool.first_value (PDict area) "country" (PStr "") = Ok country
        /\ WeatherTool.first_value (PDict area) "region" (PStr "") = Ok region
        /\ WeatherTool.first_value (PDict current) "weatherDesc" (PStr "") = Ok condition
        /\ (Py.lookup "areaName" area = None -> name = PStr location)
        /\ (Py.lookup "country" area = None -> country = PStr "")
        /\ (Py.lookup "region" area = None -> region = PStr "")
        /\ (Py.lookup "weatherDesc" current = None -> condition = PStr "")
  | Raise e =>
      exn_cls e = Mcp McpExn.ToolExecutionError /\ exists cause, exn_cause e = Some cause
  end.
Proof.
  unfold WeatherTool.execute, catch, mbind, M_bind.
  destruct (HTTPClient.fetch _ _ w) as [[data|e] w'] eqn:Ef; simpl.
  2:{ split; [reflexivity|eauto]. }
  unfold lift. destruct (WeatherTool.normalize location data) as [r|e] eqn:En; simpl.
  2:{ split; [reflexivity|eauto]. }
  apply normalize_complete in En
    as (current & area & name & country & region & condition
        & Hc & Ha & Hn & Hco & Hr & Hcond & ->).
  exists data, current, area, name, country, region, condition.
  repeat split; try assumption.
  - intros Hl. rewrite (first_value_absent _ _ _ Hl) in Hn. congruence.
  - intros Hl. rewrite (first_value_absent _ _ _ Hl) in Hco. congruence.
  - intros Hl. rewrite (first_value_absent _ _ _ Hl) in Hr. congruence.
  - intros Hl. rewrite (first_value_absent _ _ _ Hl) in Hcond. congruence.
Qed.

(** ** The fixture cache *)

(** What [load_yaml] does to the cache: nothing, or one write of the
    normalized document under the path that was asked for; and a load that
    may use the cache writes only where nothing was cached. *)
Lemma load_yaml_cache (d : disk) (filepath : string) (use_cache : bool)
    (self : DataLoader.t) :
  let self' := snd (DataLoader.load_yaml d filepath use_cache self) in
  DataLoader.base_path self' = DataLoader.base_path self
  /\ (DataLoader._cache self' = DataLoader._cache self
      \/ exists data,
           d (DataLoader.full_path self filepath) = Loads data
           /\ DataLoader._cache self'
              = <[filepath := Py.or_else data (PDict [])]> (DataLoader._cache self)
           /\ (use_cache = false \/ DataLoader._cache self !! filepath = None)).
Proof.
  unfold DataLoader.load_yaml.
  destruct (if use_cache then DataLoader._cache self !! filepath else None) eqn:Ec.
  { simpl. auto. }
  unfold catch, DataLoader.read_and_cache.
  destruct (d (DataLoader.full_path self filepath)) as [|e|data] eqn:Ed.
  - simpl. auto.
  - destruct (isinstance e (Builtin YAMLError)); [simpl; auto|].
    destruct (isinstance e (Builtin OSError)); simpl; auto.
  - simpl. split; [reflexivity|]. right. exists data. repeat split.
    destruct use_cache; auto.
Qed.

(** One call other than [clear_cache] keeps every cached key, and keeps its
    value unless the call is an uncached load of that very key. *)
Lemma step_keeps (o : DataLoader.op) (self : DataLoader.t) (k : string) (v : pyval) :
  DataLoader._cache self !! k = Some v ->
  o <> DataLoader.ClearCache ->
  is_Some (DataLoader._cache (DataLoader.step o self) !! k)
  /\ ((forall d, o <> DataLoader.LoadYaml d k false) ->
      DataLoader._cache (DataLoader.step o self) !! k = Some v).
Proof.
  intros Hk Hno. destruct o as [d filepath use_cache| |]; simpl.
  - destruct (load_yaml_cache d filepath use_cache self) as [_ [-> | (data & _ & -> & Hu)]].
    + split; [eauto|auto].
    + destruct (decide (filepath = k)) as [->|Hne].
      * rewrite lookup_insert_eq. split; [eauto|]. intros Hd.
        destruct Hu as [-> | Hn]; [exfalso; eapply Hd; reflexivity|congruence].
      * rewrite lookup_insert_ne by exact Hne. split; [eauto|auto].
  - congruence.
  - split; [eauto|auto].
Qed.

(** C8, amended: between two calls of [clear_cache] no call removes a
    cache entry, and the value of a cached key is never replaced except by a
    [load_yaml] of that key with [use_cache=False], which stores what it has
    just read; [clear_cache] empties the cache. *)
Theorem cache_grows_until_cleared (ops : list DataLoader.op) (self : DataLoader.t)
    (k : string) (v : pyval) :
  DataLoader._cache self !! k = Some v ->
  Forall (fun o => o <> DataLoader.ClearCache) ops ->
  is_Some (DataLoader._cache (DataLoader.run ops self) !! k)
  /\ (Forall (fun o => forall d, o <> DataLoader.LoadYaml d k false) ops ->
      DataLoader._cache (DataLoader.run ops self) !! k = Some v)
  /\ DataLoader._cache (DataLoader.run (ops ++ [DataLoader.ClearCache]) self) = ∅.
Proof.
  intros Hk Hno. split; [|split].
  - revert self v Hk. induction Hno as [|o ops Ho Hno IH]; intros self v Hk; simpl.
    + eauto.
    + destruct (step_keeps o self k v Hk Ho) as [[v' Hv'] _]. eapply IH; eauto.
  - intros Hun. revert self Hk. induction Hno as [|o ops Ho Hno IH]; intros self Hk; simpl.
    + exact Hk.
    + inversion Hun; subst. apply IH; [assumption|].
      apply (step_keeps o self k v Hk Ho). assumption.
  - unfold DataLoader.run. rewrite fold_left_app. reflexivity.
Qed.

(** A cached file survives a failing load, a hit and a look at the
    statistics, with its value. *)
Lemma cache_grows_until_cleared_witness :
  let d := one_file "data/a.yaml" (PDict [("v", PInt 1)]) in
  let self := DataLoader.run [DataLoader.LoadYaml d "a.yaml" true] (DataLoader.init "data") in
  let ops := [DataLoader.LoadYaml no_files "b.yaml" true;
              DataLoader.LoadYaml no_files "a.yaml" true;
              DataLoader.GetCacheStats] in
  is_Some (DataLoader._cache (DataLoader.run ops self) !! "a.yaml")
  /\ (Forall (fun o => forall d, o <> DataLoader.LoadYaml d "a.yaml" false) ops ->
      DataLoader._cache (DataLoader.run ops self) !! "a.yaml" = Some (PDict [("v", PInt 1)]))
  /\ DataLoader._cache (DataLoader.run (ops ++ [DataLoader.ClearCache]) self) = ∅.
Proof.
  intros d self ops.
  apply (cache_grows_until_cleared ops self "a.yaml" (PDict [("v", PInt 1)])).
  - vm_compute. reflexivity.
  - repeat constructor; discriminate.
Defined.

(** A file that changes on disk between a cached load and an uncached one:
    the second load replaces the cached value by a different one. *)
Lemma uncached_load_replaces_cached_value :
  ~ (forall (ops : list DataLoader.op) (o : DataLoader.op) (k : string) (v : pyval),
       o <> DataLoader.ClearCache ->
       DataLoader._cache (DataLoader.run ops (DataLoader.init "data")) !! k = Some v ->
       DataLoader._cache (DataLoader.step o (DataLoader.run ops (DataLoader.init "data"))) !! k
       = Some v).
Proof.
  intros H.
  specialize (H [DataLoader.LoadYaml (one_file "data/a.yaml" (PDict [("v", PInt 1)]))
                   "a.yaml" true]
                (DataLoader.LoadYaml (one_file "data/a.yaml" (PDict [("v", PInt 2)]))
                   "a.yaml" false)
                "a.yaml" (PDict [("v", PInt 1)])).
  assert (E : Some (PDict [("v", PInt 2)]) = Some (PDict [("v", PInt 1)])).
  { rewrite <- H.
    - vm_compute. reflexivity.
    - discriminate.
    - vm_compute. reflexivity. }
  discriminate E.
Qed.

(** ** What [load_yaml] returns *)

Lemma or_else_settled (data : pyval) : settled (Py.or_else data (PDict [])).
Proof. unfold settled, Py.or_else. destruct (Py.truthy data) eqn:E; auto. Qed.

Lemma settled_not_none (v : pyval) : settled v -> v <> PNone.
Proof. intros [H|H] ->; discriminate H. Qed.

Lemma init_settled (base : string) : cache_settled (DataLoader.init base).
Proof. intros k v H. simpl in H. rewrite lookup_empty in H. discriminate H. Qed.

Lemma step_settled (o : DataLoader.op) (self : DataLoader.t) :
  cache_settled self -> cache_settled (DataLoader.step o self).
Proof.
  intros Hs. destruct o as [d filepath use_cache| |]; simpl.
  - destruct (load_yaml_cache d filepath use_cache self) as [_ [E | (data & _ & E & _)]];
      intros k v; rewrite E.
    + apply Hs.
    + destruct (decide (filepath = k)) as [->|Hne].
      * rewrite lookup_insert_eq. intros [= <-]. apply or_else_settled.
      * rewrite lookup_insert_ne by exact Hne. apply Hs.
  - intros k v H. simpl in H. rewrite lookup_empty in H. discriminate H.
  - exact Hs.
Qed.

Lemma run_settled (ops : list DataLoader.op) (self : DataLoader.t) :
  cache_settled self -> cache_settled (DataLoader.run ops self).
Proof.
  revert self. induction ops as [|o ops IH]; intros self Hs; simpl; [exact Hs|].
  apply IH, step_settled, Hs.
Qed.

(** A successful load returns what is then cached under the path: the
    cached value if the cache was used, the normalized document otherwise. *)
Lemma load_yaml_ok (d : disk) (filepath : string) (use_cache : bool)
    (self self' : DataLoader.t) (v : pyval) :
  DataLoader.load_yaml d filepath use_cache self = (Ok v, self') ->
  DataLoader._cache self' !! filepath = Some v
  /\ ((use_cache = true /\ DataLoader._cache self !! filepath = Some v /\ self' = self)
      \/ ((use_cache = false \/ DataLoader._cache self !! filepath = None)
          /\ exists data, d (DataLoader.full_path self filepath) = Loads data
                          /\ v = Py.or_else data (PDict []))).
Proof.
  unfold DataLoader.load_yaml.
  destruct (if use_cache then DataLoader._cache self !! filepath else None) as [c|] eqn:Ec.
  { intros [= <- <-]. destruct use_cache; [|discriminate Ec]. auto. }
  unfold catch, DataLoader.read_and_cache.
  destruct (d (DataLoader.full_path self filepath)) as [|e|data] eqn:Ed.
  - simpl. intros H; discriminate H.
  - destruct (isinstance e (Builtin YAMLError)); [intros H; discriminate H|].
    destruct (isinstance e (Builtin OSError)); intros H; discriminate H.
  - intros [= <- <-]. simpl. rewrite lookup_insert_eq. split; [reflexivity|].
    right. split; [destruct use_cache; auto|]. eauto.
Qed.

(** C10: what [load_yaml] returns, against its docstring (parsed YAML data
    as dictionary).  On a loader that has only ever been used through its
    own operations, a load that reads a document from disk returns
    [data or {}] and caches it under the path, so every later cached load of
    the path returns it again, whatever the disk then holds.  The result is
    never [None]: an empty document comes back as the empty mapping, and so
    does every other false document (an empty list, zero, false, an empty
    text).  A true document comes back as it was parsed, so a document that
    is not a mapping, a list or a scalar, is returned as what it is and not
    as a mapping.  No successful load on such a loader, from the cache or
    from disk, returns [None]. *)
Theorem load_yaml_returns_the_document_or_the_empty_mapping
    (ops : list DataLoader.op) (base : string) (d : disk) (filepath : string)
    (use_cache : bool) (data : pyval) :
  let self := DataLoader.run ops (DataLoader.init base) in
  use_cache = false \/ DataLoader._cache self !! filepath = None ->
  d (DataLoader.full_path self filepath) = Loads data ->
  let v := if Py.truthy data then data else PDict [] in
  let self' := DataLoader.Loader (DataLoader.base_path self)
                 (<[filepath := v]> (DataLoader._cache self)) in
  DataLoader.load_yaml d filepath use_cache self = (Ok v, self')
  /\ (forall d', DataLoader.load_yaml d' filepath true self' = (Ok v, self'))
  /\ v <> PNone
  /\ (data = PNone -> v = PDict [])
  /\ (Py.truthy data = false -> v = PDict [])
  /\ (Py.truthy data = true -> v = data)
  /\ (Py.truthy data = true -> (forall m, data <> PDict m) -> forall m, v <> PDict m)
  /\ (forall d2 filepath2 use_cache2 v2 self2,
        DataLoader.load_yaml d2 filepath2 use_cache2 self = (Ok v2, self2) ->
        v2 <> PNone).
Proof.
  intros self Hfresh Hd v self'.
  assert (Hs : cache_settled self) by apply run_settled, init_settled.
  assert (Hl : DataLoader.load_yaml d filepath use_cache self = (Ok v, self')).
  { unfold DataLoader.load_yaml.
    assert (E : (if use_cache then DataLoader._cache self !! filepath else None) = None).
    { destruct Hfresh as [-> | Hn]; [reflexivity|]. destruct use_cache; auto. }
    rewrite E. unfold catch, DataLoader.read_and_cache. rewrite Hd. reflexivity. }
  split; [exact Hl|]. split.
  { intros d'. unfold DataLoader.load_yaml. subst self'. cbn [DataLoader._cache].
    rewrite lookup_insert_eq. reflexivity. }
  split.
  { apply settled_not_none. apply (or_else_settled data). }
  split.
  { intros ->. reflexivity. }
  split.
  { intros Ht. subst v. rewrite Ht. reflexivity. }
  split.
  { intros Ht. subst v. rewrite Ht. reflexivity. }
  split.
  { intros Ht Hm m. subst v. rewrite Ht. apply Hm. }
  intros d2 filepath2 use_cache2 v2 self2 H2.
  destruct (load_yaml_ok _ _ _ _ _ _ H2) as [_ [(_ & Hk & _) | (_ & data2 & _ & ->)]].
  - apply settled_not_none. eapply Hs; eauto.
  - apply settled_not_none, or_else_settled.
Qed.

(** A fixture whose top level is a list of one number: it is returned and
    cached as that list. *)
Lemma load_yaml_returns_the_document_or_the_empty_mapping_witness :
  let d := one_file "data/a.yaml" (PList [PInt 1]) in
  let self' := DataLoader.Loader "data" (<["a.yaml" := PList [PInt 1]]> ∅) in
  DataLoader.load_yaml d "a.yaml" true (DataLoader.init "data")
  = (Ok (PList [PInt 1]), self')
  /\ (forall d', DataLoader.load_yaml d' "a.yaml" true self' = (Ok (PList [PInt 1]), self'))
  /\ (forall m, PList [PInt 1] <> PDict m).
Proof.
  intros d self'.
  assert (Hfresh : true = false
                   \/ DataLoader._cache (DataLoader.run [] (DataLoader.init "data"))
                        !! "a.yaml" = None) by (right; reflexivity).
  assert (Hd : d (DataLoader.full_path (DataLoader.run [] (DataLoader.init "data")) "a.yaml")
               = Loads (PList [PInt 1])) by reflexivity.
  destruct (load_yaml_returns_the_document_or_the_empty_mapping [] "data" d "a.yaml" true
              (PList [PInt 1]) Hfresh Hd) as (H1 & H2 & _ & _ & _ & _ & H3 & _).
  split; [exact H1|]. split; [exact H2|].
  apply H3; [reflexivity|]. intros m H. discriminate H.
Defined.

(** A document whose top level is a list is returned as that list. *)
Lemma load_yaml_of_a_list_is_not_a_mapping :
  ~ (forall (d : disk) (filepath : string) (use_cache : bool) (self : DataLoader.t)
            (v : pyval),
       fst (DataLoader.load_yaml d filepath use_cache self) = Ok v ->
       exists m, v = PDict m).
Proof.
  intros H.
  destruct (H (one_file "data/a.yaml" (PList [PInt 1])) "a.yaml" true
              (DataLoader.init "data") (PList [PInt 1])) as [m Hm].
  - reflexivity.
  - discriminate Hm.
Qed.

(** ** Validation inside the monitoring tools *)

Lemma time_range_is_validation (m : string) :
  isinstance (time_range_error m) (Mon MonExn.ValidationError) = true
  /\ isinstance (time_range_error m) (Mon MonExn.TimeRangeError) = true.
Proof. split; reflexivity. Qed.

Lemma filter_is_validation (m : string) :
  isinstance (filter_error m) (Mon MonExn.ValidationError) = true
  /\ isinstance (filter_error m) (Mon MonExn.FilterError) = true.
Proof. split; reflexivity. Qed.

Lemma execution_is_not_validation (m : string) (cause : exn) :
  isinstance (mon_execution_error m cause) (Mon MonExn.ValidationError) = false.
Proof. reflexivity. Qed.

(** The application-logs tool surfaces a negative time range as a
    [ToolExecutionError], which is not a validation error. *)
Lemma application_logs_hide_the_validation_error :
  ~ (forall e,
       fst (ApplicationLogsTool.execute still_runtime "all" (-1) "ERROR" None
              (boot no_files)) = Raise e ->
       isinstance e (Mon MonExn.ValidationError) = true).
Proof.
  intros H.
  specialize (H (mon_execution_error "Input validation failed: Minutes must be non-negative"
                   (time_range_error "Minutes must be non-negative")) eq_refl).
  discriminate H.
Qed.

Lemma not_among (x : string) (l : list string) :
  ~ In x l -> existsb (String.eqb x) l = false.
Proof.
  induction l as [|y l IH]; simpl; intros H; [reflexivity|].
  destruct (String.eqb_spec x y) as [->|Hne]; [exfalso; auto|]. apply IH. tauto.
Qed.

(** C4, amended: in every monitoring tool that takes a time range, a
    negative one raises [TimeRangeError] before any fixture is loaded, and a
    choice outside the allowed set raises [FilterError]; both are validation
    errors.  The interface-logs, batch-logs, APM and application-area tools
    let that error through to the caller unchanged.  The application-logs,
    server-performance and application-performance tools catch it and raise
    a [ToolExecutionError] "Input validation failed: ..." in its place, with
    the validation error as its cause.  In all cases the world is left as it
    was. *)
Theorem validation_errors_of_the_monitoring_tools (rt : runtime) (w : mon) (t : Z) :
  t < 0 ->
  (forall system_name status,
     InterfaceLogsTool.execute rt system_name t status w
     = (Raise (time_range_error "Hours must be non-negative"), w))
  /\ (forall job_name status,
        BatchLogsTool.execute rt job_name t status w
        = (Raise (time_range_error "Hours must be non-negative"), w))
  /\ (forall service metric_type threshold,
        CheckAPMTool.execute rt service metric_type t threshold w
        = (Raise (time_range_error "Minutes must be non-negative"), w))
  /\ (forall area,
        ApplicationPerformanceInquiryTool.execute rt area t w
        = (Raise (time_range_error "Time range must be non-negative"), w))
  /\ (forall service level pattern,
        ApplicationLogsTool.execute rt service t level pattern w
        = (Raise (mon_execution_error
                    "Input validation failed: Minutes must be non-negative"
                    (time_range_error "Minutes must be non-negative")), w))
  /\ (forall node metric_type,
        ServerPerformanceTool.execute rt node metric_type t w
        = (Raise (mon_execution_error
                    "Input validation failed: Minutes must be non-negative"
                    (time_range_error "Minutes must be non-negative")), w))
  /\ (forall service endpoint,
        ApplicationPerformanceTool.execute rt service endpoint t w
        = (Raise (mon_execution_error
                    "Input validation failed: Minutes must be non-negative"
                    (time_range_error "Minutes must be non-negative")), w))
  /\ (forall service minutes level pattern,
        0 <= minutes -> ~ In level ApplicationLogsTool.valid_levels ->
        ApplicationLogsTool.execute rt service minutes level pattern w
        = (Raise (mon_execution_error
                    ("Input validation failed: Level must be one of "
                       +:+ ApplicationLogsTool.valid_levels_text)
                    (filter_error ("Level must be one of "
                                     +:+ ApplicationLogsTool.valid_levels_text))), w))
  /\ (forall node metric_type minutes,
        0 <= minutes -> ~ In metric_type ServerPerformanceTool.valid_types ->
        ServerPerformanceTool.execute rt node metric_type minutes w
        = (Raise (mon_execution_error
                    ("Input validation failed: Metric type must be one of "
                       +:+ ServerPerformanceTool.valid_types_text)
                    (filter_error ("Metric type must be one of "
                                     +:+ ServerPerformanceTool.valid_types_text))), w))
  /\ (forall service metric_type minutes threshold,
        0 <= minutes -> ~ In metric_type CheckAPMTool.valid_types ->
        CheckAPMTool.execute rt service metric_type minutes threshold w
        = (Raise (filter_error ("Invalid metric_type. Must be one of: "
                                  +:+ CheckAPMTool.valid_types_text)), w))
  /\ (forall m cause,
        isinstance (time_range_error m) (Mon MonExn.ValidationError) = true
        /\ isinstance (filter_error m) (Mon MonExn.ValidationError) = true
        /\ isinstance (mon_execution_error m cause) (Mon MonExn.ValidationError) = false).
Proof.
  intros Ht. apply Z.ltb_lt in Ht.
  repeat match goal with |- _ /\ _ => split end;
    try (intros m cause; split; [apply time_range_is_validation|];
         split; [apply filter_is_validation|apply execution_is_not_validation]).
  - intros. unfold InterfaceLogsTool.execute, catch, mbind, M_bind. rewrite Ht. reflexivity.
  - intros. unfold BatchLogsTool.execute, catch, mbind, M_bind. rewrite Ht. reflexivity.
  - intros. unfold CheckAPMTool.execute, catch, mbind, M_bind. rewrite Ht. reflexivity.
  - intros. unfold ApplicationPerformanceInquiryTool.execute, catch, mbind, M_bind.
    rewrite Ht. reflexivity.
  - intros. unfold ApplicationLogsTool.execute, catch, mbind, M_bind. rewrite Ht. reflexivity.
  - intros. unfold ServerPerformanceTool.execute, catch, mbind, M_bind. rewrite Ht.
    reflexivity.
  - intros. unfold ApplicationPerformanceTool.execute, catch, mbind, M_bind. rewrite Ht.
    reflexivity.
  - intros service minutes level pattern Hm Hl.
    apply Z.ltb_ge in Hm. apply not_among in Hl.
    unfold ApplicationLogsTool.execute, catch, mbind, M_bind. rewrite Hm, Hl. reflexivity.
  - intros node metric_type minutes Hm Hl.
    apply Z.ltb_ge in Hm. apply not_among in Hl.
    unfold ServerPerformanceTool.execute, catch, mbind, M_bind. rewrite Hm, Hl. reflexivity.
  - intros service metric_type minutes threshold Hm Hl.
    apply Z.ltb_ge in Hm. apply not_among in Hl.
    unfold CheckAPMTool.execute, CheckAPMTool.in_types, catch, mbind, M_bind.
    rewrite Hm, Hl. reflexivity.
Qed.

(** One hour back in the future, on the server at start-up. *)
Lemma validation_errors_of_the_monitoring_tools_witness :
  InterfaceLogsTool.execute still_runtime "all" (-1) None (boot no_files)
  = (Raise (time_range_error "Hours must be non-negative"), boot no_files)
  /\ ApplicationLogsTool.execute still_runtime "all" (-1) "ERROR" None (boot no_files)
     = (Raise (mon_execution_error
                 "Input validation failed: Minutes must be non-negative"
                 (time_range_error "Minutes must be non-negative")), boot no_files).
Proof.
  pose proof (validation_errors_of_the_monitoring_tools still_runtime (boot no_files) (-1))
    as H.
  assert (Hneg : -1 < 0) by lia.
  destruct (H Hneg) as (Hi & _ & _ & _ & Ha & _).
  split; [apply Hi|apply Ha].
Defined.

(** ** Time ranges that the tools accept *)

Lemma among (x : string) (l : list string) :
  In x l -> existsb (String.eqb x) l = true.
Proof.
  induction l as [|y l IH]; simpl; intros H; [contradiction|].
  destruct H as [->|H]; [rewrite String.eqb_refl; reflexivity|].
  rewrite (IH H). apply orb_true_r.
Qed.

(** C5: the APM tool does not emit the same records for every valid time
    range.  With [minutes] at ten thousand million, a non-negative value that
    validation accepts, the look-back instant [now - timedelta(minutes)]
    falls before year 1: the subtraction raises [OverflowError] and the tool
    raises a [ToolExecutionError] before it has loaded a single record,
    whatever the clock reads and whatever the fixtures hold. *)
Theorem apm_fails_on_a_long_window (rt : runtime) (w : mon)
    (service metric_type : string) (threshold : option pyval) :
  In metric_type CheckAPMTool.valid_types ->
  now_utc rt (clock_reads w) <= datetime_max ->
  CheckAPMTool.execute rt service metric_type (10 ^ 10) threshold w
  = (Raise (mon_execution_error "Failed to query APM data: date value out of range"
              (builtin_error OverflowError "date value out of range")),
     MonWorld (files w) (data_loader w) (S (clock_reads w)) (uuid_reads w)).
Proof.
  intros Hin Hnow. apply among in Hin.
  assert (E : (0 <=? now_utc rt (clock_reads w) - 600000000000000000)%Z = false).
  { apply Z.leb_gt. unfold datetime_max in Hnow. lia. }
  unfold CheckAPMTool.execute, CheckAPMTool.in_types, catch, mbind, M_bind, mret, M_ret,
    now, lift.
  change ((10 ^ 10 <? 0)%Z) with false. cbv iota. rewrite Hin. cbv beta iota delta [negb].
  change (timedelta_minutes (10 ^ 10)) with (@Ok Z 600000000000000000).
  cbv beta iota. unfold datetime_sub. rewrite E. reflexivity.
Qed.

(** The server at start-up on New Year's Day 2026, asked for traces. *)
Lemma apm_fails_on_a_long_window_witness :
  CheckAPMTool.execute (runtime_at new_year_2026) "all" "traces" (10 ^ 10) None
    (boot (one_file "data/apm/traces.yaml" one_trace))
  = (Raise (mon_execution_error "Failed to query APM data: date value out of range"
              (builtin_error OverflowError "date value out of range")),
     MonWorld (one_file "data/apm/traces.yaml" one_trace) (DataLoader.init "data") 1 0).
Proof.
  apply (apm_fails_on_a_long_window (runtime_at new_year_2026)
           (boot (one_file "data/apm/traces.yaml" one_trace)) "all" "traces" None).
  - simpl; tauto.
  - vm_compute. discriminate.
Defined.

(** The same call with a window of fifteen minutes succeeds: the outcome
    depends on the time range alone. *)
Lemma apm_outcome_depends_on_minutes :
  let rt := runtime_at new_year_2026 in
  let w := boot (one_file "data/apm/traces.yaml" one_trace) in
  (exists out, fst (CheckAPMTool.execute rt "all" "traces" 15 None w) = Ok out)
  /\ (exists e, fst (CheckAPMTool.execute rt "all" "traces" (10 ^ 10) None w) = Raise e).
Proof.
  split; eexists; vm_compute; reflexivity.
Qed.

(** ** Parameters that select nothing

    In the other tools, and in the APM tool while the window stays within
    the calendar, the filter-like parameters and the time range do not reach
    the records: two calls that differ only in them are the same
    computation. *)

Lemma interface_logs_ignore_filters (rt : runtime) (w : mon)
    (system1 system2 : string) (hours1 hours2 : Z) (status1 status2 : option string) :
  0 <= hours1 -> 0 <= hours2 ->
  InterfaceLogsTool.execute rt system1 hours1 status1 w
  = InterfaceLogsTool.execute rt system2 hours2 status2 w.
Proof.
  intros H1 H2. apply Z.ltb_ge in H1, H2.
  unfold InterfaceLogsTool.execute. rewrite H1, H2. reflexivity.
Qed.

Lemma batch_logs_ignore_filters (rt : runtime) (w : mon)
    (job1 job2 : string) (hours1 hours2 : Z) (status1 status2 : option string) :
  0 <= hours1 -> 0 <= hours2 ->
  BatchLogsTool.execute rt job1 hours1 status1 w
  = BatchLogsTool.execute rt job2 hours2 status2 w.
Proof.
  intros H1 H2. apply Z.ltb_ge in H1, H2.
  unfold BatchLogsTool.execute. rewrite H1, H2. reflexivity.
Qed.

Lemma application_logs_ignore_filters (rt : runtime) (w : mon)
    (service1 service2 : string) (minutes1 minutes2 : Z) (level1 level2 : string)
    (pattern1 pattern2 : option string) :
  0 <= minutes1 -> 0 <= minutes2 ->
  In level1 ApplicationLogsTool.valid_levels ->
  In level2 ApplicationLogsTool.valid_levels ->
  ApplicationLogsTool.execute rt service1 minutes1 level1 pattern1 w
  = ApplicationLogsTool.execute rt service2 minutes2 level2 pattern2 w.
Proof.
  intros H1 H2 L1 L2. apply Z.ltb_ge in H1, H2. apply among in L1, L2.
  unfold ApplicationLogsTool.execute. rewrite H1, H2, L1, L2. reflexivity.
Qed.

Lemma server_performance_ignores_filters (rt : runtime) (w : mon)
    (node1 node2 metric_type : string) (minutes1 minutes2 : Z) :
  0 <= minutes1 -> 0 <= minutes2 ->
  ServerPerformanceTool.execute rt node1 metric_type minutes1 w
  = ServerPerformanceTool.execute rt node2 metric_type minutes2 w.
Proof.
  intros H1 H2. apply Z.ltb_ge in H1, H2.
  unfold ServerPerformanceTool.execute. rewrite H1, H2. reflexivity.
Qed.

Lemma api_health_ignores_service (rt : runtime) (w : mon) (service1 service2 : string) :
  ApiHealthCheckTool.execute rt service1 w = ApiHealthCheckTool.execute rt service2 w.
Proof. reflexivity. Qed.

Lemma application_areas_ignore_filters (rt : runtime) (w : mon)
    (area1 area2 : string) (minutes1 minutes2 : Z) :
  0 <= minutes1 -> 0 <= minutes2 ->
  ApplicationPerformanceInquiryTool.execute rt area1 minutes1 w
  = ApplicationPerformanceInquiryTool.execute rt area2 minutes2 w.
Proof.
  intros H1 H2. apply Z.ltb_ge in H1, H2.
  unfold ApplicationPerformanceInquiryTool.execute. rewrite H1, H2. reflexivity.
Qed.

Lemma apm_window (rt : runtime) (w : mon) (minutes : Z) :
  window_fits rt w minutes ->
  exists delta start,
    timedelta_minutes minutes = Ok delta
    /\ datetime_sub (now_utc rt (clock_reads w)) delta = Ok start.
Proof.
  intros (H0 & Hlo & Hhi). unfold timedelta_minutes, datetime_sub.
  unfold datetime_max, us_per_minute in *.
  assert (Hd : 0 <= (minutes * (60 * 1000000)) / (86400 * 1000000) <= 999999999).
  { split; [apply Z.div_pos; lia|apply Z.div_le_upper_bound; lia]. }
  destruct ((-999999999 <=? (minutes * (60 * 1000000)) / (86400 * 1000000))%Z
            && ((minutes * (60 * 1000000)) / (86400 * 1000000) <=? 999999999)%Z) eqn:E.
  2:{ apply andb_false_iff in E as [E|E]; apply Z.leb_gt in E; lia. }
  do 2 eexists. split; [reflexivity|].
  destruct (0 <=? now_utc rt (clock_reads w) - minutes * (60 * 1000000))%Z eqn:E1.
  2:{ apply Z.leb_gt in E1. lia. }
  destruct (now_utc rt (clock_reads w) - minutes * (60 * 1000000)
            <=? 3652059 * 86400 * 1000000 - 1)%Z eqn:E2.
  2:{ apply Z.leb_gt in E2. lia. }
  reflexivity.
Qed.

(** X15: in the APM tool the service, the window and the error threshold
    select nothing, as long as both windows can be computed (the minutes are
    not negative and do not reach back before year 1): two calls on the same
    world that differ only in them are the same computation. *)
Lemma apm_ignores_filters_within_the_calendar (rt : runtime) (w : mon)
    (service1 service2 metric_type : string) (minutes1 minutes2 : Z)
    (threshold1 threshold2 : option pyval) :
  window_fits rt w minutes1 -> window_fits rt w minutes2 ->
  CheckAPMTool.execute rt service1 metric_type minutes1 threshold1 w
  = CheckAPMTool.execute rt service2 metric_type minutes2 threshold2 w.
Proof.
  intros W1 W2.
  destruct (apm_window rt w minutes1 W1) as (d1 & s1 & T1 & S1).
  destruct (apm_window rt w minutes2 W2) as (d2 & s2 & T2 & S2).
  destruct W1 as [H1 _], W2 as [H2 _]. apply Z.ltb_ge in H1, H2.
  unfold CheckAPMTool.execute, catch, mbind, M_bind, mret, M_ret, now, lift.
  rewrite H1, H2. cbv iota.
  destruct (negb (CheckAPMTool.in_types metric_type CheckAPMTool.valid_types));
    [reflexivity|].
  rewrite T1, T2. cbv beta iota. rewrite S1, S2. reflexivity.
Qed.

(** ** One output record per fixture record *)

Lemma for_loop_length {A} (body : list pyval -> A -> result (list pyval)) (k : nat) :
  (forall acc x out, body acc x = Ok out -> length out = (length acc + k)%nat) ->
  forall l acc out,
    for_loop body l acc = Ok out -> length out = (length acc + k * length l)%nat.
Proof.
  intros Hb. induction l as [|x l IH]; simpl; intros acc out H.
  - inversion H; subst. lia.
  - destruct (body acc x) as [acc'|] eqn:E; [|discriminate H].
    cbn [mbind result_bind] in H. apply IH in H. apply Hb in E. lia.
Qed.

Lemma for_in_length {A} (body : list pyval -> A -> M mon (list pyval)) (k : nat) :
  (forall acc x out w w', body acc x w = (Ok out, w') -> length out = (length acc + k)%nat) ->
  forall l acc out w w',
    for_in body l acc w = (Ok out, w') -> length out = (length acc + k * length l)%nat.
Proof.
  intros Hb. induction l as [|x l IH]; simpl; intros acc out w w' H.
  - inversion H; subst. lia.
  - unfold mbind, M_bind in H.
    destruct (body acc x w) as [[acc'|] w1] eqn:E; [|discriminate H].
    apply IH in H. apply Hb in E. lia.
Qed.

Ltac run_binds H :=
  repeat match type of H with
         | (?m ≫= _) = Ok _ =>
             destruct m eqn:?; [cbn [mbind result_bind] in H | discriminate H]
         | (if ?b then _ else _) = Ok _ => destruct b
         end.

Lemma interface_row_adds_one (rows : list pyval) (log : pyval) (out : list pyval) :
  InterfaceLogsTool.row rows log = Ok out -> length out = (length rows + 1)%nat.
Proof.
  unfold InterfaceLogsTool.row. intros H. run_binds H.
  inversion H; subst. rewrite List.length_app. reflexivity.
Qed.

(** The SQL document of the interface logs has one row per record of the
    fixture, and [rowCount] counts them. *)
Lemma interface_logs_one_row_per_record (data r : pyval) (logs : list pyval) :
  Py.get data "interface_logs" (PList []) = Ok (PList logs) ->
  InterfaceLogsTool.response data = Ok r ->
  exists rows,
    r = PDict [("query", PStr "SELECT * FROM interface_logs ORDER BY timestamp DESC");
               ("rowCount", PInt (Z.of_nat (length logs)));
               ("rows", PList rows)]
    /\ length rows = length logs.
Proof.
  intros Hl H. unfold InterfaceLogsTool.response in H. rewrite Hl in H.
  cbn [mbind result_bind Py.iter] in H.
  destruct (for_loop InterfaceLogsTool.row logs []) as [rows|] eqn:E; [|discriminate H].
  cbn [mbind result_bind] in H. inversion H; subst.
  apply (for_loop_length _ 1 interface_row_adds_one) in E. simpl in E.
  assert (El : length rows = length logs) by lia.
  exists rows. rewrite El. auto.
Qed.

Lemma batch_row_adds_one (rt : runtime) (rows : list pyval) (job : pyval) (out : list pyval) :
  BatchLogsTool.row rt rows job = Ok out -> length out = (length rows + 1)%nat.
Proof.
  unfold BatchLogsTool.row. intros H. run_binds H;
    inversion H; subst; rewrite List.length_app; reflexivity.
Qed.

(** The same for the batch jobs. *)
Lemma batch_logs_one_row_per_record (rt : runtime) (data r : pyval) (jobs : list pyval) :
  Py.get data "batch_jobs" (PList []) = Ok (PList jobs) ->
  BatchLogsTool.response rt data = Ok r ->
  exists rows,
    r = PDict [("query", PStr "SELECT * FROM batch_job_logs ORDER BY start_time DESC");
               ("rowCount", PInt (Z.of_nat (length jobs)));
               ("rows", PList rows)]
    /\ length rows = length jobs.
Proof.
  intros Hl H. unfold BatchLogsTool.response in H. rewrite Hl in H.
  cbn [mbind result_bind Py.iter] in H.
  destruct (for_loop (BatchLogsTool.row rt) jobs []) as [rows|] eqn:E; [|discriminate H].
  cbn [mbind result_bind] in H. inversion H; subst.
  apply (for_loop_length _ 1 (batch_row_adds_one rt)) in E. simpl in E.
  assert (El : length rows = length jobs) by lia.
  exists rows. rewrite El. auto.
Qed.

Ltac run_world_binds H :=
  repeat match type of H with
         | (?m ≫= _) ?w = (Ok _, _) =>
             let E := fresh "E" in
             unfold mbind at 1, M_bind at 1 in H;
             destruct (m w) as [[?|?] ?] eqn:E; [|discriminate H]
         end.

Lemma hit_adds_one (rt : runtime) (today : string) (hits : list pyval) (log : pyval)
    (out : list pyval) (w w' : mon) :
  ApplicationLogsTool.hit rt today hits log w = (Ok out, w') ->
  length out = (length hits + 1)%nat.
Proof.
  unfold ApplicationLogsTool.hit. intros H. run_world_binds H.
  unfold mret, M_ret in H. inversion H; subst.
  rewrite List.length_app. reflexivity.
Qed.

(** The Elasticsearch document of the application logs has one hit per
    record of the fixture, and [hits.total.value] counts them. *)
Lemma application_logs_one_hit_per_record (rt : runtime) (data r : pyval)
    (logs : list pyval) (w w' : mon) :
  Py.get data "application_logs" (PList []) = Ok (PList logs) ->
  ApplicationLogsTool.response rt data w = (Ok r, w') ->
  exists hits,
    Py.get r "hits" PNone
    = Ok (PDict [("total", PDict [("value", PInt (Z.of_nat (length logs)));
                                  ("relation", PStr "eq")]);
                 ("max_score", PNone);
                 ("hits", PList hits)])
    /\ length hits = length logs.
Proof.
  intros Hl H. unfold ApplicationLogsTool.response in H.
  unfold mbind at 1, M_bind at 1, lift at 1 in H. rewrite Hl in H.
  unfold mbind at 1, M_bind at 1, now at 1 in H.
  unfold mbind at 1, M_bind at 1, lift at 1 in H. cbn [Py.iter] in H.
  unfold mbind at 1, M_bind at 1 in H.
  match type of H with
  | context [for_in ?b logs [] ?w0] =>
      destruct (for_in b logs [] w0) as [[hits|] w1] eqn:E; [|discriminate H]
  end.
  unfold mret, M_ret in H. inversion H; subst.
  apply (for_in_length _ 1 (hit_adds_one rt _)) in E. simpl in E.
  assert (El : length hits = length logs) by lia.
  exists hits. rewrite El. auto.
Qed.

(** * Properties of the HTTP client, the API tools and the HTTP server *)

(** ** One request *)

(** Inside [async with], [get] is its guarded body. *)
Lemma get_once_entered (self : HTTPClient.t) url params :
  HTTPClient.entered self = true ->
  HTTPClient.get_once self url params
  = catch (response ← HTTPClient.client_get url params;
           _ ← lift (HTTPClient.raise_for_status response);
           lift (HTTPClient.response_json response))
          (HTTPClient.on_error url).
Proof. intros He. unfold HTTPClient.get_once. rewrite He. reflexivity. Qed.

Lemma on_error_world {A} url (e : exn) (w : net) :
  snd (@HTTPClient.on_error A url e w) = w.
Proof.
  unfold HTTPClient.on_error.
  repeat match goal with
         | |- context [if ?b then _ else _] => destruct b
         | |- context [match ?x with Some _ => _ | None => _ end] => destruct x
         end; reflexivity.
Qed.

(** The world after a request: one more call, nothing waited. *)
Lemma get_once_world (self : HTTPClient.t) url params (w : net) :
  HTTPClient.entered self = true ->
  snd (HTTPClient.get_once self url params w)
  = Net (transport w) (S (calls w)) (sleeps w).
Proof.
  intros He. rewrite (get_once_entered self url params He).
  unfold catch, mbind, M_bind, HTTPClient.client_get.
  destruct (transport w (calls w) url params) as [r|e].
  - unfold lift. destruct (HTTPClient.raise_for_status r) as [[]|e1].
    + destruct (HTTPClient.response_json r) as [v|e2]; [reflexivity|].
      apply on_error_world.
    + apply on_error_world.
  - apply on_error_world.
Qed.

Lemma fetch_world url params (w : net) :
  snd (HTTPClient.fetch url params w) = Net (transport w) (S (calls w)) (sleeps w).
Proof.
  unfold HTTPClient.fetch. rewrite get_is_get_once. apply get_once_world. reflexivity.
Qed.

Lemma api_error_class m s t c : exn_cls (api_error m s t c) = Mcp McpExn.APIError.
Proof. reflexivity. Qed.

Lemma api_error_cause m s t c : exn_cause (api_error m s t c) = c.
Proof. reflexivity. Qed.

(** What the handlers of [get] raise for an exception that carries its
    response. *)
Lemma on_error_class {A} url (e : exn) (w : net) :
  carries_response (Thrown e) ->
  exists e', @HTTPClient.on_error A url e w = (Raise e', w)
             /\ (exn_cls e' = Mcp McpExn.TimeoutError \/ exn_cls e' = Mcp McpExn.APIError)
             /\ exn_cause e' = Some e.
Proof.
  intros Hc. unfold HTTPClient.on_error.
  destruct (isinstance e (Httpx TimeoutException)).
  { eexists. split; [reflexivity|]. split; [left|]; reflexivity. }
  destruct (isinstance e (Httpx HTTPStatusError)) eqn:Es.
  { destruct (Hc Es) as [r Hr]. rewrite Hr.
    eexists. split; [reflexivity|]. split; [right|]; reflexivity. }
  destruct (isinstance e (Httpx RequestError));
    (eexists; split; [reflexivity|]; split; [right|]; reflexivity).
Qed.

(** X1: what [HTTPClient.get] does with one request, given that an
    [HTTPStatusError] of the transport carries its response.  Outside
    [async with] it raises a [RuntimeError] and the transport is not invoked.
    Inside, the transport is invoked exactly once and nothing is waited; a
    result is the parsed body of a response whose status is within 200-299;
    an exception is the server's [TimeoutError] or an [APIError], and it
    carries the exception it replaces as its cause. *)
Theorem get_makes_one_request_and_raises_its_own_errors
    (self : HTTPClient.t) (url : string) (params : list (string * pyval)) (w : net) :
  carries_response (transport w (calls w) url params) ->
  if HTTPClient.entered self then
    snd (HTTPClient.get self url params w) = Net (transport w) (S (calls w)) (sleeps w)
    /\ match fst (HTTPClient.get self url params w) with
       | Ok data =>
           exists r, transport w (calls w) url params = Responded r
                     /\ 200 <= status_code r <= 299 /\ json r = inl data
       | Raise e =>
           (exn_cls e = Mcp McpExn.TimeoutError \/ exn_cls e = Mcp McpExn.APIError)
           /\ is_Some (exn_cause e)
       end
  else
    HTTPClient.get self url params w
    = (Raise (builtin_error RuntimeError "HTTPClient must be used as a context manager"), w).
Proof.
  intros Hc. rewrite get_is_get_once.
  destruct (HTTPClient.entered self) eqn:He.
  2:{ unfold HTTPClient.get_once. rewrite He. reflexivity. }
  split; [apply get_once_world; exact He|].
  rewrite (get_once_entered self url params He).
  unfold catch, mbind, M_bind, HTTPClient.client_get.
  destruct (transport w (calls w) url params) as [r|e] eqn:Et.
  - unfold lift, HTTPClient.raise_for_status.
    destruct ((200 <=? status_code r)%Z && (status_code r <=? 299)%Z) eqn:Es.
    + apply andb_true_iff in Es as [H1 H2]. apply Z.leb_le in H1, H2.
      unfold HTTPClient.response_json. destruct (json r) as [v|m] eqn:Ej.
      * simpl. exists r. auto.
      * match goal with |- context [HTTPClient.on_error url ?x ?w0] =>
          destruct (@on_error_class pyval url x w0) as (e' & -> & Hcls & Hcause)
        end.
        { intros H; discriminate H. }
        simpl. split; [exact Hcls|]. rewrite Hcause. eauto.
    + match goal with |- context [HTTPClient.on_error url ?x ?w0] =>
        destruct (@on_error_class pyval url x w0) as (e' & -> & Hcls & Hcause)
      end.
      { intros _. simpl. eauto. }
      simpl. split; [exact Hcls|]. rewrite Hcause. eauto.
  - destruct (@on_error_class pyval url e (Net (transport w) (S (calls w)) (sleeps w)) Hc)
      as (e' & -> & Hcls & Hcause).
    simpl. split; [exact Hcls|]. rewrite Hcause. eauto.
Qed.

Lemma get_makes_one_request_and_raises_its_own_errors_witness :
  let w := fresh (always (Thrown (connect_error "refused"))) in
  snd (HTTPClient.get (HTTPClient.aenter HTTPClient.init) "https://wttr.in/Oslo" [] w)
  = Net (transport w) 1 []
  /\ match fst (HTTPClient.get (HTTPClient.aenter HTTPClient.init) "https://wttr.in/Oslo" [] w) with
     | Ok data =>
         exists r, transport w (calls w) "https://wttr.in/Oslo" [] = Responded r
                   /\ 200 <= status_code r <= 299 /\ json r = inl data
     | Raise e =>
         (exn_cls e = Mcp McpExn.TimeoutError \/ exn_cls e = Mcp McpExn.APIError)
         /\ is_Some (exn_cause e)
     end.
Proof.
  intros w.
  apply (get_makes_one_request_and_raises_its_own_errors
           (HTTPClient.aenter HTTPClient.init) "https://wttr.in/Oslo" [] w).
  simpl. intros H. discriminate H.
Defined.

(** X2: a response within 200-299 whose body is not JSON makes the fetch
    raise an [APIError] whose message is [Unexpected error for], the URL and
    the decoder's message, with neither status code nor body in its details
    and the decoder's error as its cause; the transport has been invoked
    once. *)
Theorem a_body_that_is_not_json_is_an_api_error
    (tr : nat -> string -> list (string * pyval) -> outcome)
    (url : string) (params : list (string * pyval)) (r : response) (m : string)
    (n : nat) (waited : list Z) :
  tr n url params = Responded r ->
  200 <= status_code r <= 299 ->
  json r = inr m ->
  HTTPClient.fetch url params (Net tr n waited)
  = (Raise (api_error ("Unexpected error for " +:+ url +:+ ": " +:+ m) None None
              (Some (builtin_error JSONDecodeError m))),
     Net tr (S n) waited).
Proof.
  intros Htr [Hlo Hhi] Hj. unfold HTTPClient.fetch. rewrite get_is_get_once.
  unfold HTTPClient.get_once.
  change (HTTPClient.entered (HTTPClient.aenter HTTPClient.init)) with true.
  cbv beta iota delta [negb catch mbind M_bind HTTPClient.client_get transport calls sleeps].
  rewrite Htr. unfold lift, HTTPClient.raise_for_status, HTTPClient.response_json.
  apply Z.leb_le in Hlo, Hhi. rewrite Hlo, Hhi, Hj. reflexivity.
Qed.

Lemma a_body_that_is_not_json_is_an_api_error_witness :
  let r := Response 200 "<html>" (inr "Expecting value: line 1 column 1 (char 0)") "" in
  HTTPClient.fetch "https://wttr.in/Oslo" [] (fresh (always (Responded r)))
  = (Raise (api_error
              "Unexpected error for https://wttr.in/Oslo: Expecting value: line 1 column 1 (char 0)"
              None None
              (Some (builtin_error JSONDecodeError "Expecting value: line 1 column 1 (char 0)"))),
     Net (always (Responded r)) 1 []).
Proof.
  intros r.
  apply (a_body_that_is_not_json_is_an_api_error (always (Responded r))
           "https://wttr.in/Oslo" [] r "Expecting value: line 1 column 1 (char 0)" 0 []).
  - reflexivity.
  - simpl; lia.
  - reflexivity.
Defined.

(** ** Building a URL *)

Lemma drop_while_repeat (p : ascii -> bool) (c : ascii) (n : nat) (l : list ascii) :
  p c = true -> Str.drop_while p (repeat c n ++ l) = Str.drop_while p l.
Proof. intros Hp. induction n as [|n IH]; simpl; [reflexivity|]. rewrite Hp. exact IH. Qed.

Lemma drop_while_head (p : ascii -> bool) (l : list ascii) :
  match Str.drop_while p l with c :: _ => p c = false | [] => True end.
Proof.
  induction l as [|c l IH]; simpl; [exact I|].
  destruct (p c) eqn:E; [exact IH|exact E].
Qed.

Lemma rev_repeat (c : ascii) (n : nat) : rev (repeat c n) = repeat c n.
Proof.
  induction n as [|n IH]; simpl; [reflexivity|]. rewrite IH.
  clear IH. induction n as [|n IH]; simpl; [reflexivity|]. now rewrite IH.
Qed.

Lemma api_base_slashes (base_url : string) (i : nat) :
  api_base (base_url +:+ slashes i) = api_base base_url.
Proof.
  unfold api_base, Str.rstrip_by, slashes. rewrite chars_app, chars_of_chars.
  rewrite rev_app_distr, rev_repeat, drop_while_repeat by reflexivity. reflexivity.
Qed.

Lemma lstrip_slashes (endpoint : string) (j : nat) :
  Str.lstrip_by (Str.is_char "/") (slashes j +:+ endpoint)
  = Str.lstrip_by (Str.is_char "/") endpoint.
Proof.
  unfold Str.lstrip_by, slashes. rewrite chars_app, chars_of_chars.
  rewrite drop_while_repeat by reflexivity. reflexivity.
Qed.

Lemma startswith_slash (s : string) :
  Str.startswith "/" s = match Str.chars s with c :: _ => Str.is_char "/" c | [] => false end.
Proof. destruct s as [|c s]; simpl; [reflexivity|]. apply andb_true_r. Qed.

(** X3: [_build_url] joins the base URL and the endpoint with exactly one
    slash.  Trailing slashes of the base URL (the constructor strips them)
    and leading slashes of the endpoint do not change the result, and the
    result is a text that does not end in a slash, one slash, and a text
    that does not start with one. *)
Theorem build_url_joins_with_one_slash (base_url endpoint : string) (i j : nat) :
  _build_url (api_base (base_url +:+ slashes i)) (slashes j +:+ endpoint)
  = _build_url (api_base base_url) endpoint
  /\ exists b e,
       _build_url (api_base base_url) endpoint = b +:+ "/" +:+ e
       /\ ends_with_slash b = false
       /\ Str.startswith "/" e = false.
Proof.
  split.
  - unfold _build_url. rewrite api_base_slashes, lstrip_slashes. reflexivity.
  - exists (api_base base_url), (Str.lstrip_by (Str.is_char "/") endpoint).
    split; [reflexivity|]. split.
    + unfold ends_with_slash, api_base, Str.rstrip_by.
      rewrite chars_of_chars, rev_involutive.
      pose proof (drop_while_head (Str.is_char "/") (rev (Str.chars base_url))) as H.
      destruct (Str.drop_while (Str.is_char "/") (rev (Str.chars base_url))); auto.
    + rewrite startswith_slash. unfold Str.lstrip_by. rewrite chars_of_chars.
      pose proof (drop_while_head (Str.is_char "/") (Str.chars endpoint)) as H.
      destruct (Str.drop_while (Str.is_char "/") (Str.chars endpoint)); auto.
Qed.

(** ** A call of a tool *)

(** [ToolExecutionError] has no subclass. *)
Lemma tool_execution_error_is_final (e : exn) :
  isinstance e (Mcp McpExn.ToolExecutionError) = true ->
  exn_cls e = Mcp McpExn.ToolExecutionError.
Proof.
  unfold isinstance. destruct (exn_cls e) as [[]|[]|[]|[]];
    intros H; try discriminate H; reflexivity.
Qed.

(** The shape every [execute] has: fetch, reshape, and a handler around
    both. *)
Lemma execute_shape (url : string) (params : list (string * pyval))
    (post : pyval -> result pyval) (h : exn -> M net pyval) (w : net) :
  wraps h ->
  match catch (data ← HTTPClient.fetch url params; lift (post data)) h w with
  | (Ok _, w') => calls w' = S (calls w)
  | (Raise e, w') =>
      exn_cls e = Mcp McpExn.ToolExecutionError /\ calls w' = S (calls w)
  end.
Proof.
  intros Hh. unfold catch, mbind, M_bind.
  pose proof (fetch_world url params w) as Hw.
  destruct (HTTPClient.fetch url params w) as [[data|e] w1]; simpl in Hw; subst w1.
  - unfold lift. destruct (post data) as [v|e]; [reflexivity|].
    destruct (Hh e (Net (transport w) (S (calls w)) (sleeps w))) as (e' & -> & Hc).
    auto.
  - destruct (Hh e (Net (transport w) (S (calls w)) (sleeps w))) as (e' & -> & Hc).
    auto.
Qed.

Lemma pass_or_wrap (f : exn -> exn) :
  (forall e, exn_cls (f e) = Mcp McpExn.ToolExecutionError) ->
  wraps (fun e => if isinstance e (Mcp McpExn.ToolExecutionError) then raise e
                  else raise (f e)).
Proof.
  intros Hf e w. destruct (isinstance e (Mcp McpExn.ToolExecutionError)) eqn:E.
  - exists e. split; [reflexivity|]. apply tool_execution_error_is_final, E.
  - exists (f e). split; [reflexivity|]. apply Hf.
Qed.

Lemma weather_execute_shape (location : string) (format : pyval) (w : net) :
  match WeatherTool.execute location format w with
  | (Ok _, w') => calls w' = S (calls w)
  | (Raise e, w') =>
      exn_cls e = Mcp McpExn.ToolExecutionError /\ calls w' = S (calls w)
  end.
Proof.
  unfold WeatherTool.execute. apply execute_shape.
  intros e w0. eexists. split; reflexivity.
Qed.

Lemma ip_execute_shape (ip_address : string) (w : net) :
  match IPInfoTool.execute ip_address w with
  | (Ok _, w') => calls w' = S (calls w)
  | (Raise e, w') =>
      exn_cls e = Mcp McpExn.ToolExecutionError /\ calls w' = S (calls w)
  end.
Proof.
  unfold IPInfoTool.execute. apply execute_shape.
  intros e w0. destruct (isinstance e (Mcp McpExn.ToolExecutionError)) eqn:E.
  - exists e. split; [reflexivity|]. apply tool_execution_error_is_final, E.
  - destruct (Str.contains "429" (exn_str e)); eexists; split; reflexivity.
Qed.

Lemma dictionary_execute_shape (word : string) (w : net) :
  match DictionaryTool.execute word w with
  | (Ok _, w') => calls w' = S (calls w)
  | (Raise e, w') =>
      exn_cls e = Mcp McpExn.ToolExecutionError /\ calls w' = S (calls w)
  end.
Proof.
  unfold DictionaryTool.execute. cbv zeta. apply execute_shape.
  apply (pass_or_wrap (fun e => tool_execution_error _ (Some e))). reflexivity.
Qed.

Lemma exchange_execute_shape (str_of : pyval -> string) (base_currency : string)
    (target_currency : option string) (amount : option pyval) (w : net) :
  match ExchangeRateTool.execute str_of base_currency target_currency amount w with
  | (Ok _, w') => calls w' = S (calls w)
  | (Raise e, w') =>
      exn_cls e = Mcp McpExn.ToolExecutionError /\ calls w' = S (calls w)
  end.
Proof.
  unfold ExchangeRateTool.execute. cbv zeta. apply execute_shape.
  apply (pass_or_wrap (fun e => tool_execution_error _ (Some e))). reflexivity.
Qed.

(** Arguments that passed validation bind to the parameters of [execute]. *)
Lemma apply_after_validation (str_of : pyval -> string) (tool : BaseTool)
    (b : bool) (kw : kwargs) (w : net) :
  In tool (api_tools str_of) ->
  validate_input tool kw = Ok tt ->
  match execute tool (logged_kwargs b tool kw) w with
  | (Ok _, w') => calls w' = S (calls w)
  | (Raise e, w') =>
      exn_cls e = Mcp McpExn.ToolExecutionError /\ calls w' = S (calls w)
  end.
Proof.
  intros Hin Hv.
  rewrite <- (validate_ignores_logging str_of tool b kw Hin) in Hv.
  revert Hv. generalize (logged_kwargs b tool kw) as kw'. intros kw' Hv.
  destruct Hin as [<-|[<-|[<-|[<-|[]]]]]; simpl in Hv |- *.
  - unfold WeatherTool.validate_input in Hv. unfold WeatherTool.apply.
    destruct (Py.lookup "location" kw') as [[| | | |s| |]|]; simpl in Hv;
      try discriminate Hv;
      repeat match type of Hv with
             | context [if ?x then _ else _] => destruct x; simpl in Hv
             end; try discriminate Hv.
    apply weather_execute_shape.
  - unfold IPInfoTool.validate_input in Hv. unfold IPInfoTool.apply.
    destruct (Py.lookup "ip_address" kw') as [[| | | |s| |]|]; simpl in Hv;
      try discriminate Hv; apply ip_execute_shape.
  - unfold DictionaryTool.validate_input in Hv. unfold DictionaryTool.apply.
    destruct (Py.lookup "word" kw') as [[| | | |s| |]|]; simpl in Hv;
      try discriminate Hv;
      repeat match type of Hv with
             | context [if ?x then _ else _] => destruct x; simpl in Hv
             end; try discriminate Hv.
    apply dictionary_execute_shape.
  - unfold ExchangeRateTool.validate_input in Hv. unfold ExchangeRateTool.apply.
    destruct (Py.lookup "base_currency" kw') as [[| | | |s| |]|]; simpl in Hv;
      try discriminate Hv;
      repeat match type of Hv with
             | context [if negb ?x then _ else _] => destruct x; simpl in Hv
             end; try discriminate Hv.
    destruct (default PNone (Py.lookup "target_currency" kw')) as [| | | |t| |];
      simpl in Hv;
      repeat match type of Hv with
             | context [if negb ?x then _ else _] => destruct x; simpl in Hv
             end; try discriminate Hv;
      apply exchange_execute_shape.
Qed.

(** Every call of one of the four tools: one request and a result, one
    request and a [ToolExecutionError], or no request and a
    [ValidationError]. *)
Lemma call_shape (str_of : pyval -> string) (info_enabled : bool) (tool : BaseTool)
    (kw : kwargs) (w : net) :
  In tool (api_tools str_of) ->
  match __call__ info_enabled tool kw w with
  | (Ok _, w') => calls w' = S (calls w)
  | (Raise e, w') =>
      (exn_cls e = Mcp McpExn.ValidationError /\ w' = w)
      \/ (exn_cls e = Mcp McpExn.ToolExecutionError /\ calls w' = S (calls w))
  end.
Proof.
  intros Hin.
  destruct (validate_input tool kw) as [[]|e] eqn:Hv.
  - rewrite (call_after_validation str_of info_enabled tool kw w Hin Hv).
    pose proof (apply_after_validation str_of tool info_enabled kw w Hin Hv) as H.
    destruct (execute tool (logged_kwargs info_enabled tool kw) w) as [[v|e] w'];
      [exact H|right; exact H].
  - unfold __call__. cbv zeta. rewrite catch_reraise. unfold mbind, M_bind, lift.
    rewrite (validate_ignores_logging str_of tool info_enabled kw Hin), Hv.
    left. split; [|reflexivity]. eapply validate_class; eauto.
Qed.

(** X4: a call of one of the four API tools ends in one of three ways: a
    result after exactly one request; a [ToolExecutionError] after exactly
    one request; or a [ValidationError] with the world untouched.  No other
    class of exception leaves [__call__], whatever the transport does. *)
Theorem a_tool_call_makes_one_request_and_raises_two_kinds_of_error
    (str_of : pyval -> string) (info_enabled : bool) (tool : BaseTool)
    (kw : kwargs) (w : net) :
  In tool (api_tools str_of) ->
  match __call__ info_enabled tool kw w with
  | (Ok _, w') => calls w' = S (calls w)
  | (Raise e, w') =>
      (exn_cls e = Mcp McpExn.ValidationError /\ w' = w)
      \/ (exn_cls e = Mcp McpExn.ToolExecutionError /\ calls w' = S (calls w))
  end.
Proof. apply call_shape. Qed.

Lemma a_tool_call_makes_one_request_and_raises_two_kinds_of_error_witness :
  let w := fresh (always (Responded (error_response 503 "unavailable"))) in
  match __call__ true DictionaryTool.tool [("word", PStr "serendipity")] w with
  | (Ok _, w') => calls w' = S (calls w)
  | (Raise e, w') =>
      (exn_cls e = Mcp McpExn.ValidationError /\ w' = w)
      \/ (exn_cls e = Mcp McpExn.ToolExecutionError /\ calls w' = S (calls w))
  end.
Proof.
  intros w.
  apply (a_tool_call_makes_one_request_and_raises_two_kinds_of_error
           (fun _ => "") true DictionaryTool.tool [("word", PStr "serendipity")] w).
  simpl. tauto.
Defined.

(** ** The dictionary's notion of a word *)

Lemma word_char_cases (c : ascii) :
  (Str.is_alpha c = true -> Str.is_char "-" c = false /\ Str.is_char "'" c = false)
  /\ (word_char c = true -> Str.is_space c = false).
Proof.
  destruct c as [[] [] [] [] [] [] [] []]; vm_compute; split; intros H;
    try discriminate H; try split; reflexivity.
Qed.

Lemma remove_char_cons (c d : ascii) (s : string) :
  Str.remove_char c (String d s)
  = if Str.is_char c d then Str.remove_char c s else String d (Str.remove_char c s).
Proof. reflexivity. Qed.

Lemma all_chars_cons (p : ascii -> bool) (c : ascii) (s : string) :
  Str.all_chars p (String c s) = p c && Str.all_chars p s.
Proof. reflexivity. Qed.

Lemma removed_letters (w : string) :
  Str.all_chars Str.is_alpha (Str.remove_char "'" (Str.remove_char "-" w))
  = Str.all_chars word_char w.
Proof.
  induction w as [|c w IH]; [reflexivity|].
  rewrite remove_char_cons, all_chars_cons. unfold word_char at 1.
  destruct (Str.is_char "-" c) eqn:Eh.
  { rewrite IH. rewrite orb_true_r. reflexivity. }
  rewrite remove_char_cons.
  destruct (Str.is_char "'" c) eqn:Ea.
  { rewrite IH. rewrite !orb_true_r. reflexivity. }
  rewrite all_chars_cons, IH, !orb_false_r. reflexivity.
Qed.

Lemma removed_empty (w : string) :
  Str.all_chars word_char w = true ->
  (Str.remove_char "'" (Str.remove_char "-" w) = "" <-> any_char Str.is_alpha w = false).
Proof.
  induction w as [|c w IH]; [intros _; split; reflexivity|].
  rewrite all_chars_cons, remove_char_cons. cbn [any_char]. intros H.
  apply andb_true_iff in H as [Hc Hw]. specialize (IH Hw).
  destruct (Str.is_alpha c) eqn:Ea.
  - destruct (proj1 (word_char_cases c) Ea) as [-> Hq].
    rewrite remove_char_cons, Hq. simpl. split; intros H; discriminate H.
  - unfold word_char in Hc. rewrite Ea in Hc. rewrite orb_false_l in Hc.
    rewrite orb_false_l.
    destruct (Str.is_char "-" c) eqn:Eh; [exact IH|].
    rewrite orb_false_l in Hc. rewrite remove_char_cons, Hc. exact IH.
Qed.

Lemma isalpha_spec (s : string) :
  Str.isalpha s = true <-> s <> "" /\ Str.all_chars Str.is_alpha s = true.
Proof.
  destruct s as [|c s]; simpl.
  - split; [intros H; discriminate H|intros [H _]; congruence].
  - split; [intros H; split; [discriminate|exact H]|intros [_ H]; exact H].
Qed.

Lemma all_chars_forallb (p : ascii -> bool) (s : string) :
  Str.all_chars p s = forallb p (Str.chars s).
Proof. induction s as [|c s IH]; simpl; [reflexivity|]. unfold Str.chars in *. simpl. now rewrite IH. Qed.

(** [strip] leaves a text without whitespace as it is. *)
Lemma strip_nothing (s : string) :
  forallb (fun c => negb (Str.is_space c)) (Str.chars s) = true -> Str.strip s = s.
Proof.
  intros H. unfold Str.strip, Str.lstrip_by, Str.rstrip_by.
  rewrite chars_of_chars.
  assert (Hr : Str.drop_while Str.is_space (rev (Str.chars s)) = rev (Str.chars s)).
  { apply drop_while_stops. pose proof (forallb_last _ _ H) as Hl.
    destruct (rev (Str.chars s)); [exact I|]. apply negb_true_iff in Hl. exact Hl. }
  rewrite Hr, rev_involutive.
  rewrite drop_while_stops; [apply of_chars_chars|].
  destruct (Str.chars s) as [|c l]; [exact I|].
  simpl in H. apply andb_true_iff in H as [Hc _]. apply negb_true_iff in Hc. exact Hc.
Qed.

Lemma word_has_no_space (w : string) :
  Str.all_chars word_char w = true ->
  forallb (fun c => negb (Str.is_space c)) (Str.chars w) = true.
Proof.
  rewrite all_chars_forallb. intros H. rewrite forallb_forall in *.
  intros c Hc. apply H in Hc. apply word_char_cases in Hc. rewrite Hc. reflexivity.
Qed.

(** ** The constraints, tool by tool *)



(** The words the dictionary accepts. *)
Lemma dictionary_accepts_iff (kw : kwargs) :
  DictionaryTool.validate_input kw = Ok tt
  <-> exists w, Py.lookup "word" kw = Some (PStr w) /\ good_word w = true.
Proof.
  unfold DictionaryTool.validate_input, good_word. split.
  - destruct (Py.lookup "word" kw) as [[| | | |w| |]|]; simpl;
      try (intros H; discriminate H);
      try (destruct (negb _); intros H; discriminate H).
    destruct (negb (negb (w =? ""))%string); [intros H; discriminate H|].
    destruct (String.length (Str.strip w) =? 0)%nat; [intros H; discriminate H|].
    destruct (Str.isalpha (Str.remove_char "'" (Str.remove_char "-" w))) eqn:Ei;
      [|intros H; discriminate H].
    intros _. exists w. split; [reflexivity|].
    apply isalpha_spec in Ei as [Hne Hall]. rewrite removed_letters in Hall.
    rewrite Hall. simpl.
    destruct (any_char Str.is_alpha w) eqn:Ea; [reflexivity|].
    apply (removed_empty w Hall) in Ea. contradiction.
  - intros (w & -> & Hg). apply andb_true_iff in Hg as [Hall Hany]. simpl.
    assert (Hne : w <> "") by (intros ->; discriminate Hany).
    apply String.eqb_neq in Hne. rewrite Hne. simpl.
    rewrite (strip_nothing w (word_has_no_space w Hall)).
    destruct w as [|c w]; [discriminate Hany|]. cbn [String.length Nat.eqb].
    assert (Hi : Str.isalpha (Str.remove_char "'" (Str.remove_char "-" (String c w))) = true).
    { apply isalpha_spec. split.
      - intros He. apply (removed_empty _ Hall) in He. congruence.
      - rewrite removed_letters. exact Hall. }
    rewrite Hi. reflexivity.
Qed.







(** ** From the constraints to the call *)






(** ** The dictionary's notion of a word *)

(** X5: on parameters whose texts are ASCII, the dictionary tool accepts
    a call exactly when [word] is a text made of letters, hyphens and
    apostrophes only, with at least one letter. *)
Theorem dictionary_accepts_exactly_the_words (kw : kwargs) :
  ascii_args kw ->
  DictionaryTool.validate_input kw = Ok tt
  <-> exists w, Py.lookup "word" kw = Some (PStr w)
                /\ Str.all_chars word_char w = true
                /\ any_char Str.is_alpha w = true.
Proof.
  intros _. rewrite dictionary_accepts_iff. unfold good_word.
  split; intros (w & Hl & H); exists w; (split; [exact Hl|]).
  - apply andb_true_iff in H. exact H.
  - apply andb_true_iff. exact H.
Qed.

(** A word with hyphens and an apostrophe. *)
Lemma dictionary_accepts_exactly_the_words_witness :
  DictionaryTool.validate_input [("word", PStr "mother-in-law's")] = Ok tt
  <-> exists w, Py.lookup "word" [("word", PStr "mother-in-law's")] = Some (PStr w)
                /\ Str.all_chars word_char w = true
                /\ any_char Str.is_alpha w = true.
Proof.
  apply (dictionary_accepts_exactly_the_words [("word", PStr "mother-in-law's")]).
  intros p s. simpl. destruct (String.eqb p "word"); intros [= <-]. reflexivity.
Defined.

(** ** Loops that append *)

Lemma for_loop_forall2 {A} (body : list pyval -> A -> result (list pyval))
    (R : A -> pyval -> Prop) :
  (forall acc x out, body acc x = Ok out -> exists y, out = (acc ++ [y])%list /\ R x y) ->
  forall l acc out,
    for_loop body l acc = Ok out -> exists ys, out = (acc ++ ys)%list /\ Forall2 R l ys.
Proof.
  intros Hb. induction l as [|x l IH]; simpl; intros acc out H.
  - inversion H; subst. exists []. rewrite app_nil_r. split; [reflexivity|constructor].
  - destruct (body acc x) as [acc'|] eqn:E; [|discriminate H].
    cbn [mbind result_bind] in H.
    apply Hb in E as (y & -> & Hy). apply IH in H as (ys & -> & Hys).
    exists (y :: ys). rewrite <- app_assoc. split; [reflexivity|constructor; assumption].
Qed.

Lemma for_loop_at_most {A} (body : list pyval -> A -> result (list pyval)) :
  (forall acc x out, body acc x = Ok out -> (length out <= length acc + 1)%nat) ->
  forall l acc out,
    for_loop body l acc = Ok out -> (length out <= length acc + length l)%nat.
Proof.
  intros Hb. induction l as [|x l IH]; simpl; intros acc out H.
  - inversion H; subst. lia.
  - destruct (body acc x) as [acc'|] eqn:E; [|discriminate H].
    cbn [mbind result_bind] in H. apply IH in H. apply Hb in E. lia.
Qed.

(** ** The dictionary tool *)

Lemma definition_entry_adds_one (definitions : list pyval) (defn : pyval) (out : list pyval) :
  DictionaryTool.definition_entry definitions defn = Ok out ->
  length out = (length definitions + 1)%nat.
Proof.
  unfold DictionaryTool.definition_entry. intros H. run_binds H.
  inversion H; subst. rewrite List.length_app. reflexivity.
Qed.

Lemma meaning_entry_adds_one (meanings : list pyval) (meaning : pyval) (out : list pyval) :
  DictionaryTool.meaning_entry meanings meaning = Ok out ->
  exists y, out = (meanings ++ [y])%list /\ as_many_definitions meaning y.
Proof.
  unfold DictionaryTool.meaning_entry, as_many_definitions. intros H.
  destruct (Py.get meaning "partOfSpeech" (PStr "")) as [pos|] eqn:E0; [|discriminate H].
  cbn [mbind result_bind] in H.
  destruct (Py.get meaning "definitions" (PList [])) as [ds|] eqn:E1; [|discriminate H].
  cbn [mbind result_bind] in H.
  destruct (Py.iter ds) as [defs|] eqn:E2; [|discriminate H].
  cbn [mbind result_bind] in H.
  destruct (for_loop DictionaryTool.definition_entry defs []) as [outs|] eqn:E3;
    [|discriminate H].
  cbn [mbind result_bind] in H. run_binds H. inversion H; subst.
  eexists. split; [reflexivity|].
  exists defs, outs. cbn [mbind result_bind]. rewrite E2.
  split; [reflexivity|]. split; [reflexivity|].
  apply (for_loop_length _ 1 definition_entry_adds_one) in E3. simpl in E3. lia.
Qed.

Lemma phonetic_entry_at_most_one (phonetics : list pyval) (phonetic : pyval)
    (out : list pyval) :
  DictionaryTool.phonetic_entry phonetics phonetic = Ok out ->
  (length out <= length phonetics + 1)%nat.
Proof.
  unfold DictionaryTool.phonetic_entry. intros H.
  destruct (Py.get_opt phonetic "text") as [t|]; [|discriminate H].
  cbn [mbind result_bind] in H.
  destruct (Py.truthy t).
  - cbn [mbind result_bind] in H. run_binds H. inversion H; subst.
    rewrite List.length_app. simpl. lia.
  - destruct (Py.get_opt phonetic "audio") as [a|]; [|discriminate H].
    cbn [mbind result_bind] in H. destruct (Py.truthy a).
    + run_binds H. inversion H; subst. rewrite List.length_app. simpl. lia.
    + inversion H; subst. lia.
Qed.

(** X6: of the upstream's list the dictionary tool reads the first entry
    only: the result is the same whatever entries follow.  The result has the
    entry's word, at most one phonetic for each phonetic of the entry, and
    one meaning for each meaning of the entry, in order, each with as many
    definitions as the upstream meaning has. *)
Theorem dictionary_keeps_every_meaning_of_the_first_entry
    (word : string) (entry : pyval) (rest : list pyval) (r : pyval)
    (ps ms : list pyval) :
  (v ← Py.get entry "phonetics" (PList []); Py.iter v) = Ok ps ->
  (v ← Py.get entry "meanings" (PList []); Py.iter v) = Ok ms ->
  DictionaryTool.normalize word (PList (entry :: rest)) = Ok r ->
  DictionaryTool.normalize word (PList [entry]) = Ok r
  /\ exists w phonetics meanings source_urls,
       r = PDict [("word", w); ("phonetics", PList phonetics);
                  ("meanings", PList meanings); ("source_urls", source_urls)]
       /\ Py.get entry "word" (PStr word) = Ok w
       /\ (length phonetics <= length ps)%nat
       /\ Forall2 as_many_definitions ms meanings.
Proof.
  intros Hps Hms H. split; [exact H|].
  unfold DictionaryTool.normalize in H.
  destruct (Py.get entry "phonetics" (PList [])) as [pv|] eqn:E0; [|discriminate H].
  cbn [mbind result_bind] in H, Hps. rewrite Hps in H. cbn [mbind result_bind] in H.
  destruct (for_loop DictionaryTool.phonetic_entry ps []) as [phonetics|] eqn:E1;
    [|discriminate H].
  cbn [mbind result_bind] in H.
  destruct (Py.get entry "meanings" (PList [])) as [mv|] eqn:E2; [|discriminate H].
  cbn [mbind result_bind] in H, Hms. rewrite Hms in H. cbn [mbind result_bind] in H.
  destruct (for_loop DictionaryTool.meaning_entry ms []) as [meanings|] eqn:E3;
    [|discriminate H].
  cbn [mbind result_bind] in H.
  destruct (Py.get entry "word" (PStr word)) as [w|] eqn:E4; [|discriminate H].
  cbn [mbind result_bind] in H.
  destruct (Py.get entry "sourceUrls" (PList [])) as [urls|] eqn:E5; [|discriminate H].
  cbn [mbind result_bind] in H. inversion H; subst.
  exists w, phonetics, meanings, urls. split; [reflexivity|]. split; [reflexivity|].
  split.
  - apply (for_loop_at_most _ phonetic_entry_at_most_one) in E1. simpl in E1. exact E1.
  - apply (for_loop_forall2 _ _ meaning_entry_adds_one) in E3 as (ys & -> & Hys).
    exact Hys.
Qed.

Lemma dictionary_keeps_every_meaning_of_the_first_entry_witness :
  let entry := PDict [("word", PStr "run");
                      ("phonetics", PList [PDict [("text", PStr "/r/")]; PDict []]);
                      ("meanings", PList [
                         PDict [("partOfSpeech", PStr "verb");
                                ("definitions", PList [
                                   PDict [("definition", PStr "to move fast")];
                                   PDict [("definition", PStr "to manage")]])]])] in
  let r := PDict [("word", PStr "run");
                  ("phonetics", PList [PDict [("text", PStr "/r/"); ("audio", PStr "")]]);
                  ("meanings", PList [
                     PDict [("part_of_speech", PStr "verb");
                            ("definitions", PList [
                               PDict [("definition", PStr "to move fast");
                                      ("example", PStr ""); ("synonyms", PList []);
                                      ("antonyms", PList [])];
                               PDict [("definition", PStr "to manage");
                                      ("example", PStr ""); ("synonyms", PList []);
                                      ("antonyms", PList [])]]);
                            ("synonyms", PList []); ("antonyms", PList [])]]);
                  ("source_urls", PList [])] in
  DictionaryTool.normalize "run" (PList [entry]) = Ok r
  /\ exists w phonetics meanings source_urls,
       r = PDict [("word", w); ("phonetics", PList phonetics);
                  ("meanings", PList meanings); ("source_urls", source_urls)]
       /\ Py.get entry "word" (PStr "run") = Ok w
       /\ (length phonetics <= 2)%nat
       /\ Forall2 as_many_definitions
            [PDict [("partOfSpeech", PStr "verb");
                    ("definitions", PList [
                       PDict [("definition", PStr "to move fast")];
                       PDict [("definition", PStr "to manage")]])]]
            meanings.
Proof.
  intros entry r.
  apply (dictionary_keeps_every_meaning_of_the_first_entry "run" entry
           [PDict [("word", PStr "ran")]] r
           [PDict [("text", PStr "/r/")]; PDict []]
           [PDict [("partOfSpeech", PStr "verb");
                   ("definitions", PList [
                      PDict [("definition", PStr "to move fast")];
                      PDict [("definition", PStr "to manage")]])]]); reflexivity.
Defined.

(** X7: for an ASCII word, when the upstream answers within 200-299 with
    JSON that is not a list with an entry in it, the dictionary tool raises
    the [ToolExecutionError] that no definition was found for the word,
    stripped and lower-cased, with no cause; one request has been made. *)
Theorem dictionary_reports_a_missing_definition
    (tr : nat -> string -> list (string * pyval) -> outcome) (n : nat) (waited : list Z)
    (word : string) (r : response) (data : pyval) :
  Str.isascii word = true ->
  tr n (_build_url DictionaryTool.base_url (Str.lower (Str.strip word))) [] = Responded r ->
  200 <= status_code r <= 299 ->
  json r = inl data ->
  (forall entry rest, data <> PList (entry :: rest)) ->
  DictionaryTool.execute word (Net tr n waited)
  = (Raise (tool_execution_error
              ("No definition found for '" +:+ Str.lower (Str.strip word) +:+ "'") None),
     Net tr (S n) waited).
Proof.
  intros _ Htr Hst Hj Hd. unfold DictionaryTool.execute. cbv zeta.
  unfold catch, mbind, M_bind.
  rewrite (fetch_ok tr _ [] r data n waited Htr Hst Hj).
  unfold lift, DictionaryTool.normalize.
  destruct data as [| | | | |[|entry rest]|]; try reflexivity.
  exfalso. eapply Hd. reflexivity.
Qed.

Lemma dictionary_reports_a_missing_definition_witness :
  let answer := PDict [("title", PStr "No Definitions Found")] in
  DictionaryTool.execute " Qwxz " (fresh (always (Responded (ok_response answer))))
  = (Raise (tool_execution_error "No definition found for 'qwxz'" None),
     Net (always (Responded (ok_response answer))) 1 []).
Proof.
  intros answer.
  apply (dictionary_reports_a_missing_definition (always (Responded (ok_response answer)))
           0 [] " Qwxz " (ok_response answer) answer).
  - reflexivity.
  - reflexivity.
  - simpl; lia.
  - reflexivity.
  - intros entry rest H. discriminate H.
Defined.

(** ** The exchange rate tool *)

(** X8: for an ASCII base currency, without a target currency, none or the
    empty string, and with an upstream document that has rates and no error
    flag, the exchange-rate tool returns the base currency, the two update
    times, the whole rate mapping and the currency codes in the mapping's
    order; the amount plays no part. *)
Theorem exchange_without_a_target_lists_every_rate
    (str_of : pyval -> string)
    (tr : nat -> string -> list (string * pyval) -> outcome)
    (n : nat) (waited : list Z)
    (base_currency : string) (target_currency : option string) (amount : option pyval)
    (r : response) (d rates : list (string * pyval)) :
  Str.isascii base_currency = true ->
  tr n (_build_url ExchangeRateTool.base_url ("latest/" +:+ Str.upper base_currency)) []
  = Responded r ->
  200 <= status_code r <= 299 ->
  json r = inl (PDict d) ->
  Py.eq_str (default PNone (Py.lookup "result" d)) "error" = false ->
  target_currency = None \/ target_currency = Some "" ->
  Py.lookup "rates" d = Some (PDict rates) ->
  ExchangeRateTool.execute str_of base_currency target_currency amount (Net tr n waited)
  = (Ok (PDict [
       ("base_currency", default (PStr (Str.upper base_currency)) (Py.lookup "base_code" d));
       ("last_update", default (PStr "") (Py.lookup "time_last_update_utc" d));
       ("next_update", default (PStr "") (Py.lookup "time_next_update_utc" d));
       ("rates", PDict rates);
       ("available_currencies", PList (map PStr (map fst rates)))]),
     Net tr (S n) waited).
Proof.
  intros _ Htr Hst Hj Herr Ht Hrates.
  unfold ExchangeRateTool.execute.
  unfold catch, mbind at 1, M_bind.
  rewrite (fetch_ok tr _ [] r (PDict d) n waited Htr Hst Hj).
  unfold lift, ExchangeRateTool.normalize.
  cbn [Py.get_opt Py.get mbind result_bind].
  rewrite Herr. cbn [mbind result_bind].
  rewrite Hrates. cbn [default option_rect id].
  destruct Ht as [-> | ->]; reflexivity.
Qed.

Lemma exchange_without_a_target_lists_every_rate_witness :
  let upstream := PDict [("result", PStr "success"); ("base_code", PStr "USD");
                         ("rates", PDict [("EUR", PFloat 0.8423%float);
                                          ("JPY", PInt 150)])] in
  let tr := always (Responded (ok_response upstream)) in
  ExchangeRateTool.execute (fun _ => "") "usd" None None (fresh tr)
  = (Ok (PDict [
       ("base_currency", PStr "USD");
       ("last_update", PStr "");
       ("next_update", PStr "");
       ("rates", PDict [("EUR", PFloat 0.8423%float); ("JPY", PInt 150)]);
       ("available_currencies", PList [PStr "EUR"; PStr "JPY"])]),
     Net tr 1 []).
Proof.
  intros upstream tr.
  apply (exchange_without_a_target_lists_every_rate (fun _ => "") tr 0 [] "usd" None None
           (ok_response upstream)
           [("result", PStr "success"); ("base_code", PStr "USD");
            ("rates", PDict [("EUR", PFloat 0.8423%float); ("JPY", PInt 150)])]
           [("EUR", PFloat 0.8423%float); ("JPY", PInt 150)]).
  - reflexivity.
  - reflexivity.
  - simpl; lia.
  - reflexivity.
  - reflexivity.
  - left; reflexivity.
  - reflexivity.
Defined.

(** X9: the two errors the exchange-rate tool raises itself, for ASCII
    currency codes.  When the upstream document says [result: error], the
    error names the upstream's [error-type], or [Unknown error] when there
    is none.  When the upper-cased target currency is not among the rates,
    the error names that code.  Both are [ToolExecutionError]s without a
    cause, after one request. *)
Theorem exchange_reports_upstream_and_unknown_currency_errors
    (str_of : pyval -> string)
    (tr : nat -> string -> list (string * pyval) -> outcome)
    (n : nat) (waited : list Z)
    (base_currency : string) (target_currency : option string) (amount : option pyval)
    (r : response) (d : list (string * pyval)) :
  Str.isascii base_currency = true ->
  tr n (_build_url ExchangeRateTool.base_url ("latest/" +:+ Str.upper base_currency)) []
  = Responded r ->
  200 <= status_code r <= 299 ->
  json r = inl (PDict d) ->
  (Py.lookup "result" d = Some (PStr "error") ->
   ExchangeRateTool.execute str_of base_currency target_currency amount (Net tr n waited)
   = (Raise (tool_execution_error
               ("Exchange rate API error: "
                  +:+ Py.str str_of (default (PStr "Unknown error") (Py.lookup "error-type" d)))
               None),
      Net tr (S n) waited))
  /\ (forall target rates,
        Py.eq_str (default PNone (Py.lookup "result" d)) "error" = false ->
        target_currency = Some target -> target <> "" ->
        Str.isascii target = true ->
        Py.lookup "rates" d = Some (PDict rates) ->
        Py.lookup (Str.upper target) rates = None ->
        ExchangeRateTool.execute str_of base_currency target_currency amount (Net tr n waited)
        = (Raise (tool_execution_error
                    ("Target currency '" +:+ Str.upper target +:+ "' not found") None),
           Net tr (S n) waited)).
Proof.
  intros _ Htr Hst Hj. split.
  - intros Herr. unfold ExchangeRateTool.execute.
    unfold catch, mbind at 1, M_bind.
    rewrite (fetch_ok tr _ [] r (PDict d) n waited Htr Hst Hj).
    unfold lift, ExchangeRateTool.normalize.
    cbn [Py.get_opt Py.get mbind result_bind].
    rewrite Herr. reflexivity.
  - intros target rates Herr -> Hne _ Hrates Hmiss.
    unfold ExchangeRateTool.execute.
    unfold catch, mbind at 1, M_bind.
    rewrite (fetch_ok tr _ [] r (PDict d) n waited Htr Hst Hj).
    unfold lift, ExchangeRateTool.normalize.
    cbn [Py.get_opt Py.get mbind result_bind].
    rewrite Herr. cbn [mbind result_bind].
    rewrite Hrates. cbn [default option_rect id].
    apply String.eqb_neq in Hne. rewrite Hne.
    cbn [negb Py.contains_str mbind result_bind]. rewrite Hmiss. reflexivity.
Qed.

Lemma exchange_reports_upstream_and_unknown_currency_errors_witness :
  let upstream := PDict [("result", PStr "error"); ("error-type", PStr "unsupported-code")] in
  let tr := always (Responded (ok_response upstream)) in
  ExchangeRateTool.execute (fun _ => "") "XXX" None None (fresh tr)
  = (Raise (tool_execution_error "Exchange rate API error: unsupported-code" None),
     Net tr 1 []).
Proof.
  intros upstream tr.
  apply (exchange_reports_upstream_and_unknown_currency_errors (fun _ => "") tr 0 []
           "XXX" None None (ok_response upstream)
           [("result", PStr "error"); ("error-type", PStr "unsupported-code")]).
  - reflexivity.
  - reflexivity.
  - simpl; lia.
  - reflexivity.
  - reflexivity.
Defined.

(** ** The IP tool *)

(** A response outside 200-299 becomes an [APIError] that names the
    status. *)
Lemma fetch_status_error (tr : nat -> string -> list (string * pyval) -> outcome)
    (url : string) (params : list (string * pyval)) (r : response)
    (n : nat) (waited : list Z) :
  tr n url params = Responded r ->
  (status_code r < 200 \/ 299 < status_code r) ->
  HTTPClient.fetch url params (Net tr n waited)
  = (Raise (api_error ("HTTP " +:+ pretty (status_code r) +:+ " error for " +:+ url)
              (Some (status_code r)) (Some (text r))
              (Some (Exn (Httpx HTTPStatusError) (status_error r) [] (Some r) None))),
     Net tr (S n) waited).
Proof.
  intros Htr Hnot. unfold HTTPClient.fetch. rewrite get_is_get_once.
  unfold HTTPClient.get_once.
  change (HTTPClient.entered (HTTPClient.aenter HTTPClient.init)) with true.
  cbv beta iota delta [negb catch mbind M_bind HTTPClient.client_get transport calls sleeps].
  rewrite Htr. unfold lift. rewrite (raise_for_status_error r Hnot).
  reflexivity.
Qed.

(** X10: when the upstream document carries [error: true], the IP tool
    reports a rate limit whatever the reason says, as long as the reason is a
    text: the message [API error: <reason>] is never reached for such a
    document. *)
Theorem ip_error_flag_is_reported_as_a_rate_limit
    (tr : nat -> string -> list (string * pyval) -> outcome) (n : nat) (waited : list Z)
    (ip_address : string) (r : response) (d : list (string * pyval)) (reason : string) :
  tr n (ip_url ip_address) [] = Responded r ->
  200 <= status_code r <= 299 ->
  json r = inl (PDict d) ->
  Py.lookup "error" d = Some (PBool true) ->
  default (PStr "Unknown error") (Py.lookup "reason" d) = PStr reason ->
  IPInfoTool.execute ip_address (Net tr n waited)
  = (Raise (tool_execution_error IPInfoTool.rate_limit_message None), Net tr (S n) waited).
Proof.
  intros Htr Hst Hj Herr Hreason. unfold IPInfoTool.execute.
  unfold catch, mbind at 1, M_bind.
  change (_build_url IPInfoTool.base_url
            (if negb (ip_address =? "")%string then ip_address +:+ "/json/" else "json/"))
    with (ip_url ip_address).
  rewrite (fetch_ok tr _ [] r (PDict d) n waited Htr Hst Hj).
  unfold lift, IPInfoTool.normalize, IPInfoTool.check_error.
  cbn [Py.get_opt Py.get mbind result_bind].
  rewrite Herr. cbn [default option_rect id Py.truthy mbind result_bind].
  rewrite Hreason. cbn [IPInfoTool.lower_of mbind result_bind].
  rewrite orb_true_r. reflexivity.
Qed.

Lemma ip_error_flag_is_reported_as_a_rate_limit_witness :
  let answer := PDict [("error", PBool true); ("reason", PStr "Reserved IP Address")] in
  let tr := always (Responded (ok_response answer)) in
  IPInfoTool.execute "10.0.0.1" (fresh tr)
  = (Raise (tool_execution_error IPInfoTool.rate_limit_message None), Net tr 1 []).
Proof.
  intros answer tr.
  apply (ip_error_flag_is_reported_as_a_rate_limit tr 0 [] "10.0.0.1" (ok_response answer)
           [("error", PBool true); ("reason", PStr "Reserved IP Address")]
           "Reserved IP Address").
  - reflexivity.
  - simpl; lia.
  - reflexivity.
  - reflexivity.
  - reflexivity.
Defined.

(** X11: a response with status 429 makes the IP tool raise the
    [ToolExecutionError] of the strict rate limit, whose cause is the
    [APIError] of the HTTP client for that status; one request has been
    made. *)
Theorem ip_status_429_is_reported_as_a_rate_limit
    (tr : nat -> string -> list (string * pyval) -> outcome) (n : nat) (waited : list Z)
    (ip_address : string) (r : response) :
  tr n (ip_url ip_address) [] = Responded r ->
  status_code r = 429 ->
  IPInfoTool.execute ip_address (Net tr n waited)
  = (Raise (tool_execution_error IPInfoTool.strict_rate_limit_message
              (Some (api_error ("HTTP 429 error for " +:+ ip_url ip_address)
                       (Some 429) (Some (text r))
                       (Some (Exn (Httpx HTTPStatusError) (status_error r) []
                                (Some r) None))))),
     Net tr (S n) waited).
Proof.
  intros Htr Hst. unfold IPInfoTool.execute.
  unfold catch, mbind at 1, M_bind.
  change (_build_url IPInfoTool.base_url
            (if negb (ip_address =? "")%string then ip_address +:+ "/json/" else "json/"))
    with (ip_url ip_address).
  rewrite (fetch_status_error tr _ [] r n waited Htr) by (rewrite Hst; lia).
  rewrite Hst.
  change (pretty 429) with "429".
  reflexivity.
Qed.

Lemma ip_status_429_is_reported_as_a_rate_limit_witness :
  let r := error_response 429 "Too Many Requests" in
  let tr := always (Responded r) in
  IPInfoTool.execute "8.8.8.8" (fresh tr)
  = (Raise (tool_execution_error IPInfoTool.strict_rate_limit_message
              (Some (api_error "HTTP 429 error for https://ipapi.co/8.8.8.8/json/"
                       (Some 429) (Some "Too Many Requests")
                       (Some (Exn (Httpx HTTPStatusError) "" [] (Some r) None))))),
     Net tr 1 []).
Proof.
  intros r tr.
  apply (ip_status_429_is_reported_as_a_rate_limit tr 0 [] "8.8.8.8" r); reflexivity.
Defined.

(** ** The endpoints of the HTTP server *)

(** X12: each of the four API endpoints of the HTTP server.  When its tool
    is disabled in the settings, the endpoint answers with the dict that says
    so and the network is not touched.  When it is enabled, the endpoint is a
    call of the tool: a result or a [ToolExecutionError] after exactly one
    request, or a [ValidationError] after none. *)
Theorem an_endpoint_answers_or_raises_a_tool_error
    (str_of : pyval -> string) (info_enabled : bool) (settings : http_server.features)
    (r : http_server.request) (w : net) :
  (if http_server.enabled settings r then
     match http_server.serve str_of info_enabled settings r w with
     | (Ok _, w') => calls w' = S (calls w)
     | (Raise e, w') =>
         (exn_cls e = Mcp McpExn.ValidationError /\ w' = w)
         \/ (exn_cls e = Mcp McpExn.ToolExecutionError /\ calls w' = S (calls w))
     end
   else
     http_server.serve str_of info_enabled settings r w
     = (Ok (PDict [("error", PStr (http_server.label r +:+ " is disabled"))]), w)).
Proof.
  destruct r as [location|ip_address|word|base_currency target_currency amount];
    unfold http_server.serve, http_server.enabled, http_server.label,
      http_server.get_weather, http_server.get_ip_info, http_server.lookup_word,
      http_server.get_exchange_rate, http_server.weather_tool, http_server.ip_info_tool,
      http_server.dictionary_tool, http_server.exchange_rate_tool.
  - destruct (http_server.enable_weather_tool settings); [|reflexivity].
    apply (call_shape str_of). simpl; tauto.
  - destruct (http_server.enable_ip_info_tool settings); [|reflexivity].
    apply (call_shape str_of). simpl; tauto.
  - destruct (http_server.enable_dictionary_tool settings); [|reflexivity].
    apply (call_shape str_of). simpl; tauto.
  - destruct (http_server.enable_exchange_rate_tool settings); [|reflexivity].
    apply (call_shape str_of). simpl; tauto.
Qed.

(** * Properties of the loader and the monitoring tools *)

(** ** A load that fails *)

(** X13: a [load_yaml] that raises leaves the loader as it was, and it
    raises only when the cache was not asked or had no entry for the path.
    What it raises: for a missing file the [DataLoadError] that names the
    full path, without a cause; for a YAML or I/O failure the
    [DataLoadError] that names the relative path, with the failure as its
    cause; any other exception as it is.  A file that loads never raises. *)
Theorem a_failed_load_changes_nothing
    (d : disk) (filepath : string) (use_cache : bool) (self self' : DataLoader.t) (e : exn) :
  DataLoader.load_yaml d filepath use_cache self = (Raise e, self') ->
  self' = self
  /\ (use_cache = false \/ DataLoader._cache self !! filepath = None)
  /\ match d (DataLoader.full_path self filepath) with
     | Missing =>
         e = mon_error MonExn.DataLoadError
               ("File not found: " +:+ DataLoader.full_path self filepath) None
     | Fails e0 =>
         if isinstance e0 (Builtin YAMLError) then
           e = mon_error MonExn.DataLoadError
                 ("Failed to parse YAML file " +:+ filepath +:+ ": " +:+ exn_str e0) (Some e0)
         else if isinstance e0 (Builtin OSError) then
           e = mon_error MonExn.DataLoadError
                 ("Failed to read file " +:+ filepath +:+ ": " +:+ exn_str e0) (Some e0)
         else e = e0
     | Loads _ => False
     end.
Proof.
  unfold DataLoader.load_yaml.
  destruct (if use_cache then DataLoader._cache self !! filepath else None) as [c|] eqn:Ec.
  { intros H; discriminate H. }
  assert (Hu : use_cache = false \/ DataLoader._cache self !! filepath = None).
  { destruct use_cache; auto. }
  unfold catch, DataLoader.read_and_cache.
  destruct (d (DataLoader.full_path self filepath)) as [|e0|data].
  - simpl. intros [= <- <-]. auto.
  - destruct (isinstance e0 (Builtin YAMLError)); [intros [= <- <-]; auto|].
    destruct (isinstance e0 (Builtin OSError)); intros [= <- <-]; auto.
  - intros H; discriminate H.
Qed.

Lemma a_failed_load_changes_nothing_witness :
  let self := DataLoader.init "data" in
  self = self
  /\ (true = false \/ DataLoader._cache self !! "logs/none.yaml" = None)
  /\ mon_error MonExn.DataLoadError "File not found: data/logs/none.yaml" None
     = mon_error MonExn.DataLoadError
         ("File not found: " +:+ DataLoader.full_path self "logs/none.yaml") None.
Proof.
  intros self.
  apply (a_failed_load_changes_nothing no_files "logs/none.yaml" true self self
           (mon_error MonExn.DataLoadError "File not found: data/logs/none.yaml" None)).
  reflexivity.
Defined.

(** ** The filters of the monitoring tools *)

(** X14: in six of the monitoring tools the filter parameters and the
    length of the time range select nothing.  Two calls on the same world
    that differ only in the system, job, service, node or area, in the
    status, the pattern or a valid level, or in a time range that is not
    negative, give the same outcome and the same world. *)
Theorem filters_and_time_ranges_select_nothing (rt : runtime) (w : mon) (t1 t2 : Z) :
  0 <= t1 -> 0 <= t2 ->
  (forall system1 system2 status1 status2,
     InterfaceLogsTool.execute rt system1 t1 status1 w
     = InterfaceLogsTool.execute rt system2 t2 status2 w)
  /\ (forall job1 job2 status1 status2,
        BatchLogsTool.execute rt job1 t1 status1 w
        = BatchLogsTool.execute rt job2 t2 status2 w)
  /\ (forall service1 service2 level1 level2 pattern1 pattern2,
        In level1 ApplicationLogsTool.valid_levels ->
        In level2 ApplicationLogsTool.valid_levels ->
        ApplicationLogsTool.execute rt service1 t1 level1 pattern1 w
        = ApplicationLogsTool.execute rt service2 t2 level2 pattern2 w)
  /\ (forall node1 node2 metric_type,
        ServerPerformanceTool.execute rt node1 metric_type t1 w
        = ServerPerformanceTool.execute rt node2 metric_type t2 w)
  /\ (forall area1 area2,
        ApplicationPerformanceInquiryTool.execute rt area1 t1 w
        = ApplicationPerformanceInquiryTool.execute rt area2 t2 w)
  /\ (forall service1 service2,
        ApiHealthCheckTool.execute rt service1 w = ApiHealthCheckTool.execute rt service2 w).
Proof.
  intros H1 H2. repeat split; intros.
  - apply interface_logs_ignore_filters; assumption.
  - apply batch_logs_ignore_filters; assumption.
  - apply application_logs_ignore_filters; assumption.
  - apply server_performance_ignores_filters; assumption.
  - apply application_areas_ignore_filters; assumption.
Qed.

Lemma filters_and_time_ranges_select_nothing_witness :
  InterfaceLogsTool.execute still_runtime "HR" 1 (Some "ERROR")
    (boot (one_file "data/logs/interface_logs.yaml" two_interface_logs))
  = InterfaceLogsTool.execute still_runtime "Payment" 24 None
      (boot (one_file "data/logs/interface_logs.yaml" two_interface_logs)).
Proof.
  pose proof (filters_and_time_ranges_select_nothing still_runtime
                (boot (one_file "data/logs/interface_logs.yaml" two_interface_logs)) 1 24)
    as H.
  assert (H1 : 0 <= 1) by lia. assert (H24 : 0 <= 24) by lia.
  destruct (H H1 H24) as (Hi & _). apply Hi.
Defined.

Lemma apm_ignores_filters_within_the_calendar_witness :
  let rt := runtime_at new_year_2026 in
  let w := boot (one_file "data/apm/traces.yaml" one_trace) in
  CheckAPMTool.execute rt "payment-service" "traces" 15 None w
  = CheckAPMTool.execute rt "all" "traces" 60 (Some (PFloat 5.0%float)) w.
Proof.
  intros rt w.
  apply (apm_ignores_filters_within_the_calendar rt w "payment-service" "all" "traces"
           15 60 None (Some (PFloat 5.0%float)));
    unfold window_fits; vm_compute; repeat split; discriminate.
Defined.

(** ** Samples per record *)

Lemma health_samples_add_six (rt : runtime) (ts : Z) (acc : list pyval) (check : pyval)
    (out : list pyval) :
  ApiHealthCheckTool.samples rt ts acc check = Ok out ->
  length out = (length acc + 6)%nat.
Proof.
  unfold ApiHealthCheckTool.samples. intros H. run_binds H.
  inversion H; subst. rewrite List.length_app. reflexivity.
Qed.

Lemma area_samples_add_eight (rt : runtime) (ts : Z) (acc : list pyval) (metric : pyval)
    (out : list pyval) :
  ApplicationPerformanceInquiryTool.samples rt ts acc metric = Ok out ->
  length out = (length acc + 8)%nat.
Proof.
  unfold ApplicationPerformanceInquiryTool.samples. intros H. run_binds H.
  inversion H; subst. rewrite List.length_app. reflexivity.
Qed.

Lemma for_loop_counts {A} (body : list pyval -> A -> result (list pyval))
    (count : A -> nat -> Prop) :
  (forall acc x out, body acc x = Ok out ->
                     exists n, count x n /\ length out = (length acc + n)%nat) ->
  forall l acc out,
    for_loop body l acc = Ok out ->
    exists ns, Forall2 count l ns /\ length out = (length acc + sum_list ns)%nat.
Proof.
  intros Hb. induction l as [|x l IH]; simpl; intros acc out H.
  - inversion H; subst. exists []. split; [constructor|simpl; lia].
  - destruct (body acc x) as [acc'|] eqn:E; [|discriminate H].
    cbn [mbind result_bind] in H.
    apply Hb in E as (n & Hn & Hl). apply IH in H as (ns & Hns & Hl').
    exists (n :: ns). split; [constructor; assumption|]. simpl. lia.
Qed.

Lemma flatten_check_adds_one (endpoint : pyval) (acc : list pyval) (check : pyval)
    (out : list pyval) :
  ApiHealthCheckTool.flatten_check endpoint acc check = Ok out ->
  length out = (length acc + 1)%nat.
Proof.
  unfold ApiHealthCheckTool.flatten_check. intros H. run_binds H.
  inversion H; subst. rewrite List.length_app. reflexivity.
Qed.

Lemma flatten_endpoint_adds_its_checks (acc : list pyval) (endpoint : pyval)
    (out : list pyval) :
  ApiHealthCheckTool.flatten_endpoint acc endpoint = Ok out ->
  exists n, holds checks_of endpoint n /\ length out = (length acc + n)%nat.
Proof.
  unfold ApiHealthCheckTool.flatten_endpoint, holds, checks_of. intros H.
  destruct (Py.get endpoint "checks" (PList [])) as [checks|]; [|discriminate H].
  cbn [mbind result_bind] in H |- *.
  destruct (Py.iter checks) as [each|]; [|discriminate H].
  cbn [mbind result_bind] in H.
  apply (for_loop_length _ 1 (flatten_check_adds_one endpoint)) in H.
  exists (length each). split; [eauto|lia].
Qed.

Lemma with_area_adds_one (area : string * pyval) (acc : list pyval) (metric : pyval)
    (out : list pyval) :
  ApplicationPerformanceInquiryTool.with_area area acc metric = Ok out ->
  length out = (length acc + 1)%nat.
Proof.
  unfold ApplicationPerformanceInquiryTool.with_area. destruct area as [area_name area_data].
  intros H. run_binds H. inversion H; subst. rewrite List.length_app. reflexivity.
Qed.

Lemma flatten_area_adds_its_metrics (acc : list pyval) (area : string * pyval)
    (out : list pyval) :
  ApplicationPerformanceInquiryTool.flatten_area acc area = Ok out ->
  exists n, holds metrics_of area n /\ length out = (length acc + n)%nat.
Proof.
  unfold ApplicationPerformanceInquiryTool.flatten_area, holds, metrics_of. intros H.
  destruct (Py.get (snd area) "metrics" (PList [])) as [ms|]; [|discriminate H].
  cbn [mbind result_bind] in H |- *.
  destruct (Py.iter ms) as [each|]; [|discriminate H].
  cbn [mbind result_bind] in H.
  apply (for_loop_length _ 1 (with_area_adds_one area)) in H.
  exists (length each). split; [eauto|lia].
Qed.

(** X17: the Prometheus vector of the health check has six samples for
    every check of every endpoint of the fixture, and the vector of the
    application areas has eight samples for every metric of every area. *)
Theorem prometheus_vectors_count_their_records (rt : runtime) (ts : Z) :
  (forall endpoints checks result,
     for_loop ApiHealthCheckTool.flatten_endpoint endpoints [] = Ok checks ->
     for_loop (ApiHealthCheckTool.samples rt ts) checks [] = Ok result ->
     exists ns, Forall2 (holds checks_of) endpoints ns
                /\ length checks = sum_list ns
                /\ length result = (6 * sum_list ns)%nat)
  /\ (forall areas metrics result,
        for_loop ApplicationPerformanceInquiryTool.flatten_area areas [] = Ok metrics ->
        for_loop (ApplicationPerformanceInquiryTool.samples rt ts) metrics [] = Ok result ->
        exists ns, Forall2 (holds metrics_of) areas ns
                   /\ length metrics = sum_list ns
                   /\ length result = (8 * sum_list ns)%nat).
Proof.
  split.
  - intros endpoints checks result Hf Hs.
    apply (for_loop_counts _ _ flatten_endpoint_adds_its_checks) in Hf as (ns & Hns & Hl).
    apply (for_loop_length _ 6 (health_samples_add_six rt ts)) in Hs.
    exists ns. simpl in Hl, Hs. split; [exact Hns|]. split; lia.
  - intros areas metrics result Hf Hs.
    apply (for_loop_counts _ _ flatten_area_adds_its_metrics) in Hf as (ns & Hns & Hl).
    apply (for_loop_length _ 8 (area_samples_add_eight rt ts)) in Hs.
    exists ns. simpl in Hl, Hs. split; [exact Hns|]. split; lia.
Qed.

(** ** The APM documents *)

Lemma metric_entry_adds (rt : runtime) (metric_type : string) (ts : Z)
    (acc : list pyval) (metric : pyval) (out : list pyval) :
  CheckAPMTool.metric_entry rt metric_type ts acc metric = Ok out ->
  length out = (length acc + apm_samples_per_metric metric_type)%nat.
Proof.
  unfold CheckAPMTool.metric_entry, apm_samples_per_metric. intros H.
  destruct (Py.get metric "service" (PStr "unknown")); [|discriminate H].
  cbn [mbind result_bind] in H.
  destruct (Py.get metric "operation" (PStr "unknown")); [|discriminate H].
  cbn [mbind result_bind] in H.
  destruct (Py.get metric "metrics" (PDict [])); [|discriminate H].
  cbn [mbind result_bind] in H.
  destruct (Py.get _ "error_rate_percent" (PInt 0)); [|discriminate H].
  cbn [mbind result_bind] in H. cbv zeta in H.
  match type of H with
  | (?m ≫= _) = Ok _ => destruct m as [acc1|] eqn:E1; [|discriminate H]
  end.
  cbn [mbind result_bind] in H.
  assert (H1 : length acc1
               = (length acc
                  + (if CheckAPMTool.in_types metric_type ["errors"; "all"] then 3 else 0))%nat).
  { destruct (CheckAPMTool.in_types metric_type ["errors"; "all"]).
    - run_binds E1. inversion E1; subst. rewrite List.length_app. reflexivity.
    - inversion E1; subst. lia. }
  destruct (CheckAPMTool.in_types metric_type ["latency"; "all"]).
  - run_binds H. inversion H; subst. rewrite List.length_app, H1. cbn [length]. lia.
  - inversion H; subst. lia.
Qed.

Lemma span_entry_adds_one (rt : runtime) (trace_id : pyval) (st : CheckAPMTool.span_state)
    (span : pyval) (st' : CheckAPMTool.span_state) :
  CheckAPMTool.span_entry rt trace_id st span = Ok st' ->
  length (CheckAPMTool.spans st') = (length (CheckAPMTool.spans st) + 1)%nat.
Proof.
  unfold CheckAPMTool.span_entry. intros H.
  destruct (Py.get span "service_name" (PStr "unknown")) as [service_name|];
    [|discriminate H].
  cbn [mbind result_bind] in H. cbv zeta in H.
  match type of H with
  | (?m ≫= _) = Ok _ => destruct m as [st1|] eqn:E1; [|discriminate H]
  end.
  cbn [mbind result_bind] in H.
  assert (Hs : CheckAPMTool.spans st1 = CheckAPMTool.spans st).
  { destruct (negb _) in E1.
    - run_binds E1. inversion E1; subst. reflexivity.
    - inversion E1; subst. reflexivity. }
  run_binds H; inversion H; subst; simpl; rewrite List.length_app, Hs; reflexivity.
Qed.

Lemma spans_count (rt : runtime) (trace_id : pyval) (each : list pyval) :
  forall st st',
    for_loop (CheckAPMTool.span_entry rt trace_id) each st = Ok st' ->
    length (CheckAPMTool.spans st')
    = (length (CheckAPMTool.spans st) + length each)%nat.
Proof.
  induction each as [|x l IH]; simpl; intros st st' H.
  - inversion H; subst. lia.
  - destruct (CheckAPMTool.span_entry rt trace_id st x) as [st1|] eqn:E; [|discriminate H].
    cbn [mbind result_bind] in H. apply IH in H. apply span_entry_adds_one in E. lia.
Qed.

Lemma trace_entry_adds_one (rt : runtime) (acc : list pyval) (trace : pyval)
    (out : list pyval) :
  CheckAPMTool.trace_entry rt acc trace = Ok out ->
  exists y, out = (acc ++ [y])%list /\ same_trace trace y.
Proof.
  unfold CheckAPMTool.trace_entry, same_trace. intros H.
  destruct (Py.get trace "trace_id" (PStr "")) as [trace_id|]; [|discriminate H].
  cbn [mbind result_bind] in H.
  destruct (Py.get trace "spans" (PList [])) as [ss|]; [|discriminate H].
  cbn [mbind result_bind] in H |- *.
  destruct (Py.iter ss) as [each|]; [|discriminate H].
  cbn [mbind result_bind] in H.
  destruct (for_loop (CheckAPMTool.span_entry rt trace_id) each
              (CheckAPMTool.SpanState [] [] 1)) as [st|] eqn:E; [|discriminate H].
  cbn [mbind result_bind] in H. inversion H; subst.
  eexists. split; [reflexivity|].
  exists trace_id, each, (CheckAPMTool.spans st), (CheckAPMTool.processes st).
  repeat split. apply spans_count in E. simpl in E. exact E.
Qed.

(** X18: the Jaeger document of the APM tool has one trace for each trace
    of the fixture, in order, with the fixture's trace identifier and as many
    spans as the fixture's trace; its Prometheus vector has, for every metric
    record, three samples when errors are asked for, four when latency is,
    seven for [all]. *)
Theorem apm_documents_count_their_records (rt : runtime) (service metric_type : string)
    (start_time end_time current_timestamp : Z) (error_threshold : option pyval) :
  (forall traces each r,
     Py.iter traces = Ok each ->
     CheckAPMTool._build_traces_response rt traces service start_time end_time = Ok r ->
     exists out, r = PDict [("data", PList out)] /\ Forall2 same_trace each out)
  /\ (forall metrics each r,
        Py.iter metrics = Ok each ->
        CheckAPMTool._build_metrics_response rt metrics service metric_type
          start_time end_time current_timestamp error_threshold = Ok r ->
        exists result,
          r = prom_vector result
          /\ length result = (apm_samples_per_metric metric_type * length each)%nat).
Proof.
  split.
  - intros traces each r Hi H. unfold CheckAPMTool._build_traces_response in H.
    rewrite Hi in H. cbn [mbind result_bind] in H.
    destruct (for_loop (CheckAPMTool.trace_entry rt) each []) as [out|] eqn:E;
      [|discriminate H].
    cbn [mbind result_bind] in H. inversion H; subst.
    apply (for_loop_forall2 _ _ (trace_entry_adds_one rt)) in E as (ys & -> & Hys).
    exists ys. split; [reflexivity|exact Hys].
  - intros metrics each r Hi H. unfold CheckAPMTool._build_metrics_response in H.
    rewrite Hi in H. cbn [mbind result_bind] in H.
    destruct (for_loop (CheckAPMTool.metric_entry rt metric_type current_timestamp) each [])
      as [result|] eqn:E; [|discriminate H].
    cbn [mbind result_bind] in H. inversion H; subst.
    apply (for_loop_length _ _ (metric_entry_adds rt metric_type current_timestamp)) in E.
    exists result. split; [reflexivity|]. simpl in E. exact E.
Qed.

(** ** What a monitoring tool lets out *)

Lemma validation_classes_are_final (e : exn) :
  (isinstance e (Mon MonExn.TimeRangeError) = true -> exn_cls e = Mon MonExn.TimeRangeError)
  /\ (isinstance e (Mon MonExn.FilterError) = true -> exn_cls e = Mon MonExn.FilterError).
Proof.
  unfold isinstance. destruct (exn_cls e) as [[]|[]|[]|[]];
    split; intros H; try discriminate H; reflexivity.
Qed.

Lemma reraise_validation_lets_out {A} (what : string) (m : M mon A) (w : mon) :
  raises_only validation_or_wrapped (catch m (reraise_validation what) w).
Proof.
  unfold raises_only, catch, reraise_validation, validation_or_wrapped, wrapped.
  destruct (m w) as [[a|e] w']; simpl; [exact I|].
  destruct (isinstance e (Mon MonExn.TimeRangeError)) eqn:Et.
  { simpl. left. apply validation_classes_are_final, Et. }
  destruct (isinstance e (Mon MonExn.FilterError)) eqn:Ef.
  { simpl. right; left. apply validation_classes_are_final, Ef. }
  simpl. right; right. split; [reflexivity|eauto].
Qed.

Lemma wrap_validation_lets_out {A} (what : string) (m : M mon A) (w : mon) :
  raises_only wrapped (catch m (wrap_validation what) w).
Proof.
  unfold raises_only, catch, wrap_validation, wrapped.
  destruct (m w) as [[a|e] w']; simpl; [exact I|].
  destruct (isinstance e (Mon MonExn.TimeRangeError) || isinstance e (Mon MonExn.FilterError));
    simpl; split; eauto.
Qed.

(** X20: whatever the parameters and the world, an exception that leaves a
    monitoring tool is a [ToolExecutionError] with its cause attached or, in
    five of the tools, a [TimeRangeError] or a [FilterError]; the
    application-log, server-performance and application-performance tools
    let out nothing but the [ToolExecutionError]. *)
Theorem a_monitoring_tool_lets_out_only_its_own_errors (rt : runtime) (w : mon) :
  (forall system_name hours status,
     raises_only validation_or_wrapped (InterfaceLogsTool.execute rt system_name hours status w))
  /\ (forall job_name hours status,
        raises_only validation_or_wrapped (BatchLogsTool.execute rt job_name hours status w))
  /\ (forall service metric_type minutes threshold,
        raises_only validation_or_wrapped
          (CheckAPMTool.execute rt service metric_type minutes threshold w))
  /\ (forall service_name,
        raises_only validation_or_wrapped (ApiHealthCheckTool.execute rt service_name w))
  /\ (forall area minutes,
        raises_only validation_or_wrapped
          (ApplicationPerformanceInquiryTool.execute rt area minutes w))
  /\ (forall service minutes level pattern,
        raises_only wrapped (ApplicationLogsTool.execute rt service minutes level pattern w))
  /\ (forall node metric_type minutes,
        raises_only wrapped (ServerPerformanceTool.execute rt node metric_type minutes w))
  /\ (forall service endpoint minutes,
        raises_only wrapped (ApplicationPerformanceTool.execute rt service endpoint minutes w)).
Proof.
  repeat split; intros;
    first [apply reraise_validation_lets_out|apply wrap_validation_lets_out].
Qed.

(** ** A fixture that is missing, a fixture that is empty *)

Lemma load_missing (filepath : string) (w : mon) :
  DataLoader._cache (data_loader w) !! filepath = None ->
  files w (DataLoader.full_path (data_loader w) filepath) = Missing ->
  load (fun d => DataLoader.load_yaml d filepath true) w
  = (Raise (file_not_found (data_loader w) filepath), w).
Proof.
  intros Hc Hf. destruct w as [f l c u]. simpl in *.
  unfold load, DataLoader.load_yaml, catch, DataLoader.read_and_cache. simpl.
  rewrite Hc, Hf. reflexivity.
Qed.

Lemma load_empty (filepath : string) (data : pyval) (w : mon) :
  DataLoader._cache (data_loader w) !! filepath = None ->
  files w (DataLoader.full_path (data_loader w) filepath) = Loads data ->
  Py.truthy data = false ->
  load (fun d => DataLoader.load_yaml d filepath true) w
  = (Ok (PDict []), cached w filepath (PDict [])).
Proof.
  intros Hc Hf Ht. destruct w as [f l c u]. simpl in *.
  unfold load, DataLoader.load_yaml, catch, DataLoader.read_and_cache, cached. simpl.
  rewrite Hc, Hf. unfold Py.or_else. rewrite Ht. reflexivity.
Qed.

(** X21: with no file on disk and nothing cached, each of seven tools,
    called with valid parameters, raises the [ToolExecutionError] whose
    message is the tool's own prefix followed by the loader's [File not
    found] with the full path, and whose cause is the loader's
    [DataLoadError]; the world is as it was. *)
Theorem a_tool_without_its_fixture_fails_with_the_loaders_error (rt : runtime) (w : mon) :
  DataLoader._cache (data_loader w) = ∅ ->
  (forall path, files w path = Missing) ->
  (forall system_name hours status,
     0 <= hours ->
     InterfaceLogsTool.execute rt system_name hours status w
     = (Raise (failed_with "Failed to check interface logs"
                 (file_not_found (data_loader w) "logs/interface_logs.yaml")), w))
  /\ (forall job_name hours status,
        0 <= hours ->
        BatchLogsTool.execute rt job_name hours status w
        = (Raise (failed_with "Failed to check batch logs"
                    (file_not_found (data_loader w) "logs/batch_logs.yaml")), w))
  /\ (forall service minutes level pattern,
        0 <= minutes -> In level ApplicationLogsTool.valid_levels ->
        ApplicationLogsTool.execute rt service minutes level pattern w
        = (Raise (failed_with "Failed to check application logs"
                    (file_not_found (data_loader w) "logs/application_logs.yaml")), w))
  /\ (forall node metric_type minutes,
        0 <= minutes -> In metric_type ServerPerformanceTool.valid_types ->
        ServerPerformanceTool.execute rt node metric_type minutes w
        = (Raise (failed_with "Failed to view server performance"
                    (file_not_found (data_loader w) "performance/server_metrics.yaml")), w))
  /\ (forall service endpoint minutes,
        0 <= minutes ->
        ApplicationPerformanceTool.execute rt service endpoint minutes w
        = (Raise (failed_with "Failed to view application performance"
                    (file_not_found (data_loader w) "performance/apm_data.yaml")), w))
  /\ (forall service_name,
        ApiHealthCheckTool.execute rt service_name w
        = (Raise (failed_with "Failed to check API health"
                    (file_not_found (data_loader w) "health_checks/api_endpoints.yaml")), w))
  /\ (forall area minutes,
        0 <= minutes ->
        ApplicationPerformanceInquiryTool.execute rt area minutes w
        = (Raise (failed_with "Failed to query application performance"
                    (file_not_found (data_loader w) "performance/appl_area_metrics.yaml")), w)).
Proof.
  intros Hc Hf.
  assert (Hl : forall filepath,
             load (fun d => DataLoader.load_yaml d filepath true) w
             = (Raise (file_not_found (data_loader w) filepath), w)).
  { intros filepath. apply load_missing; [rewrite Hc; apply lookup_empty|apply Hf]. }
  repeat match goal with |- _ /\ _ => split end.
  - intros system_name hours status Hh. apply Z.ltb_ge in Hh.
    unfold InterfaceLogsTool.execute, catch. unfold mbind at 1, M_bind at 1.
    rewrite Hh. unfold mret at 1, M_ret at 1. unfold mbind at 1, M_bind at 1.
    unfold DataLoader.load_interface_logs. rewrite Hl. reflexivity.
  - intros job_name hours status Hh. apply Z.ltb_ge in Hh.
    unfold BatchLogsTool.execute, catch. unfold mbind at 1, M_bind at 1.
    rewrite Hh. unfold mret at 1, M_ret at 1. unfold mbind at 1, M_bind at 1.
    unfold DataLoader.load_batch_logs. rewrite Hl. reflexivity.
  - intros service minutes level pattern Hm Hin. apply Z.ltb_ge in Hm. apply among in Hin.
    unfold ApplicationLogsTool.execute, catch. unfold mbind at 1, M_bind at 1.
    rewrite Hm. unfold mret at 1, M_ret at 1. unfold mbind at 1, M_bind at 1.
    rewrite Hin. unfold negb, mret at 1, M_ret at 1. unfold mbind at 1, M_bind at 1.
    unfold DataLoader.load_application_logs. rewrite Hl. reflexivity.
  - intros node metric_type minutes Hm Hin. apply Z.ltb_ge in Hm. apply among in Hin.
    unfold ServerPerformanceTool.execute, catch. unfold mbind at 1, M_bind at 1.
    rewrite Hm. unfold mret at 1, M_ret at 1. unfold mbind at 1, M_bind at 1.
    rewrite Hin. unfold negb, mret at 1, M_ret at 1. unfold mbind at 1, M_bind at 1.
    unfold DataLoader.load_server_metrics. rewrite Hl. reflexivity.
  - intros service endpoint minutes Hm. apply Z.ltb_ge in Hm.
    unfold ApplicationPerformanceTool.execute, catch. unfold mbind at 1, M_bind at 1.
    rewrite Hm. unfold mret at 1, M_ret at 1. unfold mbind at 1, M_bind at 1.
    unfold DataLoader.load_apm_data. rewrite Hl. reflexivity.
  - intros service_name.
    unfold ApiHealthCheckTool.execute, catch. unfold mbind at 1, M_bind at 1.
    unfold DataLoader.load_health_check_data. rewrite Hl. reflexivity.
  - intros area minutes Hm. apply Z.ltb_ge in Hm.
    unfold ApplicationPerformanceInquiryTool.execute, catch. unfold mbind at 1, M_bind at 1.
    rewrite Hm. unfold mret at 1, M_ret at 1. unfold mbind at 1, M_bind at 1.
    unfold DataLoader.load_appl_area_metrics. rewrite Hl. reflexivity.
Qed.

Lemma a_tool_without_its_fixture_fails_with_the_loaders_error_witness :
  InterfaceLogsTool.execute still_runtime "all" 1 None (boot no_files)
  = (Raise (mon_execution_error
              "Failed to check interface logs: File not found: data/logs/interface_logs.yaml"
              (mon_error MonExn.DataLoadError
                 "File not found: data/logs/interface_logs.yaml" None)),
     boot no_files).
Proof.
  pose proof (a_tool_without_its_fixture_fails_with_the_loaders_error still_runtime
                (boot no_files) eq_refl (fun _ => eq_refl)) as H.
  destruct H as (Hi & _). apply (Hi "all" 1 None). lia.
Defined.

(** X22: a fixture file that loads as nothing (an empty file, or any other
    false value) gives an empty document rather than an error: SQL documents
    with [rowCount] 0 and no rows, and empty Prometheus vectors; the file is
    cached as the empty dict. *)
Theorem an_empty_fixture_gives_an_empty_document (rt : runtime) (w : mon) (data : pyval) :
  DataLoader._cache (data_loader w) = ∅ ->
  (forall path, files w path = Loads data) ->
  Py.truthy data = false ->
  (forall system_name hours status,
     0 <= hours ->
     InterfaceLogsTool.execute rt system_name hours status w
     = (Ok (json_dumps rt
              (PDict [("query", PStr "SELECT * FROM interface_logs ORDER BY timestamp DESC");
                      ("rowCount", PInt 0); ("rows", PList [])])),
        cached w "logs/interface_logs.yaml" (PDict [])))
  /\ (forall job_name hours status,
        0 <= hours ->
        BatchLogsTool.execute rt job_name hours status w
        = (Ok (json_dumps rt
                 (PDict [("query", PStr "SELECT * FROM batch_job_logs ORDER BY start_time DESC");
                         ("rowCount", PInt 0); ("rows", PList [])])),
           cached w "logs/batch_logs.yaml" (PDict [])))
  /\ (forall service_name,
        ApiHealthCheckTool.execute rt service_name w
        = (Ok (json_dumps rt (prom_vector [])),
           tick (cached w "health_checks/api_endpoints.yaml" (PDict []))))
  /\ (forall area minutes,
        0 <= minutes ->
        ApplicationPerformanceInquiryTool.execute rt area minutes w
        = (Ok (json_dumps rt (prom_vector [])),
           tick (cached w "performance/appl_area_metrics.yaml" (PDict [])))).
Proof.
  intros Hc Hf Ht.
  assert (Hl : forall filepath,
             load (fun d => DataLoader.load_yaml d filepath true) w
             = (Ok (PDict []), cached w filepath (PDict []))).
  { intros filepath. apply (load_empty filepath data);
      [rewrite Hc; apply lookup_empty|apply Hf|exact Ht]. }
  repeat match goal with |- _ /\ _ => split end.
  - intros system_name hours status Hh. apply Z.ltb_ge in Hh.
    unfold InterfaceLogsTool.execute, catch. unfold mbind at 1, M_bind at 1.
    rewrite Hh. unfold mret at 1, M_ret at 1. unfold mbind at 1, M_bind at 1.
    unfold DataLoader.load_interface_logs. rewrite Hl. reflexivity.
  - intros job_name hours status Hh. apply Z.ltb_ge in Hh.
    unfold BatchLogsTool.execute, catch. unfold mbind at 1, M_bind at 1.
    rewrite Hh. unfold mret at 1, M_ret at 1. unfold mbind at 1, M_bind at 1.
    unfold DataLoader.load_batch_logs. rewrite Hl. reflexivity.
  - intros service_name.
    unfold ApiHealthCheckTool.execute, catch. unfold mbind at 1, M_bind at 1.
    unfold DataLoader.load_health_check_data. rewrite Hl. reflexivity.
  - intros area minutes Hm. apply Z.ltb_ge in Hm.
    unfold ApplicationPerformanceInquiryTool.execute, catch. unfold mbind at 1, M_bind at 1.
    rewrite Hm. unfold mret at 1, M_ret at 1. unfold mbind at 1, M_bind at 1.
    unfold DataLoader.load_appl_area_metrics. rewrite Hl. reflexivity.
Qed.

Lemma an_empty_fixture_gives_an_empty_document_witness :
  let w := boot (fun _ => Loads PNone) in
  BatchLogsTool.execute still_runtime "all" 24 None w
  = (Ok (json_dumps still_runtime
           (PDict [("query", PStr "SELECT * FROM batch_job_logs ORDER BY start_time DESC");
                   ("rowCount", PInt 0); ("rows", PList [])])),
     cached w "logs/batch_logs.yaml" (PDict [])).
Proof.
  intros w.
  pose proof (an_empty_fixture_gives_an_empty_document still_runtime w PNone
                eq_refl (fun _ => eq_refl) eq_refl) as H.
  destruct H as (_ & Hb & _). apply (Hb "all" 24 None). lia.
Defined.

(** ** Rows and hits *)

(** X16: the SQL documents of the interface logs and of the batch jobs
    have one row for each record of the fixture and [rowCount] counts them;
    the Elasticsearch document of the application logs has one hit for each
    record and [hits.total.value] counts them. *)
Theorem sql_and_search_documents_count_their_records (rt : runtime) :
  (forall data r logs,
     Py.get data "interface_logs" (PList []) = Ok (PList logs) ->
     InterfaceLogsTool.response data = Ok r ->
     exists rows,
       r = PDict [("query", PStr "SELECT * FROM interface_logs ORDER BY timestamp DESC");
                  ("rowCount", PInt (Z.of_nat (length logs)));
                  ("rows", PList rows)]
       /\ length rows = length logs)
  /\ (forall data r jobs,
        Py.get data "batch_jobs" (PList []) = Ok (PList jobs) ->
        BatchLogsTool.response rt data = Ok r ->
        exists rows,
          r = PDict [("query", PStr "SELECT * FROM batch_job_logs ORDER BY start_time DESC");
                     ("rowCount", PInt (Z.of_nat (length jobs)));
                     ("rows", PList rows)]
          /\ length rows = length jobs)
  /\ (forall data r logs w w',
        Py.get data "application_logs" (PList []) = Ok (PList logs) ->
        ApplicationLogsTool.response rt data w = (Ok r, w') ->
        exists hits,
          Py.get r "hits" PNone
          = Ok (PDict [("total", PDict [("value", PInt (Z.of_nat (length logs)));
                                        ("relation", PStr "eq")]);
                       ("max_score", PNone);
                       ("hits", PList hits)])
          /\ length hits = length logs).
Proof.
  split; [|split].
  - apply interface_logs_one_row_per_record.
  - apply batch_logs_one_row_per_record.
  - apply application_logs_one_hit_per_record.
Qed.

Lemma sql_and_search_documents_count_their_records_witness :
  exists rows,
    returned (InterfaceLogsTool.response two_interface_logs)
    = PDict [("query", PStr "SELECT * FROM interface_logs ORDER BY timestamp DESC");
             ("rowCount", PInt 2);
             ("rows", PList rows)]
    /\ length rows = 2%nat.
Proof.
  destruct (sql_and_search_documents_count_their_records still_runtime) as (Hi & _).
  apply (Hi two_interface_logs (returned (InterfaceLogsTool.response two_interface_logs))
            [PDict [("id", PStr "if-1")]; PDict [("id", PStr "if-2")]]); reflexivity.
Defined.

(** ** The server report *)

Lemma cpu_result_adds_one (rt : runtime) (ts : Z) (acc : list pyval) (m : pyval)
    (out : list pyval) :
  ServerPerformanceTool.cpu_result rt ts acc m = Ok out ->
  length out = (length acc + 1)%nat.
Proof.
  unfold ServerPerformanceTool.cpu_result. intros H. run_binds H.
  inversion H; subst. rewrite List.length_app. reflexivity.
Qed.

Lemma memory_result_adds_one (rt : runtime) (ts : Z) (acc : list pyval) (m : pyval)
    (out : list pyval) :
  ServerPerformanceTool.memory_result rt ts acc m = Ok out ->
  length out = (length acc + 1)%nat.
Proof.
  unfold ServerPerformanceTool.memory_result. intros H. run_binds H.
  inversion H; subst. rewrite List.length_app. reflexivity.
Qed.

Lemma network_result_adds_two (rt : runtime) (ts : Z) (acc : list pyval) (m : pyval)
    (out : list pyval) :
  ServerPerformanceTool.network_result rt ts acc m = Ok out ->
  length out = (length acc + 2)%nat.
Proof.
  unfold ServerPerformanceTool.network_result. intros H. run_binds H.
  inversion H; subst. rewrite List.length_app. reflexivity.
Qed.

Lemma disk_results_count (rt : runtime) (ts : Z) (each : list pyval) :
  forall acc out,
    for_loop (ServerPerformanceTool.disk_result rt ts) each acc = Ok out ->
    length (fst out) = (length (fst acc) + length each)%nat
    /\ length (snd out) = (length (snd acc) + length each)%nat.
Proof.
  induction each as [|m l IH]; simpl; intros acc out H.
  - inversion H; subst. lia.
  - destruct (ServerPerformanceTool.disk_result rt ts acc m) as [acc'|] eqn:E;
      [|discriminate H].
    cbn [mbind result_bind] in H. apply IH in H.
    unfold ServerPerformanceTool.disk_result in E. run_binds E.
    inversion E; subst. simpl in H. rewrite !List.length_app in H. simpl in H. lia.
Qed.

(** X19: the server report for [all] has the four families [cpu_usage],
    [memory_usage], [disk_io] and [network], in this order, and the report
    for one metric type has that family only.  The CPU and memory families
    have one sample for each node of the fixture, the disk and network
    families two. *)
Theorem the_server_report_has_every_family_for_every_node
    (rt : runtime) (ts : Z) (data : pyval) (each : list pyval)
    (fams : list (string * pyval)) :
  (ms ← Py.get data "server_metrics" (PList []); Py.iter ms) = Ok each ->
  (ServerPerformanceTool.families rt "all" ts data = Ok fams ->
   exists cpu memory disk network,
     fams = [("cpu_usage", cpu); ("memory_usage", memory);
             ("disk_io", disk); ("network", network)]
     /\ family_of (length each) cpu
     /\ family_of (length each) memory
     /\ family_of (2 * length each) disk
     /\ family_of (2 * length each) network)
  /\ (ServerPerformanceTool.families rt "cpu" ts data = Ok fams ->
      exists cpu, fams = [("cpu_usage", cpu)] /\ family_of (length each) cpu)
  /\ (ServerPerformanceTool.families rt "memory" ts data = Ok fams ->
      exists memory, fams = [("memory_usage", memory)] /\ family_of (length each) memory)
  /\ (ServerPerformanceTool.families rt "disk_io" ts data = Ok fams ->
      exists disk, fams = [("disk_io", disk)] /\ family_of (2 * length each) disk)
  /\ (ServerPerformanceTool.families rt "network" ts data = Ok fams ->
      exists network, fams = [("network", network)] /\ family_of (2 * length each) network).
Proof.
  intros Hm.
  destruct (Py.get data "server_metrics" (PList [])) as [ms|] eqn:Eg; [|discriminate Hm].
  cbn [mbind result_bind] in Hm.
  unfold ServerPerformanceTool.families, family_of.
  rewrite Eg. cbn [mbind result_bind].
  unfold ServerPerformanceTool.families_of_metrics, ServerPerformanceTool.wants.
  rewrite Hm.
  repeat match goal with |- _ /\ _ => split end; simpl; intros H.
  - destruct (for_loop (ServerPerformanceTool.cpu_result rt ts) each []) as [c|] eqn:Ec;
      [|discriminate H].
    cbn [mbind result_bind] in H.
    destruct (for_loop (ServerPerformanceTool.memory_result rt ts) each []) as [m|] eqn:Em;
      [|discriminate H].
    cbn [mbind result_bind] in H.
    destruct (for_loop (ServerPerformanceTool.disk_result rt ts) each ([], []))
      as [[r wr]|] eqn:Ed; [|discriminate H].
    cbn [mbind result_bind] in H.
    destruct (for_loop (ServerPerformanceTool.network_result rt ts) each []) as [n|] eqn:En;
      [|discriminate H].
    cbn [mbind result_bind] in H. inversion H; subst.
    apply (for_loop_length _ 1 (cpu_result_adds_one rt ts)) in Ec.
    apply (for_loop_length _ 1 (memory_result_adds_one rt ts)) in Em.
    apply (for_loop_length _ 2 (network_result_adds_two rt ts)) in En.
    apply disk_results_count in Ed. simpl in Ec, Em, En, Ed.
    do 4 eexists. split; [reflexivity|].
    repeat split; do 2 eexists; (split; [reflexivity|]);
      rewrite ?List.length_app; simpl; lia.
  - destruct (for_loop (ServerPerformanceTool.cpu_result rt ts) each []) as [c|] eqn:Ec;
      [|discriminate H].
    cbn [mbind result_bind] in H. inversion H; subst.
    apply (for_loop_length _ 1 (cpu_result_adds_one rt ts)) in Ec. simpl in Ec.
    eexists. split; [reflexivity|]. do 2 eexists. split; [reflexivity|lia].
  - destruct (for_loop (ServerPerformanceTool.memory_result rt ts) each []) as [m|] eqn:Em;
      [|discriminate H].
    cbn [mbind result_bind] in H. inversion H; subst.
    apply (for_loop_length _ 1 (memory_result_adds_one rt ts)) in Em. simpl in Em.
    eexists. split; [reflexivity|]. do 2 eexists. split; [reflexivity|lia].
  - destruct (for_loop (ServerPerformanceTool.disk_result rt ts) each ([], []))
      as [[r wr]|] eqn:Ed; [|discriminate H].
    cbn [mbind result_bind] in H. inversion H; subst.
    apply disk_results_count in Ed. simpl in Ed.
    eexists. split; [reflexivity|]. do 2 eexists. split; [reflexivity|].
    rewrite List.length_app. simpl. lia.
  - destruct (for_loop (ServerPerformanceTool.network_result rt ts) each []) as [n|] eqn:En;
      [|discriminate H].
    cbn [mbind result_bind] in H. inversion H; subst.
    apply (for_loop_length _ 2 (network_result_adds_two rt ts)) in En. simpl in En.
    eexists. split; [reflexivity|]. do 2 eexists. split; [reflexivity|lia].
Qed.

Lemma the_server_report_has_every_family_for_every_node_witness :
  let data := PDict [("server_metrics", PList two_nodes)] in
  exists cpu memory disk network,
    families_of (ServerPerformanceTool.families still_runtime "all" 0 data)
    = [("cpu_usage", cpu); ("memory_usage", memory); ("disk_io", disk); ("network", network)]
    /\ family_of 2 cpu /\ family_of 2 memory /\ family_of 4 disk /\ family_of 4 network.
Proof.
  intros data.
  destruct (the_server_report_has_every_family_for_every_node still_runtime 0 data two_nodes
              (families_of (ServerPerformanceTool.families still_runtime "all" 0 data))
              eq_refl) as (Hall & _).
  apply Hall. reflexivity.
Defined.

(** * Properties of the helpers *)

(** ** Durations *)

(** X25: [format_duration] of [h] hours, [m] minutes and [s] seconds, with
    [m] and [s] below sixty, shows the hours, the minutes and the seconds
    that are not zero, in this order and separated by spaces; seconds of zero
    are shown when there is nothing else.  The text is never empty. *)
Theorem format_duration_shows_the_components_that_are_not_zero (h m s : Z) :
  0 <= h -> 0 <= m < 60 -> 0 <= s < 60 ->
  helpers.format_duration (Some (3600 * h + 60 * m + s)) = join " " (duration_parts h m s)
  /\ duration_parts h m s <> [].
Proof.
  intros Hh Hm Hs. unfold helpers.format_duration, duration_parts.
  assert (E1 : (3600 * h + 60 * m + s) / 3600 = h).
  { symmetry. apply (Z.div_unique _ _ h (60 * m + s)); lia. }
  assert (E2 : (3600 * h + 60 * m + s) mod 3600 = 60 * m + s).
  { symmetry. apply (Z.mod_unique _ _ h (60 * m + s)); lia. }
  assert (E3 : (60 * m + s) / 60 = m).
  { symmetry. apply (Z.div_unique _ _ m s); lia. }
  assert (E4 : (3600 * h + 60 * m + s) mod 60 = s).
  { symmetry. apply (Z.mod_unique _ _ (60 * h + m) s); lia. }
  rewrite E1, E2, E3, E4. cbv zeta.
  assert (Ez : ((h =? 0)%Z && (m =? 0)%Z) = negb (0 <? h)%Z && negb (0 <? m)%Z).
  { destruct (Z.eqb_spec h 0), (Z.eqb_spec m 0), (Z.ltb_spec 0 h), (Z.ltb_spec 0 m);
      simpl; try reflexivity; lia. }
  rewrite Ez.
  destruct (0 <? h)%Z; destruct (0 <? m)%Z; cbn [app negb andb];
    rewrite ?orb_false_r, ?orb_true_r;
    (split; [destruct (0 <? s)%Z; reflexivity|destruct (0 <? s)%Z; discriminate]).
Qed.

Lemma format_duration_shows_the_components_that_are_not_zero_witness :
  helpers.format_duration (Some 9045) = "2h 30m 45s"
  /\ duration_parts 2 30 45 <> [].
Proof.
  apply (format_duration_shows_the_components_that_are_not_zero 2 30 45); lia.
Defined.

(** X26: a negative duration is formatted as its remainder modulo one
    hour: the floor division makes the hours negative, so they are never
    shown, while minutes and seconds are those of the remainder. *)
Theorem format_duration_of_a_negative_duration_drops_the_hours (seconds : Z) :
  seconds < 0 ->
  helpers.format_duration (Some seconds)
  = helpers.format_duration (Some (seconds mod 3600)).
Proof.
  intros Hn. unfold helpers.format_duration.
  pose proof (Z.mod_pos_bound seconds 3600 ltac:(lia)) as Hb.
  assert (Eh : (0 <? seconds / 3600)%Z = false).
  { apply Z.ltb_ge. pose proof (Z.div_lt_upper_bound seconds 3600 0 ltac:(lia) ltac:(lia)). lia. }
  assert (Eh' : (seconds mod 3600) / 3600 = 0) by (apply Z.div_small; lia).
  assert (Em : (seconds mod 3600) mod 3600 = seconds mod 3600) by (apply Z.mod_small; lia).
  assert (Es : (seconds mod 3600) mod 60 = seconds mod 60).
  { rewrite (Z.mod_eq seconds 3600) by lia.
    replace (seconds - 3600 * (seconds / 3600)) with (seconds + (- 60 * (seconds / 3600)) * 60)
      by lia.
    apply Z.mod_add. lia. }
  rewrite Eh, Eh', Em, Es. reflexivity.
Qed.

Lemma format_duration_of_a_negative_duration_drops_the_hours_witness :
  helpers.format_duration (Some (-1)) = "59m 59s".
Proof.
  apply (format_duration_of_a_negative_duration_drops_the_hours (-1)). lia.
Defined.

(** ** Filtering by status *)

Lemma filter_by_status_from (status : string) (items : list pyval) :
  forall kept out,
    for_loop (fun kept item =>
                s ← Py.get_opt item "status";
                Ok (if Py.eq_str s status then (kept ++ [item])%list else kept))
             items kept = Ok out ->
    exists found,
      out = (kept ++ found)%list
      /\ sublist found items
      /\ Forall (fun item => exists s, Py.get_opt item "status" = Ok s
                                       /\ Py.eq_str s status = true) found
      /\ (forall item s, In item items -> Py.get_opt item "status" = Ok s ->
                         Py.eq_str s status = true -> In item found)
      /\ for_loop (fun kept item =>
                     s ← Py.get_opt item "status";
                     Ok (if Py.eq_str s status then (kept ++ [item])%list else kept))
                  found kept = Ok out.
Proof.
  induction items as [|x items IH]; simpl; intros kept out H.
  - inversion H; subst. exists []. rewrite app_nil_r.
    repeat split; try constructor. intros item s [].
  - destruct (Py.get_opt x "status") as [s|] eqn:Es; [|discriminate H].
    cbn [mbind result_bind] in H.
    destruct (Py.eq_str s status) eqn:Eq.
    + apply IH in H as (found & -> & Hsub & Hall & Hin & Hagain).
      exists (x :: found). rewrite <- app_assoc. split; [reflexivity|].
      split; [constructor; exact Hsub|].
      split; [constructor; [eauto|exact Hall]|].
      split.
      * intros item s' [<-|Hi] Hg He; [left; reflexivity|right; eauto].
      * simpl. rewrite Es. cbn [mbind result_bind]. rewrite Eq.
        rewrite <- app_assoc in Hagain. exact Hagain.
    + apply IH in H as (found & -> & Hsub & Hall & Hin & Hagain).
      exists found. split; [reflexivity|].
      split; [apply sublist_cons; exact Hsub|].
      split; [exact Hall|].
      split; [|exact Hagain].
      intros item s' [<-|Hi] Hg He; [congruence|eauto].
Qed.

(** X23: [filter_by_status] with a status keeps, in their order, exactly
    the items whose [status] equals it: what it returns is a sublist of the
    items, every item of it has that status, no item with that status is
    left out, and filtering the result again changes nothing.  Without a
    status it returns the items as they are. *)
Theorem filter_by_status_keeps_exactly_the_items_of_that_status
    (items : list pyval) (status : string) (out : list pyval) :
  helpers.filter_by_status items (Some status) = Ok out ->
  sublist out items
  /\ (forall item, In item out ->
                   exists s, Py.get_opt item "status" = Ok s /\ Py.eq_str s status = true)
  /\ (forall item s, In item items -> Py.get_opt item "status" = Ok s ->
                     Py.eq_str s status = true -> In item out)
  /\ helpers.filter_by_status out (Some status) = Ok out
  /\ helpers.filter_by_status items None = Ok items.
Proof.
  unfold helpers.filter_by_status. intros H.
  apply filter_by_status_from in H as (found & -> & Hsub & Hall & Hin & Hagain).
  simpl in *. repeat split; try assumption.
  intros item Hi. rewrite Forall_forall in Hall. apply Hall.
  apply list_elem_of_In. exact Hi.
Qed.

Lemma filter_by_status_keeps_exactly_the_items_of_that_status_witness :
  let failed := PDict [("job", PStr "sync"); ("status", PStr "FAILED")] in
  let items := [PDict [("job", PStr "export"); ("status", PStr "SUCCESS")]; failed;
                PDict [("job", PStr "report")]] in
  sublist [failed] items
  /\ (forall item, In item [failed] ->
                   exists s, Py.get_opt item "status" = Ok s /\ Py.eq_str s "FAILED" = true)
  /\ (forall item s, In item items -> Py.get_opt item "status" = Ok s ->
                     Py.eq_str s "FAILED" = true -> In item [failed])
  /\ helpers.filter_by_status [failed] (Some "FAILED") = Ok [failed]
  /\ helpers.filter_by_status items None = Ok items.
Proof.
  intros failed items.
  apply (filter_by_status_keeps_exactly_the_items_of_that_status items "FAILED" [failed]).
  reflexivity.
Defined.

(** ** Summaries *)

Lemma enumerated_length (rt : runtime) (items : list pyval) :
  forall i, length (helpers.enumerated rt i items) = length items.
Proof. induction items as [|x l IH]; simpl; intros i; [reflexivity|]. now rewrite IH. Qed.

Lemma enumerated_nth (rt : runtime) (items : list pyval) :
  forall i k x,
    nth_error items k = Some x ->
    nth_error (helpers.enumerated rt i items) k
    = Some (pretty (i + Z.of_nat k) +:+ ". " +:+ to_str rt x).
Proof.
  induction items as [|y l IH]; intros i k x H.
  - destruct k; discriminate H.
  - destruct k as [|k]; simpl in H |- *.
    + inversion H; subst. rewrite Z.add_0_r. reflexivity.
    + rewrite (IH (i + 1) k x H). do 3 f_equal. lia.
Qed.

(** X24: the lines of [summarize_list] for a limit that is not negative.
    Line [k], counted from 1, is [k. <item k>] for each of the first
    [min(max_items, len(items))] items.  When the items are no more than the
    limit there is nothing else; otherwise exactly one more line follows,
    which counts the items not shown.  The summary is these lines joined by
    line feeds, and for no items it is the text [No items found.]. *)
Theorem summarize_list_numbers_the_first_items_and_counts_the_rest
    (rt : runtime) (items : list pyval) (max_items : Z) :
  0 <= max_items ->
  let shown := Z.to_nat (Z.min max_items (Z.of_nat (length items))) in
  let lines := helpers.summary_lines rt items max_items in
  (forall k x, (k < shown)%nat -> nth_error items k = Some x ->
               nth_error lines k
               = Some (pretty (Z.of_nat k + 1) +:+ ". " +:+ to_str rt x))
  /\ (Z.of_nat (length items) <= max_items -> length lines = length items)
  /\ (max_items < Z.of_nat (length items) ->
      length lines = S shown
      /\ nth_error lines shown
         = Some ("... and " +:+ pretty (Z.of_nat (length items) - max_items) +:+ " more"))
  /\ (items <> [] -> helpers.summarize_list rt items max_items = join nl lines)
  /\ helpers.summarize_list rt [] max_items = "No items found.".
Proof.
  intros Hm shown lines. subst shown lines. unfold helpers.summary_lines, helpers.slice_to.
  assert (Hn : (max_items <? 0)%Z = false) by (apply Z.ltb_ge; lia).
  rewrite Hn.
  set (n := Z.to_nat (Z.min max_items (Z.of_nat (length items)))).
  assert (Hlen : length (helpers.enumerated rt 1 (firstn n items)) = n).
  { rewrite enumerated_length, List.length_firstn. subst n. lia. }
  split; [|split; [|split; [|split]]].
  - intros k x Hk Hx.
    assert (Hf : nth_error (firstn n items) k = Some x).
    { rewrite nth_error_firstn. destruct (Nat.ltb_spec k n); [exact Hx|lia]. }
    pose proof (enumerated_nth rt (firstn n items) 1 k x Hf) as He.
    replace (1 + Z.of_nat k) with (Z.of_nat k + 1) in He by lia.
    destruct (Z.of_nat (length items) >? max_items)%Z.
    + rewrite nth_error_app1 by (rewrite Hlen; exact Hk). exact He.
    + exact He.
  - intros Hle. destruct (Z.gtb_spec (Z.of_nat (length items)) max_items); [lia|].
    rewrite Hlen. subst n. lia.
  - intros Hlt. destruct (Z.gtb_spec (Z.of_nat (length items)) max_items); [|lia].
    split.
    + rewrite List.length_app, Hlen. simpl. lia.
    + rewrite nth_error_app2 by (rewrite Hlen; lia). rewrite Hlen, Nat.sub_diag. reflexivity.
  - intros Hne. destruct items as [|x items]; [congruence|].
    unfold helpers.summarize_list, helpers.summary_lines, helpers.slice_to.
    rewrite Hn. reflexivity.
  - reflexivity.
Qed.

Lemma summarize_list_numbers_the_first_items_and_counts_the_rest_witness :
  let items := [PStr "cpu"; PStr "memory"; PStr "disk"] in
  let lines := helpers.summary_lines still_runtime items 2 in
  (forall k x, (k < 2)%nat -> nth_error items k = Some x ->
               nth_error lines k
               = Some (pretty (Z.of_nat k + 1) +:+ ". " +:+ to_str still_runtime x))
  /\ (3 <= 2 -> length lines = 3%nat)
  /\ (2 < 3 ->
      length lines = 3%nat
      /\ nth_error lines 2 = Some "... and 1 more")
  /\ (items <> [] -> helpers.summarize_list still_runtime items 2 = join nl lines)
  /\ helpers.summarize_list still_runtime [] 2 = "No items found.".
Proof.
  intros items lines.
  apply (summarize_list_numbers_the_first_items_and_counts_the_rest still_runtime items 2).
  lia.
Defined.

(** ** Statistics *)

Lemma sorted_nth (l : list Z) :
  StronglySorted Z.le l ->
  forall i j, (i <= j < length l)%nat -> nth i l 0 <= nth j l 0.
Proof.
  induction 1 as [|a l Hs IH Ha]; intros i j Hij; simpl in Hij; [lia|].
  destruct i as [|i], j as [|j]; simpl; try lia.
  - rewrite Forall_forall in Ha. apply Ha. apply list_elem_of_In, nth_In. lia.
  - apply IH. lia.
Qed.

Lemma sum_permutation (l1 l2 : list Z) :
  l1 ≡ₚ l2 -> foldr Z.add 0 l1 = foldr Z.add 0 l2.
Proof. induction 1; simpl; lia. Qed.

Lemma item_in_range (l : list Z) (i : Z) :
  0 <= i < Z.of_nat (length l) -> helpers.item l i = Ok (nth (Z.to_nat i) l 0).
Proof.
  intros Hi. unfold helpers.item.
  destruct (Z.ltb_spec i 0); [lia|].
  destruct (Z.leb_spec 0 i); [|lia].
  destruct (Z.ltb_spec i (Z.of_nat (length l))); [reflexivity|lia].
Qed.

Lemma item_last (l : list Z) :
  l <> [] -> helpers.item l (-1) = Ok (nth (length l - 1) l 0).
Proof.
  intros Hne. unfold helpers.item.
  assert (0 < length l)%nat by (destruct l; [congruence|simpl; lia]).
  change (-1 <? 0)%Z with true. cbv iota.
  destruct (Z.leb_spec 0 (-1 + Z.of_nat (length l))); [|lia].
  destruct (Z.ltb_spec (-1 + Z.of_nat (length l)) (Z.of_nat (length l))); [|lia].
  simpl. do 2 f_equal. lia.
Qed.

(** X27: [calculate_statistics] of integers that are there: the minimum,
    the maximum and the median it reports are members of the list, every
    member lies between the minimum and the maximum, so does the median, and
    the average is the sum of the values divided by their number, in
    whatever order the values came. *)
Theorem calculate_statistics_orders_what_it_reports (values : list Z) :
  values <> [] ->
  exists lo hi med,
    In lo values /\ In hi values /\ In med values
    /\ (forall x, In x values -> lo <= x <= hi)
    /\ lo <= med <= hi
    /\ helpers.calculate_statistics values
       = (avg ← Py.int_truediv (foldr Z.add 0 values) (Z.of_nat (length values));
          Ok [("min", PInt lo); ("max", PInt hi); ("avg", PFloat avg);
              ("median", PInt med)]).
Proof.
  intros Hne.
  set (s := merge_sort Z.le values).
  assert (Hp : s ≡ₚ values) by apply merge_sort_Permutation.
  assert (Hs : StronglySorted Z.le s) by (apply StronglySorted_merge_sort; apply _).
  assert (Hl : length s = length values) by (apply Permutation_length; exact Hp).
  assert (Hpos : (0 < length s)%nat).
  { rewrite Hl. destruct values; [congruence|simpl; lia]. }
  assert (Hhalf : 0 <= Z.of_nat (length s) / 2 < Z.of_nat (length s)).
  { split; [apply Z.div_pos; lia|apply Z.div_lt_upper_bound; lia]. }
  assert (Hin : forall k, (k < length s)%nat -> In (nth k s 0) values).
  { intros k Hk. apply list_elem_of_In. rewrite <- Hp. apply list_elem_of_In, nth_In, Hk. }
  exists (nth 0 s 0), (nth (length s - 1) s 0), (nth (Z.to_nat (Z.of_nat (length s) / 2)) s 0).
  split; [apply Hin; lia|]. split; [apply Hin; lia|]. split; [apply Hin; lia|].
  split.
  { intros x Hx.
    assert (Hx' : In x s) by (apply list_elem_of_In; rewrite Hp; apply list_elem_of_In, Hx).
    destruct (In_nth s x 0 Hx') as (k & Hk & <-).
    split; apply sorted_nth; try exact Hs; lia. }
  split.
  { split; apply sorted_nth; try exact Hs; lia. }
  unfold helpers.calculate_statistics. destruct values as [|v values]; [congruence|].
  fold s. cbv zeta.
  rewrite (item_in_range s 0) by lia. cbn [mbind result_bind].
  rewrite (item_last s) by (intros E; rewrite E in Hpos; simpl in Hpos; lia).
  cbn [mbind result_bind].
  rewrite (sum_permutation s (v :: values) Hp), Hl.
  destruct (Py.int_truediv _ _) as [avg|e]; [|reflexivity].
  cbn [mbind result_bind]. rewrite <- Hl.
  rewrite (item_in_range s _ Hhalf). reflexivity.
Qed.

Lemma calculate_statistics_orders_what_it_reports_witness :
  exists lo hi med,
    In lo [40; 10; 30; 20] /\ In hi [40; 10; 30; 20] /\ In med [40; 10; 30; 20]
    /\ (forall x, In x [40; 10; 30; 20] -> lo <= x <= hi)
    /\ lo <= med <= hi
    /\ helpers.calculate_statistics [40; 10; 30; 20]
       = (avg ← Py.int_truediv 100 4;
          Ok [("min", PInt lo); ("max", PInt hi); ("avg", PFloat avg);
              ("median", PInt med)]).
Proof.
  apply (calculate_statistics_orders_what_it_reports [40; 10; 30; 20]). discriminate.
Defined.

(** * Properties of the settings *)

(** ** Reading a setting *)

Lemma get_from_never_none (keys : list string) :
  forall value otherwise,
    otherwise <> PNone -> Settings.get_from keys value otherwise <> PNone.
Proof.
  induction keys as [|key keys IH]; simpl; intros value otherwise Hd.
  - destruct value; congruence.
  - destruct value; try exact Hd.
    destruct (default PNone (Py.lookup key d)) eqn:E; try exact Hd; apply IH; exact Hd.
Qed.

(** X28: [Settings.get] with a default that is not [None] never returns
    [None]: whatever the configuration holds and whatever the path, also a
    path through a value that is not a mapping or to a key set to null.  So
    none of the twenty-one accessors of [Settings], which all pass a
    default, returns [None]. *)
Theorem a_setting_read_with_a_default_is_never_none
    (config : pyval) (path : string) (otherwise : pyval) :
  otherwise <> PNone ->
  Settings.get config path otherwise <> PNone
  /\ forall self read, In read accessors -> read self <> PNone.
Proof.
  intros Hd. split; [apply get_from_never_none; exact Hd|].
  intros self read Hin. unfold accessors in Hin.
  repeat (destruct Hin as [<-|Hin]; [apply get_from_never_none; discriminate|]).
  destruct Hin.
Qed.

Lemma a_setting_read_with_a_default_is_never_none_witness :
  Settings.get port_and_null_level "server.log_level" (PStr "INFO") <> PNone
  /\ forall self read, In read accessors -> read self <> PNone.
Proof.
  apply (a_setting_read_with_a_default_is_never_none port_and_null_level
           "server.log_level" (PStr "INFO")).
  discriminate.
Defined.

(** ** Filling in the defaults *)

Lemma lookup_store_same (k : string) (v : pyval) (d : list (string * pyval)) :
  Py.lookup k (Py.store k v d) = Some v.
Proof.
  induction d as [|[k0 v0] d IH]; simpl.
  - rewrite String.eqb_refl. reflexivity.
  - destruct (String.eqb_spec k k0) as [->|Hne]; simpl.
    + rewrite String.eqb_refl. reflexivity.
    + destruct (String.eqb_spec k k0); [contradiction|exact IH].
Qed.

Lemma ensure_section_dict (c : list (string * pyval)) (name : string) :
  exists c', Settings.ensure_section (PDict c) name = Ok (PDict c')
             /\ forall s k, look c' s k = look c s k.
Proof.
  unfold Settings.ensure_section. simpl.
  destruct (Py.lookup name c) as [v|] eqn:E; simpl.
  - exists c. auto.
  - eexists. split; [reflexivity|]. intros s k. unfold look.
    destruct (String.eqb_spec s name) as [->|Hne].
    + rewrite lookup_store_same, E. reflexivity.
    + rewrite lookup_store_other by exact Hne. reflexivity.
Qed.

Lemma ensure_sections_dict (names : list string) :
  forall c, exists c', for_loop Settings.ensure_section names (PDict c) = Ok (PDict c')
                       /\ forall s k, look c' s k = look c s k.
Proof.
  induction names as [|name names IH]; intros c; simpl.
  - exists c. auto.
  - destruct (ensure_section_dict c name) as (c1 & -> & H1).
    cbn [mbind result_bind]. destruct (IH c1) as (c2 & -> & H2).
    exists c2. split; [reflexivity|]. intros s k. rewrite H2. apply H1.
Qed.

Lemma setdefault_dict (c : list (string * pyval)) (s0 k0 : string) (v0 config' : pyval) :
  Settings.setdefault (PDict c) (s0, k0, v0) = Ok config' ->
  exists c', config' = PDict c'
             /\ forall s k,
                  look c' s k
                  = match look c s k with
                    | Some u => Some u
                    | None => if String.eqb s s0 && String.eqb k k0 then Some v0 else None
                    end.
Proof.
  unfold Settings.setdefault. simpl.
  destruct (Py.lookup s0 c) as [sv|] eqn:Es; simpl; [|intros H; discriminate H].
  destruct sv as [| | | | | |d]; try (intros H; discriminate H).
  destruct (Py.lookup k0 d) as [u|] eqn:Ek.
  - intros [= <-]. exists c. split; [reflexivity|]. intros s k.
    destruct (look c s k) as [u'|] eqn:El; [reflexivity|].
    destruct (String.eqb_spec s s0) as [->|]; [|reflexivity].
    destruct (String.eqb_spec k k0) as [->|]; [|reflexivity].
    unfold look in El. rewrite Es, Ek in El. discriminate El.
  - simpl. intros [= <-]. eexists. split; [reflexivity|]. intros s k. unfold look.
    destruct (String.eqb_spec s s0) as [->|Hs].
    + rewrite lookup_store_same, Es.
      destruct (String.eqb_spec k k0) as [->|Hk].
      * rewrite lookup_store_same, Ek. reflexivity.
      * rewrite lookup_store_other by exact Hk.
        destruct (Py.lookup k d); reflexivity.
    + rewrite lookup_store_other by exact Hs. simpl.
      destruct (Py.lookup s c) as [[| | | | | |d']|]; try reflexivity.
      destruct (Py.lookup k d'); reflexivity.
Qed.

Lemma setdefaults_dict (l : list (string * string * pyval)) :
  forall c config',
    for_loop Settings.setdefault l (PDict c) = Ok config' ->
    exists c', config' = PDict c'
               /\ forall s k,
                    look c' s k
                    = match look c s k with
                      | Some u => Some u
                      | None => first_default l s k
                      end.
Proof.
  induction l as [|[[s0 k0] v0] l IH]; cbn [for_loop first_default]; intros c config' H.
  - inversion H; subst. exists c. split; [reflexivity|].
    intros s k. destruct (look c s k); reflexivity.
  - destruct (Settings.setdefault (PDict c) (s0, k0, v0)) as [c1|] eqn:E1;
      [|discriminate H].
    cbn [mbind result_bind] in H.
    apply setdefault_dict in E1 as (c1' & -> & H1).
    apply IH in H as (c2 & -> & H2).
    exists c2. split; [reflexivity|]. intros s k. rewrite H2, H1.
    destruct (look c s k); [reflexivity|].
    destruct (String.eqb s s0 && String.eqb k k0); reflexivity.
Qed.

Lemma ensure_sections_keep_text (names : list string) (config out : pyval) :
  (forall c, config <> PDict c) ->
  for_loop Settings.ensure_section names config = Ok out -> out = config.
Proof.
  intros Hn. induction names as [|name names IH]; simpl; intros H.
  - inversion H; reflexivity.
  - destruct (Settings.ensure_section config name) as [c1|] eqn:E; [|discriminate H].
    cbn [mbind result_bind] in H.
    assert (c1 = config).
    { unfold Settings.ensure_section in E.
      destruct (Py.contains_str name config) as [b|]; [|discriminate E].
      cbn [mbind result_bind] in E. destruct b; simpl in E; [inversion E; reflexivity|].
      destruct config; try discriminate E. exfalso. eapply Hn. reflexivity. }
    subst c1. apply IH, H.
Qed.

Lemma initialize_defaults_needs_a_mapping (config config' : pyval) :
  Settings._initialize_defaults config = Ok config' -> exists c, config = PDict c.
Proof.
  unfold Settings._initialize_defaults. intros H.
  destruct config as [| | | | | |c]; try discriminate H; [| |eauto].
  - destruct (for_loop Settings.ensure_section Settings.sections (PStr s)) as [out|] eqn:E;
      [|discriminate H].
    apply ensure_sections_keep_text in E; [|discriminate]. subst out. discriminate H.
  - destruct (for_loop Settings.ensure_section Settings.sections (PList l)) as [out|] eqn:E;
      [|discriminate H].
    apply ensure_sections_keep_text in E; [|discriminate]. subst out. discriminate H.
Qed.

Lemma get_of_a_section_key (c : list (string * pyval)) (section key : string)
    (otherwise : pyval) :
  Str.split "." (section +:+ "." +:+ key) = [section; key] ->
  Settings.get (PDict c) (section +:+ "." +:+ key) otherwise
  = match look c section key with
    | Some PNone | None => otherwise
    | Some u => u
    end.
Proof.
  intros Hs. unfold Settings.get. rewrite Hs. unfold look. simpl.
  destruct (Py.lookup section c) as [[| | | | | |d]|]; simpl; try reflexivity.
  destruct (Py.lookup key d) as [[| | | | | |]|]; reflexivity.
Qed.

Lemma defaults_are_paths (section key : string) (value : pyval) :
  In (section, key, value) Settings.defaults ->
  Str.split "." (section +:+ "." +:+ key) = [section; key]
  /\ first_default Settings.defaults section key = Some value
  /\ value <> PNone.
Proof.
  unfold Settings.defaults. intros H.
  repeat (destruct H as [H|H];
          [inversion H; subst; split; [reflexivity|split; [reflexivity|discriminate]]|]).
  destruct H.
Qed.

(** X29: after [_initialize_defaults] has succeeded, reading one of the
    twenty-two defaulted keys gives: the value of the file when the file
    sets one; the fallback of the reader when the file sets the key to null;
    and the built-in default, whatever the fallback, when the file leaves the
    key out. *)
Theorem the_defaults_fill_only_what_the_file_leaves_out
    (config config' : pyval) (section key : string) (value otherwise : pyval) :
  In (section, key, value) Settings.defaults ->
  Settings._initialize_defaults config = Ok config' ->
  Settings.get config' (section +:+ "." +:+ key) otherwise
  = match file_sets config section key with
    | Some PNone => otherwise
    | Some u => u
    | None => value
    end.
Proof.
  intros Hin H.
  destruct (defaults_are_paths section key value Hin) as (Hs & Hf & Hv).
  destruct (initialize_defaults_needs_a_mapping config config' H) as [c ->].
  unfold Settings._initialize_defaults in H.
  destruct (ensure_sections_dict Settings.sections c) as (c1 & E1 & H1).
  rewrite E1 in H. cbn [mbind result_bind] in H.
  apply setdefaults_dict in H as (c2 & -> & H2).
  rewrite (get_of_a_section_key c2 section key otherwise Hs).
  rewrite H2, H1. unfold file_sets.
  destruct (look c section key) as [u|]; [reflexivity|].
  rewrite Hf. destruct value; try reflexivity. congruence.
Qed.

Lemma the_defaults_fill_only_what_the_file_leaves_out_witness :
  let config' := returned (Settings._initialize_defaults port_and_null_level) in
  Settings.get config' "server.port" (PInt 8000) = PInt 9000
  /\ Settings.get config' "server.log_level" (PStr "INFO") = PStr "INFO"
  /\ Settings.get config' "data.base_path" PNone = PStr "data".
Proof.
  intros config'. split; [|split].
  - apply (the_defaults_fill_only_what_the_file_leaves_out port_and_null_level config'
             "server" "port" (PInt 8000) (PInt 8000)); [simpl; tauto|reflexivity].
  - apply (the_defaults_fill_only_what_the_file_leaves_out port_and_null_level config'
             "server" "log_level" (PStr "INFO") (PStr "INFO")); [simpl; tauto|reflexivity].
  - apply (the_defaults_fill_only_what_the_file_leaves_out port_and_null_level config'
             "data" "base_path" (PStr "data") PNone); [simpl; tauto|reflexivity].
Defined.

(** ** Finding the configuration file *)

(** X30: [_find_config] returns a path that exists or the name
    [config.yaml].  A path that is given, not empty and exists is the one
    returned; otherwise [config.yaml] of the working directory comes first
    when it exists.  When what is returned does not exist, [_load_config]
    gives the empty configuration instead of raising. *)
Theorem find_config_returns_a_file_that_exists_or_the_default_name
    (d : disk) (home_config : string) (config_path : option string) :
  let found := Settings._find_config d home_config config_path in
  (Settings.file_exists d found = true \/ found = "config.yaml")
  /\ (forall path, config_path = Some path -> path <> "" ->
                   Settings.file_exists d path = true -> found = path)
  /\ (Settings.file_exists d "config.yaml" = true ->
      (forall path, config_path = Some path -> Settings.file_exists d path = false) ->
      found = "config.yaml")
  /\ (Settings.file_exists d found = false ->
      Settings._load_config d found = Ok (PDict [])).
Proof.
  intros found. subst found. unfold Settings._find_config.
  set (standard :=
         match List.find (Settings.file_exists d)
                 ["config.yaml"; home_config; "/etc/monitoring-mcp/config.yaml"] with
         | Some location => location
         | None => if Settings.file_exists d "config.yaml.example"
                   then "config.yaml.example" else "config.yaml"
         end).
  assert (Hstd : Settings.file_exists d standard = true \/ standard = "config.yaml").
  { subst standard.
    destruct (List.find _ _) as [location|] eqn:Ef.
    - left. apply List.find_some in Ef. tauto.
    - destruct (Settings.file_exists d "config.yaml.example") eqn:Ee; auto. }
  assert (Hload : forall p, Settings.file_exists d p = false ->
                            Settings._load_config d p = Ok (PDict [])).
  { intros p Hp. unfold Settings.file_exists in Hp. unfold Settings._load_config.
    destruct (d p); [reflexivity|discriminate Hp|discriminate Hp]. }
  split; [|split; [|split]].
  - destruct config_path as [p|]; [|exact Hstd].
    destruct (negb (p =? "")%string && Settings.file_exists d p) eqn:E; [|exact Hstd].
    apply andb_true_iff in E as [_ E]. left. exact E.
  - intros path -> Hne He. apply String.eqb_neq in Hne. rewrite Hne, He. reflexivity.
  - intros Hc Hp.
    assert (Es : standard = "config.yaml").
    { subst standard. simpl. rewrite Hc. reflexivity. }
    destruct config_path as [p|]; [|exact Es].
    rewrite (Hp p eq_refl), andb_false_r. exact Es.
  - apply Hload.
Qed.
